(** * qubit-opencensus: the asyncio context tracer and its instrumentation hooks

    A shallow embedding of
      - qubit/opencensus/trace/tracers/asyncio_context_tracer.py
        (ContextTracer, AsyncSpan, span),
      - qubit/opencensus/trace/ext/aioredis/trace.py (wrap_execute),
      - qubit/opencensus/trace/ext/sanic/sanic_middleware.py
        (SanicMiddleware.do_trace_request),
    together with the parts of the Python runtime and of the opencensus
    SDK those files lean on.

    Python objects that are mutated in place (spans, tracers) live in a
    heap and are named by references; the context store, the exporter's
    call log and the logging output are further components of the world.
    Code that may raise runs in a state-and-exception monad in which a
    raised exception keeps the mutations made so far. *)

From stdpp Require Import base option list gmap strings.
From Stdlib Require Import ZArith Lia.

Local Open Scope string_scope.

(** ** Python values and exceptions *)

(** The Python objects that reach span names, span attributes and call
    arguments.  A function object is known by its [__name__] and by whether
    it is a coroutine function ([async def]); what calling it does is given
    by the program around it (see [call_function] below). *)
Inductive pyval :=
  | PNone
  | PBool (b : bool)
  | PInt (z : Z)
  | PStr (s : string)
  | PBytes (b : list Byte.byte)
  | PFunc (name : string) (is_coroutine : bool).

(** An exception object.  [exc_is_Exception] says whether its class derives
    from [Exception] (as opposed to [BaseException] only, like
    KeyboardInterrupt), [exc_truthy] is [bool(exc)] and [exc_str] is
    [str(exc)]. *)
Record exn := Exn {
  exc_class : string;
  exc_is_Exception : bool;
  exc_truthy : bool;
  exc_str : string
}.

Definition AttributeError (msg : string) : exn := Exn "AttributeError" true true msg.
Definition TypeError (msg : string) : exn := Exn "TypeError" true true msg.
Definition IndexError (msg : string) : exn := Exn "IndexError" true true msg.

Inductive result (A : Type) :=
  | Ok (a : A)
  | Raise (e : exn).
Arguments Ok {A} a.
Arguments Raise {A} e.

(** ** Objects of the opencensus SDK *)

(** References into the heaps of span and tracer objects. *)
Abbreviation span_ref := nat (only parsing).
Abbreviation tracer_ref := nat (only parsing).

(** What a span's [parent_span] attribute holds: nothing, another [Span],
    or a [base.NullContextManager(span_id=...)]. *)
Inductive parent_obj :=
  | ParentNone
  | ParentSpan (r : span_ref)
  | NullContextManager (span_id : option string).

(** Modelled from the spec: the opencensus SDK (pinned at 0.5.0 by
    setup.py) is an external dependency and not among the sources.
    [opencensus.trace.span.Span] has the attributes section 3 of the
    specification lists: name, identity, parent (a back-reference), times,
    attributes and the list of child spans.  The attributes the code of this
    repository never writes (stack_trace, time_events, links, status,
    same_process_as_parent_span, span_kind) keep the constructor's defaults
    and are left out. *)
Module trace_span.
Record Span := mkSpan {
  name : pyval;
  parent_span : parent_obj;
  attributes : gmap string pyval;
  start_time : option string;
  end_time : option string;
  span_id : string;
  children : list span_ref;
  context_tracer : option tracer_ref
}.

Definition set_name (n : pyval) (s : Span) : Span :=
  mkSpan n (parent_span s) (attributes s) (start_time s) (end_time s)
         (span_id s) (children s) (context_tracer s).
Definition set_attributes (a : gmap string pyval) (s : Span) : Span :=
  mkSpan (name s) (parent_span s) a (start_time s) (end_time s)
         (span_id s) (children s) (context_tracer s).
Definition set_start_time (t : option string) (s : Span) : Span :=
  mkSpan (name s) (parent_span s) (attributes s) t (end_time s)
         (span_id s) (children s) (context_tracer s).
Definition set_end_time (t : option string) (s : Span) : Span :=
  mkSpan (name s) (parent_span s) (attributes s) (start_time s) t
         (span_id s) (children s) (context_tracer s).
End trace_span.

#[global] Instance Span_inhabited : Inhabited trace_span.Span :=
  populate (trace_span.mkSpan PNone ParentNone ∅ None None "" [] None).

(** Modelled from the spec: [opencensus.trace.span_context.SpanContext],
    the trace identity of section 3 (trace id and current span id) with the
    two flags the propagator sets and the middleware reads. *)
Module span_context.
Record SpanContext := mkSpanContext {
  trace_id : string;
  span_id : option string;
  from_header : bool;
  trace_options_enabled : bool
}.
Definition set_span_id (i : option string) (c : SpanContext) : SpanContext :=
  mkSpanContext (trace_id c) i (from_header c) (trace_options_enabled c).
End span_context.

(** Modelled from the spec: [opencensus.trace.span_data.SpanData], the
    record handed to an exporter, with the fields [get_span_datas] fills.  [context] is the tracer whose (shared, mutable) span context
    the record points to; [source] is not a Python attribute: it remembers
    which span object the record was built from. *)
Module span_data_module.
Record SpanData := mkSpanData {
  source : span_ref;
  name : pyval;
  context : tracer_ref;
  span_id : string;
  parent_span_id : option string;
  attributes : gmap string pyval;
  start_time : option string;
  end_time : option string;
  child_span_count : nat
}.
End span_data_module.

(** Exporter objects: the default [PrintExporter()] or one supplied by the
    caller.  An exporter is an opaque sink; the world logs its calls. *)
Inductive exporter_obj :=
  | PrintExporter
  | Exporter (id : nat).

(** The attributes of a [ContextTracer] object. *)
Module tracer_obj.
Record ContextTracer := mkContextTracer {
  exporter : exporter_obj;
  span_context : span_context.SpanContext;
  trace_id : string;
  root_span_id : option string;
  _spans_list : list span_ref
}.
Definition set_span_context (c : span_context.SpanContext) (t : ContextTracer) :=
  mkContextTracer (exporter t) c (trace_id t) (root_span_id t) (_spans_list t).
Definition set_spans_list (l : list span_ref) (t : ContextTracer) :=
  mkContextTracer (exporter t) (span_context t) (trace_id t) (root_span_id t) l.
End tracer_obj.

#[global] Instance ContextTracer_inhabited : Inhabited tracer_obj.ContextTracer :=
  populate (tracer_obj.mkContextTracer PrintExporter
              (span_context.mkSpanContext "" None false false) "" None []).

(** A tracer as the instrumentation sees it: opencensus's [NoopTracer]
    ("a no-op tracer that records nothing", section 4.4) or a
    [ContextTracer] object; and what [start_span] returns: a [BlankSpan] or a
    [Span] object. *)
Inductive tracer_val :=
  | NoopTracer
  | ContextTracerRef (t : tracer_ref).

Inductive span_val :=
  | BlankSpan
  | SpanObj (r : span_ref).

(** ** The world *)

Record World := mkWorld {
  spans : list trace_span.Span;               (* heap of Span objects *)
  tracers : list tracer_obj.ContextTracer;    (* heap of ContextTracer objects *)
  ctx_tracer : option tracer_val;             (* context store: active tracer *)
  ctx_span : option span_ref;                 (* context store: current span *)
  exported : list (exporter_obj * list span_data_module.SpanData);
                                              (* calls to exporter.export, oldest first *)
  warnings : list string;                     (* logging.warning calls *)
  random_ids : nat → string;                  (* what the n-th generated id will be *)
  ids_drawn : nat;
  clock : nat → string;                       (* what the n-th clock reading will be *)
  clock_reads : nat
}.

Definition set_spans (v : list trace_span.Span) (w : World) : World :=
  mkWorld v (tracers w) (ctx_tracer w) (ctx_span w) (exported w) (warnings w)
          (random_ids w) (ids_drawn w) (clock w) (clock_reads w).
Definition set_tracers (v : list tracer_obj.ContextTracer) (w : World) : World :=
  mkWorld (spans w) v (ctx_tracer w) (ctx_span w) (exported w) (warnings w)
          (random_ids w) (ids_drawn w) (clock w) (clock_reads w).
Definition set_ctx_tracer (v : option tracer_val) (w : World) : World :=
  mkWorld (spans w) (tracers w) v (ctx_span w) (exported w) (warnings w)
          (random_ids w) (ids_drawn w) (clock w) (clock_reads w).
Definition set_ctx_span (v : option span_ref) (w : World) : World :=
  mkWorld (spans w) (tracers w) (ctx_tracer w) v (exported w) (warnings w)
          (random_ids w) (ids_drawn w) (clock w) (clock_reads w).
Definition set_exported (v : list (exporter_obj * list span_data_module.SpanData))
    (w : World) : World :=
  mkWorld (spans w) (tracers w) (ctx_tracer w) (ctx_span w) v (warnings w)
          (random_ids w) (ids_drawn w) (clock w) (clock_reads w).
Definition set_warnings (v : list string) (w : World) : World :=
  mkWorld (spans w) (tracers w) (ctx_tracer w) (ctx_span w) (exported w) v
          (random_ids w) (ids_drawn w) (clock w) (clock_reads w).
Definition set_ids_drawn (v : nat) (w : World) : World :=
  mkWorld (spans w) (tracers w) (ctx_tracer w) (ctx_span w) (exported w) (warnings w)
          (random_ids w) v (clock w) (clock_reads w).
Definition set_clock_reads (v : nat) (w : World) : World :=
  mkWorld (spans w) (tracers w) (ctx_tracer w) (ctx_span w) (exported w) (warnings w)
          (random_ids w) (ids_drawn w) (clock w) v.

(** ** The state-and-exception monad *)

Definition M (A : Type) : Type := World → result A * World.

Definition ret {A} (a : A) : M A := λ w, (Ok a, w).
Definition raise {A} (e : exn) : M A := λ w, (Raise e, w).
Definition bind {A B} (m : M A) (k : A → M B) : M B :=
  λ w, match m w with
       | (Ok a, w') => k a w'
       | (Raise e, w') => (Raise e, w')
       end.
Definition gets {A} (f : World → A) : M A := λ w, (Ok (f w), w).
Definition modify (f : World → World) : M unit := λ w, (Ok tt, f w).

Declare Scope py_scope.
Delimit Scope py_scope with py.
Notation "x <- c1 ;; c2" := (bind c1 (λ x, c2))
  (at level 100, c1 at next level, right associativity) : py_scope.
Notation "c1 ;;; c2" := (bind c1 (λ _, c2))
  (at level 100, right associativity) : py_scope.
Local Open Scope py_scope.

(** [try: body except Exception as e: handler(e)]: only exceptions whose
    class derives from [Exception] are caught. *)
Definition try_except_Exception {A} (body : M A) (handler : exn → M A) : M A :=
  λ w, match body w with
       | (Ok a, w') => (Ok a, w')
       | (Raise e, w') =>
           if exc_is_Exception e then handler e w' else (Raise e, w')
       end.

(** ** opencensus: clock, identifiers and the methods of [Span] *)

(** [utils.to_iso_str()]: the next reading of the clock. *)
Definition to_iso_str : M string :=
  λ w, (Ok (clock w (clock_reads w)), set_clock_reads (S (clock_reads w)) w).

(** [generate_span_id()] and [generate_trace_id()]: the next random
    identifier.  Nothing makes two of them differ. *)
Definition generate_id : M string :=
  λ w, (Ok (random_ids w (ids_drawn w)), set_ids_drawn (S (ids_drawn w)) w).

(** Reading and updating the object behind a reference. *)
Definition read_span (r : span_ref) : M trace_span.Span :=
  gets (λ w, spans w !!! r).
Definition update_span (r : span_ref) (f : trace_span.Span → trace_span.Span) : M unit :=
  modify (λ w, set_spans (<[r := f (spans w !!! r)]> (spans w)) w).
Definition read_tracer (t : tracer_ref) : M tracer_obj.ContextTracer :=
  gets (λ w, tracers w !!! t).
Definition update_tracer (t : tracer_ref)
    (f : tracer_obj.ContextTracer → tracer_obj.ContextTracer) : M unit :=
  modify (λ w, set_tracers (<[t := f (tracers w !!! t)]> (tracers w)) w).

Module Span.
(** Modelled from the spec: [Span(name, parent_span=..., context_tracer=...)]
    constructs "a new span linked to that parent" (section 4.2): a new
    object with a generated span id, no attributes, no times and an empty
    child list.  As in opencensus, the constructor does not touch the parent:
    only [Span.span()], which this repository never calls, appends to a
    span's child list. *)
Definition __init__ (name : pyval) (parent_span : parent_obj)
    (context_tracer : option tracer_ref) : M span_ref :=
  span_id <- generate_id ;;
  r <- gets (λ w, length (spans w)) ;;
  modify (λ w, set_spans
    (spans w ++ [trace_span.mkSpan name parent_span ∅ None None span_id []
                   context_tracer]) w) ;;;
  ret r.

(** [self.start_time = utils.to_iso_str()] *)
Definition start (self : span_ref) : M unit :=
  t <- to_iso_str ;;
  update_span self (trace_span.set_start_time (Some t)).

(** [self.end_time = utils.to_iso_str()] *)
Definition finish (self : span_ref) : M unit :=
  t <- to_iso_str ;;
  update_span self (trace_span.set_end_time (Some t)).

(** [self.attributes[attribute_key] = attribute_value] *)
Definition add_attribute (self : span_ref) (attribute_key : string)
    (attribute_value : pyval) : M unit :=
  update_span self (λ s,
    trace_span.set_attributes (<[attribute_key := attribute_value]> (trace_span.attributes s)) s).

(** Modelled from the spec: [__iter__] walks the span's owned subtree
    depth-first (section 4.2); as in opencensus, the spans of the children's
    subtrees come first, then the span itself.  The recursion follows
    references through the heap [h], so it is bounded by [fuel]. *)
Fixpoint __iter__ (fuel : nat) (h : list trace_span.Span) (self : span_ref)
    : list span_ref :=
  match fuel with
  | O => []
  | S n => concat (map (__iter__ n h) (trace_span.children (h !!! self))) ++ [self]
  end.
End Span.

(** ** The context store *)

Module asyncio_context.
(** Modelled from the spec: module qubit.opencensus.trace.asyncio_context is
    not among the sources.  Section 4.1 of the specification gives its
    contract: a slot per logical task for the active tracer and one for the
    current span.  The world holds the two slots of the calling task.
    [get_opencensus_tracer()] returns the task's tracer, or none if never
    set. *)
Definition get_opencensus_tracer : M (option tracer_val) := gets ctx_tracer.

(** Modelled from the spec: [set_opencensus_tracer(tracer)] associates the
    tracer with the calling task (section 4.1, [set_tracer]). *)
Definition set_opencensus_tracer (tracer : tracer_val) : M unit :=
  modify (set_ctx_tracer (Some tracer)).

(** Modelled from the spec: [get_current_span()] returns the association
    for the calling task, or none if never set (section 4.1). *)
Definition get_current_span : M (option span_ref) := gets ctx_span.

(** Modelled from the spec: [set_current_span(span)] associates [span],
    which may be [None], with the calling task; no return value
    (section 4.1). *)
Definition set_current_span (span : option span_ref) : M unit :=
  modify (set_ctx_span span).
End asyncio_context.

(** ** asyncio_context_tracer.ContextTracer *)

(** [list.remove(x)]: drops the first occurrence. *)
Fixpoint py_list_remove (x : nat) (l : list nat) : list nat :=
  match l with
  | [] => []
  | y :: l' => if decide (y = x) then l' else y :: py_list_remove x l'
  end.

Module ContextTracer.
(** [SpanContext()]: a fresh trace id, no span id, not from a header,
    default trace options (enabled). *)
Definition new_SpanContext : M span_context.SpanContext :=
  trace_id <- generate_id ;;
  ret (span_context.mkSpanContext trace_id None false true).

Definition __init__ (exporter : option exporter_obj)
    (span_context : option span_context.SpanContext) : M tracer_ref :=
  let exporter := match exporter with None => PrintExporter | Some e => e end in
  span_context <- match span_context with
                  | None => new_SpanContext
                  | Some c => ret c
                  end ;;
  t <- gets (λ w, length (tracers w)) ;;
  modify (λ w, set_tracers
    (tracers w ++ [tracer_obj.mkContextTracer exporter span_context
                     (span_context.trace_id span_context)
                     (span_context.span_id span_context) []]) w) ;;;
  ret t.

Definition current_span (self : tracer_ref) : M (option span_ref) :=
  asyncio_context.get_current_span.

Definition start_span (self : tracer_ref) (name : pyval) : M span_ref :=
  parent_span <- current_span self ;;
  parent_span <- match parent_span with
                 | None =>
                     me <- read_tracer self ;;
                     ret (NullContextManager
                            (span_context.span_id (tracer_obj.span_context me)))
                 | Some p => ret (ParentSpan p)
                 end ;;
  span <- Span.__init__ name parent_span (Some self) ;;
  update_tracer self (λ me,
    tracer_obj.set_spans_list (tracer_obj._spans_list me ++ [span]) me) ;;;
  s <- read_span span ;;
  update_tracer self (λ me,
    tracer_obj.set_span_context
      (span_context.set_span_id (Some (trace_span.span_id s))
         (tracer_obj.span_context me)) me) ;;;
  asyncio_context.set_current_span (Some span) ;;;
  Span.start span ;;;
  ret span.

(** [span(name)] is [start_span(name)]. *)
Definition span (self : tracer_ref) (name : pyval) : M span_ref :=
  start_span self name.

(** The flattened subtree of [span], one record per span. *)
Definition get_span_datas (self : tracer_ref) (span : span_ref)
    : M (list span_data_module.SpanData) :=
  h <- gets spans ;;
  let span_tree := Span.__iter__ (S (length h)) h span in
  ret (map (λ r,
         let span := h !!! r in
         span_data_module.mkSpanData r
           (trace_span.name span)
           self
           (trace_span.span_id span)
           (match trace_span.parent_span span with
            | ParentNone => None
            | ParentSpan p => Some (trace_span.span_id (h !!! p))
            | NullContextManager i => i
            end)
           (trace_span.attributes span)
           (trace_span.start_time span)
           (trace_span.end_time span)
           (length (trace_span.children span)))
       span_tree).

(** [self.exporter.export(span_datas)] *)
Definition export (self : tracer_ref) (span_datas : list span_data_module.SpanData)
    : M unit :=
  me <- read_tracer self ;;
  modify (λ w, set_exported (exported w ++ [(tracer_obj.exporter me, span_datas)]) w).

Definition end_span (self : tracer_ref) : M (option span_ref) :=
  cur_span <- current_span self ;;
  me <- read_tracer self ;;
  let cur_span := match cur_span, tracer_obj._spans_list me with
                  | None, _ :: _ => last (tracer_obj._spans_list me)
                  | _, _ => cur_span
                  end in
  match cur_span with
  | None =>
      modify (λ w, set_warnings
        (warnings w ++ ["No active span, cannot do end_span."]) w) ;;;
      ret None
  | Some cur =>
      Span.finish cur ;;;
      s <- read_span cur ;;
      h <- gets spans ;;
      update_tracer self (λ me,
        tracer_obj.set_span_context
          (span_context.set_span_id
             (match trace_span.parent_span s with
              | ParentNone => None
              | ParentSpan p => Some (trace_span.span_id (h !!! p))
              | NullContextManager i => i
              end)
             (tracer_obj.span_context me)) me) ;;;
      match trace_span.parent_span s with
      | ParentSpan p => asyncio_context.set_current_span (Some p)
      | _ => asyncio_context.set_current_span None
      end ;;;
      me <- read_tracer self ;;
      (if bool_decide (cur ∈ tracer_obj._spans_list me) then
         span_datas <- get_span_datas self cur ;;
         export self span_datas ;;;
         update_tracer self (λ me,
           tracer_obj.set_spans_list
             (py_list_remove cur (tracer_obj._spans_list me)) me)
       else ret tt) ;;;
      ret (Some cur)
  end.

(** [while self._spans_list: self.end_span()].  The loop is bounded by
    [fuel]; [None] means the bound was reached. *)
Fixpoint finish (fuel : nat) (self : tracer_ref) (w : World)
    : option (result unit * World) :=
  match fuel with
  | O => None
  | S n =>
      match tracer_obj._spans_list (tracers w !!! self) with
      | [] => Some (Ok tt, w)
      | _ :: _ =>
          match end_span self w with
          | (Ok _, w') => finish n self w'
          | (Raise e, w') => Some (Raise e, w')
          end
      end
  end.

Definition list_collected_spans (self : tracer_ref) : M (list span_ref) :=
  me <- read_tracer self ;;
  ret (tracer_obj._spans_list me).

(** [current_span.add_attribute(...)] with no check for [None]: on [None]
    the attribute lookup raises. *)
Definition add_attribute_to_current_span (self : tracer_ref)
    (attribute_key : string) (attribute_value : pyval) : M unit :=
  current_span <- current_span self ;;
  match current_span with
  | None => raise (AttributeError "'NoneType' object has no attribute 'add_attribute'")
  | Some c => Span.add_attribute c attribute_key attribute_value
  end.
End ContextTracer.

(** ** Calls through a tracer object *)

(** The instrumentation calls [start_span], [end_span] and
    [add_attribute_to_current_span] on whatever tracer it holds.  Modelled
    from the spec: opencensus's [NoopTracer] "records nothing" (section
    4.4); its [start_span] returns a [BlankSpan] and its other methods do
    nothing. *)
Module Tracer.
Definition start_span (tracer : tracer_val) (name : pyval) : M span_val :=
  match tracer with
  | NoopTracer => ret BlankSpan
  | ContextTracerRef t => r <- ContextTracer.start_span t name ;; ret (SpanObj r)
  end.

Definition end_span (tracer : tracer_val) : M unit :=
  match tracer with
  | NoopTracer => ret tt
  | ContextTracerRef t => ContextTracer.end_span t ;;; ret tt
  end.

Definition add_attribute_to_current_span (tracer : tracer_val)
    (attribute_key : string) (attribute_value : pyval) : M unit :=
  match tracer with
  | NoopTracer => ret tt
  | ContextTracerRef t =>
      ContextTracer.add_attribute_to_current_span t attribute_key attribute_value
  end.
End Tracer.

(** [span.name = n] *)
Definition set_span_name (span : span_val) (n : pyval) : M unit :=
  match span with
  | BlankSpan => ret tt
  | SpanObj r => update_span r (trace_span.set_name n)
  end.

(** A method call on the result of [get_opencensus_tracer()], which is
    [None] when no tracer is active. *)
Definition on_tracer {A} (tracer : option tracer_val) (method : string)
    (call : tracer_val → M A) : M A :=
  match tracer with
  | None => raise (AttributeError
      ("'NoneType' object has no attribute '" ++ method ++ "'"))
  | Some t => call t
  end.

(** [bool(x)] *)
Definition truthy (x : pyval) : bool :=
  match x with
  | PNone => false
  | PBool b => b
  | PInt z => negb (Z.eqb z 0)
  | PStr s => negb (String.eqb s "")
  | PBytes b => match b with [] => false | _ => true end
  | PFunc _ _ => true
  end.

(** [callable(x)] *)
Definition callable (x : pyval) : bool :=
  match x with
  | PFunc _ _ => true
  | _ => false
  end.

(** [with mgr: body], given the [__enter__] and [__exit__] the class of
    [mgr] defines, if any.  The statement looks both up before it runs
    anything and raises when one is missing (AttributeError up to Python
    3.10, the versions this package declares; TypeError from 3.11).  The
    result is [None] when the body raised and [__exit__] suppressed it. *)
Definition with_statement {E A} (__enter__ : option (M E))
    (__exit__ : option (option exn → M bool)) (body : E → M A) : M (option A) :=
  match __enter__, __exit__ with
  | None, _ => raise (AttributeError "__enter__")
  | _, None => raise (AttributeError "__exit__")
  | Some enter, Some exit_ =>
      λ w, match enter w with
           | (Raise e, w1) => (Raise e, w1)
           | (Ok v, w1) =>
               match body v w1 with
               | (Ok a, w2) =>
                   match exit_ None w2 with
                   | (Ok _, w3) => (Ok (Some a), w3)
                   | (Raise e, w3) => (Raise e, w3)
                   end
               | (Raise e, w2) =>
                   match exit_ (Some e) w2 with
                   | (Ok true, w3) => (Ok None, w3)
                   | (Ok false, w3) => (Raise e, w3)
                   | (Raise e', w3) => (Raise e', w3)
                   end
               end
           end
  end.

(** [async with mgr as v: body] for a class whose [__aexit__] returns
    [None] when it returns: an exception of the body is then raised again
    after [__aexit__]; an exception of [__aexit__] itself replaces it. *)
Definition async_with {E A} (__aenter__ : M E) (__aexit__ : option exn → M unit)
    (body : E → M A) : M A :=
  λ w, match __aenter__ w with
       | (Raise e, w1) => (Raise e, w1)
       | (Ok v, w1) =>
           match body v w1 with
           | (Ok a, w2) =>
               match __aexit__ None w2 with
               | (Ok _, w3) => (Ok a, w3)
               | (Raise e, w3) => (Raise e, w3)
               end
           | (Raise e, w2) =>
               match __aexit__ (Some e) w2 with
               | (Ok _, w3) => (Raise e, w3)
               | (Raise e', w3) => (Raise e', w3)
               end
           end
       end.

Section Program.

(** What calling the function named [f] does, and Python's [str()]. *)
Variable call_function : string → list pyval → list (string * pyval) → M pyval.
Variable py_str : pyval → string.

(** ** asyncio_context_tracer.AsyncSpan *)

Record AsyncSpanObj := mkAsyncSpan {
  as_name : pyval;
  as_function : pyval
}.

Definition AsyncSpan__init__ (function : pyval) (name : pyval) : M AsyncSpanObj :=
  match function with
  | PStr _ => ret (mkAsyncSpan function PNone)
  | PFunc _ _ => ret (mkAsyncSpan name function)
  | _ => raise (TypeError
      "First parameter must be either a span name or a callable function")
  end.

Definition AsyncSpan__aenter__ (self : AsyncSpanObj) : M span_val :=
  _tracer <- asyncio_context.get_opencensus_tracer ;;
  _span <- on_tracer _tracer "start_span" (λ t, Tracer.start_span t (PStr "span")) ;;
  name <- match as_name self with
          | PNone =>
              match as_function self with
              | PFunc f _ => ret (PStr ("[func] " ++ f))
              | _ => raise (AttributeError "object has no attribute '__name__'")
              end
          | n => ret n
          end ;;
  set_span_name _span name ;;;
  ret _span.

Definition AsyncSpan__aexit__ (self : AsyncSpanObj) (exc : option exn) : M unit :=
  _tracer <- asyncio_context.get_opencensus_tracer ;;
  match exc with
  | Some e =>
      if exc_truthy e then
        on_tracer _tracer "add_attribute_to_current_span" (λ t,
          Tracer.add_attribute_to_current_span t "error" (PBool true)) ;;;
        on_tracer _tracer "add_attribute_to_current_span" (λ t,
          Tracer.add_attribute_to_current_span t "error.message" (PStr (exc_str e))) ;;;
        on_tracer _tracer "end_span" Tracer.end_span ;;;
        raise e
      else
        on_tracer _tracer "end_span" Tracer.end_span
  | None => on_tracer _tracer "end_span" Tracer.end_span
  end.

(** [async with self as v: body] *)
Definition AsyncSpan_block {A} (self : AsyncSpanObj) (body : span_val → M A) : M A :=
  async_with (AsyncSpan__aenter__ self) (AsyncSpan__aexit__ self) body.

(** [__call__].  Class AsyncSpan defines [__init__], [__call__],
    [__aenter__] and [__aexit__], so the [with self:] of the first branch
    finds neither [__enter__] nor [__exit__].  The result is a value, or
    [self] with its function set. *)
Definition AsyncSpan__call__ (self : AsyncSpanObj) (args : list pyval)
    (kargs : list (string * pyval)) : M (pyval + AsyncSpanObj) :=
  if truthy (as_function self) then
    r <- with_statement (E := unit) None None (λ _,
           match as_function self with
           | PFunc f true => call_function f args kargs
           | PFunc f false => call_function f args kargs
           | _ => raise (TypeError "object is not callable")
           end) ;;
    ret (inl (default PNone r))
  else
    match args with
    | a :: _ =>
        if callable a then ret (inr (mkAsyncSpan (as_name self) a))
        else raise (TypeError
          "Decorated function not yet set. Must be called with a callable function")
    | [] => raise (TypeError
          "Decorated function not yet set. Must be called with a callable function")
    end.

(** The module-level factory: [span(name=None)] is [AsyncSpan(name)]. *)
Definition span (name : pyval) : M AsyncSpanObj :=
  AsyncSpan__init__ name PNone.

(** ** ext.aioredis.trace *)

Record RedisConnection := mkRedisConnection {
  db : pyval;
  address : pyval * pyval;
  encoding : pyval
}.

Definition wrap_execute (wrapped : list pyval → list (string * pyval) → M pyval)
    (instance : RedisConnection) (args : list pyval)
    (kwargs : list (string * pyval)) : M pyval :=
  command <- match args with
             | [] => raise (IndexError "tuple index out of range")
             | c :: _ => ret c
             end ;;
  _tracer <- asyncio_context.get_opencensus_tracer ;;
  match _tracer with
  | None => wrapped args kwargs
  | Some _tracer =>
      _span <- Tracer.start_span _tracer (PStr "span") ;;
      set_span_name _span (PStr ("[aioredis] " ++ py_str command)) ;;;
      Tracer.add_attribute_to_current_span _tracer "redis.db" (db instance) ;;;
      Tracer.add_attribute_to_current_span _tracer "redis.address"
        (fst (address instance)) ;;;
      Tracer.add_attribute_to_current_span _tracer "redis.port"
        (snd (address instance)) ;;;
      Tracer.add_attribute_to_current_span _tracer "redis.encoding"
        (PStr (py_str (encoding instance))) ;;;
      match args with
      | _ :: key :: _ =>
          Tracer.add_attribute_to_current_span _tracer "redis.key" key
      | _ => ret tt
      end ;;;
      try_except_Exception
        (result <- wrapped args kwargs ;;
         match result with
         | PBytes b =>
             Tracer.add_attribute_to_current_span _tracer "redis.resposne.size"
               (PInt (Z.of_nat (length b)))
         | _ =>
             Tracer.add_attribute_to_current_span _tracer "redis.resposne.size"
               (PInt 0)
         end ;;;
         Tracer.end_span _tracer ;;;
         ret result)
        (λ e,
         Tracer.add_attribute_to_current_span _tracer "error" (PBool true) ;;;
         Tracer.add_attribute_to_current_span _tracer "error.message"
           (PStr (exc_str e)) ;;;
         Tracer.end_span _tracer ;;;
         raise e)
  end.

End Program.

(** ** ext.sanic.sanic_middleware *)

(** The parts of a sanic request the middleware reads, and the dict items it
    writes.  [route] is what [request.app.router.get(request)[3]] gives for
    this request: the matched route, or the exception the lookup raises. *)
Record Request := mkRequest {
  scheme : string;
  url : string;
  method : string;
  path : string;
  host : string;
  ip : pyval;
  headers : gmap string string;
  route : result string;
  items : gmap string tracer_val
}.

Definition set_item (k : string) (v : tracer_val) (r : Request) : Request :=
  mkRequest (scheme r) (url r) (method r) (path r) (host r) (ip r) (headers r)
            (route r) (<[k := v]> (items r)).

(** The middleware object after [init_app]: the sampler and the propagator
    are given by the one method the middleware calls on each. *)
Record SanicMiddleware := mkSanicMiddleware {
  blacklist_paths : option (list string);
  blacklist_methods : option (list string);
  sampler_should_sample : string → bool;
  exporter : exporter_obj;
  propagator_from_headers : gmap string string → span_context.SpanContext;
  service_name : string
}.

Section Sanic.

(** [opencensus.trace.utils.disable_tracing_url(url, blacklist_paths)] *)
Variable disable_tracing_url : string → option (list string) → bool.

(** [for header in [...]: if header in request.headers: ...] *)
Fixpoint add_header_attributes (tracer : tracer_val) (request : Request)
    (names : list string) : M unit :=
  match names with
  | [] => ret tt
  | header :: rest =>
      match headers request !! header with
      | Some v =>
          Tracer.add_attribute_to_current_span tracer
            ("http.headers." ++ header) (PStr v)
      | None => ret tt
      end ;;;
      add_header_attributes tracer request rest
  end.

(** [do_trace_request]; the result is the request with the items the call
    stored on it. *)
Definition do_trace_request (self : SanicMiddleware) (request : Request) : M Request :=
  if bool_decide (scheme request ∈ ["ws"; "wss"]) then ret request
  else if disable_tracing_url (url request) (blacklist_paths self) then ret request
  else if match blacklist_methods self with
          | Some (m :: ms) => bool_decide (method request ∈ m :: ms)
          | _ => false
          end then ret request
  else
    let span_context := propagator_from_headers self (headers request) in
    tracer <-
      (if span_context.from_header span_context
          && span_context.trace_options_enabled span_context then
         t <- ContextTracer.__init__ (Some (exporter self)) (Some span_context) ;;
         ret (ContextTracerRef t)
       else if sampler_should_sample self (span_context.trace_id span_context) then
         t <- ContextTracer.__init__ (Some (exporter self)) (Some span_context) ;;
         ret (ContextTracerRef t)
       else ret NoopTracer) ;;
    span <- Tracer.start_span tracer (PStr "span") ;;
    set_span_name span
      (PStr ("[" ++ service_name self ++ "] " ++ method request ++ " " ++ path request)) ;;;
    routing_url <-
      match route request with
      | Ok r =>
          set_span_name span
            (PStr ("[" ++ service_name self ++ "] " ++ method request ++ " " ++ r)) ;;;
          ret r
      | Raise ex =>
          if String.eqb (exc_class ex) "NotFound" then ret (url request)
          else raise ex
      end ;;
    Tracer.add_attribute_to_current_span tracer "http.method" (PStr (method request)) ;;;
    Tracer.add_attribute_to_current_span tracer "http.host" (PStr (host request)) ;;;
    Tracer.add_attribute_to_current_span tracer "http.scheme" (PStr (scheme request)) ;;;
    Tracer.add_attribute_to_current_span tracer "http.url" (PStr routing_url) ;;;
    Tracer.add_attribute_to_current_span tracer "http.client.ip" (ip request) ;;;
    add_header_attributes tracer request ["user-agent"; "x-forwarded-for"; "x-real-ip"] ;;;
    let request := set_item "tracer" tracer request in
    asyncio_context.set_opencensus_tracer tracer ;;;
    ret request.

End Sanic.

(** ** ext.sanic.sanic_middleware: the response phase *)

(** The part of a sanic response the middleware reads. *)
Record Response := mkResponse {
  status : Z
}.

(** [tracer.finish()] through a tracer object; [NoopTracer.finish] does
    nothing.  The loop of [ContextTracer.finish] is bounded by [fuel]. *)
Definition Tracer_finish (fuel : nat) (tracer : tracer_val) (w : World)
    : option (result unit * World) :=
  match tracer with
  | NoopTracer => Some (Ok tt, w)
  | ContextTracerRef t => ContextTracer.finish fuel t w
  end.

Section SanicResponse.

Variable disable_tracing_url : string → option (list string) → bool.
Variable py_str : pyval → string.

(** [do_trace_response]; [response] may be [None].  [None] as a result
    means that the bound on the loop of [finish] was reached. *)
Definition do_trace_response (fuel : nat) (self : SanicMiddleware)
    (request : Request) (response : option Response) (w : World)
    : option (result unit * World) :=
  if disable_tracing_url (url request) (blacklist_paths self) then Some (Ok tt, w)
  else
    match items request !! "tracer" with
    | None => Some (Ok tt, w)
    | Some tracer =>
        match
          (Tracer.add_attribute_to_current_span tracer "http.status_code"
             (PStr (match response with
                    | Some r => py_str (PInt (status r))
                    | None => ""
                    end)) ;;;
           match response with
           | Some r =>
               if (500 <=? status r)%Z
               then Tracer.add_attribute_to_current_span tracer "error" (PBool true)
               else ret tt
           | None => ret tt
           end ;;;
           Tracer.end_span tracer) w
        with
        | (Ok _, w') => Tracer_finish fuel tracer w'
        | (Raise e, w') => Some (Raise e, w')
        end
    end.

End SanicResponse.

(** * Specification vocabulary *)

Local Close Scope string_scope.

(** The open-span list of tracer [t]. *)
Definition open_spans (t : tracer_ref) (w : World) : list span_ref :=
  tracer_obj._spans_list (tracers w !!! t).

(** A stack of open spans, top first, is properly nested in heap [h] when
    its spans are distinct objects of [h], each one's parent is the span
    below it, and the bottom one's parent is not a [Span]. *)
Fixpoint nested (h : list trace_span.Span) (stk : list span_ref) : Prop :=
  match stk with
  | [] => True
  | r :: below =>
      r < length h ∧ (r ∉ below) ∧
      (match below with
       | p :: _ => trace_span.parent_span (h !!! r) = ParentSpan p
       | [] => ∀ p, trace_span.parent_span (h !!! r) ≠ ParentSpan p
       end) ∧
      nested h below
  end.

Definition properly_nested (t : tracer_ref) (w : World) : Prop :=
  t < length (tracers w) ∧ nested (spans w) (reverse (open_spans t w)).

(** Calls on a tracer, and what each returned. *)
Inductive call :=
  | StartSpan (name : pyval)
  | EndSpan
  | AddAttribute (key : string) (value : pyval).

Inductive outcome :=
  | Started (span : span_ref)
  | Ended (span : option span_ref)
  | Added
  | Failed (e : exn).

Definition do_call (t : tracer_ref) (c : call) (w : World) : outcome * World :=
  match c with
  | StartSpan name =>
      match ContextTracer.start_span t name w with
      | (Ok r, w') => (Started r, w')
      | (Raise e, w') => (Failed e, w')
      end
  | EndSpan =>
      match ContextTracer.end_span t w with
      | (Ok o, w') => (Ended o, w')
      | (Raise e, w') => (Failed e, w')
      end
  | AddAttribute k v =>
      match ContextTracer.add_attribute_to_current_span t k v w with
      | (Ok _, w') => (Added, w')
      | (Raise e, w') => (Failed e, w')
      end
  end.

(** A caller that goes on after a failed call. *)
Fixpoint run_calls (t : tracer_ref) (cs : list call) (w : World)
    : list outcome * World :=
  match cs with
  | [] => ([], w)
  | c :: cs' =>
      let (o, w1) := do_call t c w in
      let (os, w2) := run_calls t cs' w1 in
      (o :: os, w2)
  end.

(** What happens to a tracer over its life: calls on it, and in between
    other code of the process (another task sharing the tracer, another
    tracer) leaving a different span, or none, as the current one.  A
    reference names an object that exists, so a binding to a reference
    outside the heap does not occur. *)
Inductive event :=
  | TracerCall (c : call)
  | CurrentSpanSet (o : option span_ref).

Definition do_event (t : tracer_ref) (e : event) (w : World) : list outcome * World :=
  match e with
  | TracerCall c => let (o, w') := do_call t c w in ([o], w')
  | CurrentSpanSet None => ([], set_ctx_span None w)
  | CurrentSpanSet (Some r) =>
      if decide (r < length (spans w)) then ([], set_ctx_span (Some r) w) else ([], w)
  end.

Fixpoint run_events (t : tracer_ref) (es : list event) (w : World)
    : list outcome * World :=
  match es with
  | [] => ([], w)
  | e :: es' =>
      let (os1, w1) := do_event t e w in
      let (os2, w2) := run_events t es' w1 in
      ((os1 ++ os2)%list, w2)
  end.

(** How many records built from span [r] the exporters have been handed. *)
Definition export_count (r : span_ref) (w : World) : nat :=
  length (filter (λ d, span_data_module.source d = r)
                 (concat (map snd (exported w)))).

(** A state the process can be in: a span's parent is an older object, the
    current span exists, and the export log mentions existing spans only. *)
Definition world_ok (w : World) : Prop :=
  (∀ r p, r < length (spans w) →
          trace_span.parent_span (spans w !!! r) = ParentSpan p → p < r) ∧
  (∀ r, ctx_span w = Some r → r < length (spans w)) ∧
  (∀ r, length (spans w) ≤ r → export_count r w = 0).

(** ** Auxiliary notions for the proofs *)

(** The span [end_span] is going to end: the current span, else the last of
    the open list, else none. *)
Definition span_to_end (t : tracer_ref) (w : World) : option span_ref :=
  match ctx_span w, open_spans t w with
  | None, _ :: _ => last (open_spans t w)
  | c, _ => c
  end.

(** The heap after [Span.finish] stamped [time] on span [c]. *)
Definition finished (time : string) (h : list trace_span.Span) (c : span_ref) :=
  <[c := trace_span.set_end_time (Some time) (h !!! c)]> h.

(** The stack discipline: the open spans are properly nested and the top
    of the stack is the current span (none when the stack is empty). *)
Definition top_is_current (t : tracer_ref) (w : World) : Prop :=
  properly_nested t w ∧ ctx_span w = last (open_spans t w).

(** What holds of tracer [t] at every point of its life, whatever the
    current-span binding is; [base] is the size of the span heap when the
    tracer was created. *)
Record lifetime_inv (t base : nat) (w : World) : Prop := {
  inv_tracer : t < length (tracers w);
  inv_base : base ≤ length (spans w);
  inv_parents : ∀ r p, r < length (spans w) →
      trace_span.parent_span (spans w !!! r) = ParentSpan p → p < r;
  inv_current : ∀ r, ctx_span w = Some r → r < length (spans w);
  inv_nodup : NoDup (open_spans t w);
  inv_open : ∀ r, r ∈ open_spans t w → base ≤ r < length (spans w);
  inv_leaf : ∀ r, base ≤ r → trace_span.children (spans w !!! r) = [];
  inv_opened : ∀ r, r ∈ open_spans t w → export_count r w = 0;
  inv_closed : ∀ r, base ≤ r < length (spans w) → r ∉ open_spans t w →
      export_count r w = 1 ∧ trace_span.end_time (spans w !!! r) ≠ None;
  inv_future : ∀ r, length (spans w) ≤ r → export_count r w = 0
}.

(** What [finish] still has to do: every pass of its loop either takes a
    span off the open list or moves the current span to an older one. *)
Definition finish_measure (t : tracer_ref) (w : World) : nat :=
  length (open_spans t w) * S (length (spans w)) +
  match ctx_span w with Some r => S r | None => 0 end.

(** The name [__aenter__] gives the span of an [AsyncSpan] object. *)
Definition entered_name (a : AsyncSpanObj) : option pyval :=
  match as_name a, as_function a with
  | PNone, PFunc f _ => Some (PStr ("[func] " ++ f)%string)
  | PNone, _ => None
  | n, _ => Some n
  end.

(** ** The span context, exported records and changes of attributes *)

(** The record [get_span_datas] builds for span [r] of heap [h]. *)
Definition span_record (t : tracer_ref) (h : list trace_span.Span) (r : span_ref)
    : span_data_module.SpanData :=
  span_data_module.mkSpanData r
    (trace_span.name (h !!! r)) t (trace_span.span_id (h !!! r))
    (match trace_span.parent_span (h !!! r) with
     | ParentNone => None
     | ParentSpan p => Some (trace_span.span_id (h !!! p))
     | NullContextManager i => i
     end)
    (trace_span.attributes (h !!! r))
    (trace_span.start_time (h !!! r))
    (trace_span.end_time (h !!! r))
    (length (trace_span.children (h !!! r))).

(** The id the tracer's span context holds. *)
Definition context_span_id (t : tracer_ref) (w : World) : option string :=
  span_context.span_id (tracer_obj.span_context (tracers w !!! t)).

(** The span id the tracer was created with: the remote parent of a
    continued trace, or none. *)
Definition remote_span_id (t : tracer_ref) (w : World) : option string :=
  tracer_obj.root_span_id (tracers w !!! t).

(** The tracer's span context is in step with its stack: it holds the id
    of the current span, or the remote id when no span is open; the bottom
    span's parent stands for the remote span; open spans have no children. *)
Record in_step (t : tracer_ref) (w : World) : Prop := {
  step_stack : top_is_current t w;
  step_context :
    context_span_id t w =
      match ctx_span w with
      | Some c => Some (trace_span.span_id (spans w !!! c))
      | None => remote_span_id t w
      end;
  step_remote :
    match open_spans t w with
    | r0 :: _ => trace_span.parent_span (spans w !!! r0)
                 = NullContextManager (remote_span_id t w)
    | [] => True
    end;
  step_leaf : ∀ r, r ∈ open_spans t w → trace_span.children (spans w !!! r) = []
}.

(** The world after [key] is set to [value] on span [c]. *)
Definition with_attribute (c : span_ref) (key : string) (value : pyval) (w : World)
    : World :=
  set_spans
    (<[c := trace_span.set_attributes
              (<[key := value]> (trace_span.attributes (spans w !!! c)))
              (spans w !!! c)]> (spans w)) w.

(** The world after span [r] is renamed. *)
Definition renamed (r : span_ref) (n : pyval) (w : World) : World :=
  set_spans (<[r := trace_span.set_name n (spans w !!! r)]> (spans w)) w.

(** Two heaps that differ at most in names and attributes. *)
Definition same_structure (h h' : list trace_span.Span) : Prop :=
  length h' = length h ∧
  ∀ r, trace_span.parent_span (h' !!! r) = trace_span.parent_span (h !!! r) ∧
       trace_span.children (h' !!! r) = trace_span.children (h !!! r) ∧
       trace_span.span_id (h' !!! r) = trace_span.span_id (h !!! r) ∧
       trace_span.end_time (h' !!! r) = trace_span.end_time (h !!! r) ∧
       trace_span.start_time (h' !!! r) = trace_span.start_time (h !!! r).

(** A call that leaves the tracing state as it found it. *)
Definition tracing_untouched (w1 w2 : World) : Prop :=
  spans w2 = spans w1 ∧ tracers w2 = tracers w1 ∧ ctx_span w2 = ctx_span w1 ∧
  ctx_tracer w2 = ctx_tracer w1 ∧ exported w2 = exported w1.

(** The text and the error mark [do_trace_response] records for a response. *)
Definition status_code_text (py_str : pyval → string) (response : option Response)
    : string :=
  match response with
  | Some r => py_str (PInt (status r))
  | None => ""%string
  end.

Definition server_error (response : option Response) : bool :=
  match response with
  | Some r => (500 <=? status r)%Z
  | None => false
  end.

(** ** Example states and inputs *)

Local Open Scope string_scope.

(** A process that has traced nothing yet. *)
Definition boot_world : World :=
  mkWorld [] [] None None [] [] (λ _, "id") 0 (λ _, "now") 0.

(** The same with one [ContextTracer] created and active, as
    [do_trace_request] leaves it before its first span. *)
Definition traced_world : World :=
  mkWorld []
    [tracer_obj.mkContextTracer PrintExporter
       (span_context.mkSpanContext "trace" None false true) "trace" None []]
    (Some (ContextTracerRef 0)) None [] [] (λ _, "id") 0 (λ _, "now") 0.

Definition KeyboardInterrupt : exn := Exn "KeyboardInterrupt" false true "".
Definition ValueError (msg : string) : exn := Exn "ValueError" true true msg.
(** An exception of a class that defines [__bool__] to return [False]. *)
Definition QuietError (msg : string) : exn := Exn "QuietError" true false msg.

Definition redis_connection : RedisConnection :=
  mkRedisConnection (PInt 0) (PStr "localhost", PInt 6379) (PStr "utf-8").

Definition py_str_example (v : pyval) : string :=
  match v with
  | PStr s => s
  | _ => "?"
  end.

(** [boot_world] after [ContextTracer()]. *)
Definition fresh_tracer_world : World :=
  (ContextTracer.__init__ None None boot_world).2.

Definition example_calls : list call :=
  [StartSpan (PStr "request"); StartSpan (PStr "query"); EndSpan;
   AddAttribute "http.status_code" (PStr "200")].

Definition example_events : list event :=
  [TracerCall (StartSpan (PStr "request"));
   TracerCall (StartSpan (PStr "query"));
   CurrentSpanSet None;
   TracerCall EndSpan;
   TracerCall (StartSpan (PStr "render"));
   CurrentSpanSet (Some 0);
   TracerCall EndSpan].

(** Two spans open, the second a child of the first and current. *)
Definition two_open_world : World :=
  (run_calls 0 [StartSpan (PStr "request"); StartSpan (PStr "query")]
     fresh_tracer_world).2.

(** A stand-in for opencensus's [disable_tracing_url]: the URL's path starts
    with one of the blacklisted paths. *)
Definition disable_tracing_url_example (url : string) (paths : option (list string)) : bool :=
  match paths with
  | None => false
  | Some ps => existsb (λ p, String.prefix ("http://svc/" ++ p) url) ps
  end.

Definition health_request : Request :=
  mkRequest "http" "http://svc/health" "GET" "/health" "svc" (PStr "10.0.0.1")
            ∅ (Ok "/health") ∅.

Definition example_middleware : SanicMiddleware :=
  mkSanicMiddleware (Some ["health"]) None (λ _, true) PrintExporter
    (λ _, span_context.mkSpanContext "trace" None false true) "svc".

Definition users_request : Request :=
  mkRequest "http" "http://svc/users/42" "GET" "/users/42" "svc" (PStr "10.0.0.1")
            {[ "user-agent" := "curl" ]} (Ok "/users/<id>") ∅.

(** [traced_world] after entering [async with AsyncSpan("job")]. *)
Definition entered_world : World :=
  (AsyncSpan__aenter__ (mkAsyncSpan (PStr "job") PNone) traced_world).2.

(** [two_open_world] after the inner span was ended and the task's current
    span was set back to it. *)
Definition stale_span_world : World :=
  set_ctx_span (Some 1) (ContextTracer.end_span 0 two_open_world).2.

(** [two_open_world] seen from a task with no current span. *)
Definition detached_world : World := set_ctx_span None two_open_world.

(** A task whose active tracer is a [NoopTracer]. *)
Definition noop_world : World := set_ctx_tracer (Some NoopTracer) boot_world.

Definition MethodNotSupported : exn :=
  Exn "MethodNotSupported" true true "Method PUT not allowed for URL /users/42".

(** A request for which the route lookup raises. *)
Definition unrouted_request : Request :=
  mkRequest "http" "http://svc/users/42" "PUT" "/users/42" "svc" (PStr "10.0.0.1")
            ∅ (Raise MethodNotSupported) ∅.


(** A request that carries tracer 0, as [do_trace_request] leaves it. *)
Definition traced_request : Request :=
  set_item "tracer" (ContextTracerRef 0) users_request.

(** A client call that answers with a value, and one that fails. *)
Definition answering_client : list pyval → list (string * pyval) → M pyval :=
  λ _ _, ret (PStr "v").

Definition failing_client : list pyval → list (string * pyval) → M pyval :=
  λ _ _, raise (ValueError "boom").

Local Close Scope string_scope.

(** * Properties of the tracer *)

Lemma lookup_total_snoc {A} `{!Inhabited A} (h : list A) (s : A) :
  (h ++ [s]) !!! length h = s.
Proof. by apply list_lookup_total_middle. Qed.

Lemma insert_snoc {A} (h : list A) (s x : A) :
  <[length h := x]> (h ++ [s]) = h ++ [x].
Proof.
  rewrite insert_app_r_alt; [|lia]. by rewrite Nat.sub_diag.
Qed.

Lemma start_span_spec t name w :
  ∃ w' s,
    ContextTracer.start_span t name w = (Ok (length (spans w)), w') ∧
    spans w' = spans w ++ [s] ∧
    trace_span.parent_span s =
      match ctx_span w with
      | Some p => ParentSpan p
      | None => NullContextManager
                  (span_context.span_id (tracer_obj.span_context (tracers w !!! t)))
      end ∧
    trace_span.children s = [] ∧
    trace_span.end_time s = None ∧
    length (tracers w') = length (tracers w) ∧
    (t < length (tracers w) →
       open_spans t w' = open_spans t w ++ [length (spans w)]) ∧
    ctx_span w' = Some (length (spans w)) ∧
    exported w' = exported w ∧
    warnings w' = warnings w ∧
    ctx_tracer w' = ctx_tracer w.
Proof.
  unfold ContextTracer.start_span, ContextTracer.current_span,
    asyncio_context.get_current_span, asyncio_context.set_current_span,
    Span.__init__, Span.start, read_tracer, read_span, update_tracer,
    update_span, generate_id, to_iso_str, bind, gets, modify, ret, open_spans.
  destruct (ctx_span w) as [p|] eqn:Hc; simpl;
    rewrite lookup_total_snoc, insert_snoc;
    (eexists _, _; split; [reflexivity|]; simpl;
     repeat split; try reflexivity;
     [ by rewrite !length_insert
     | intros Ht; rewrite !list_lookup_total_insert_eq; simpl;
       rewrite ?length_insert; try done;
       rewrite !list_lookup_total_insert_eq; simpl; rewrite ?length_insert; done ]).
Qed.

Lemma spans_list_after_context_update (ts : list tracer_obj.ContextTracer) t x :
  tracer_obj._spans_list (<[t := tracer_obj.set_span_context x (ts !!! t)]> ts !!! t)
  = tracer_obj._spans_list (ts !!! t).
Proof.
  destruct (decide (t < length ts)).
  - by rewrite list_lookup_total_insert_eq.
  - by rewrite list_insert_ge by lia.
Qed.

Lemma exporter_after_context_update (ts : list tracer_obj.ContextTracer) t x :
  tracer_obj.exporter (<[t := tracer_obj.set_span_context x (ts !!! t)]> ts !!! t)
  = tracer_obj.exporter (ts !!! t).
Proof.
  destruct (decide (t < length ts)).
  - by rewrite list_lookup_total_insert_eq.
  - by rewrite list_insert_ge by lia.
Qed.

Lemma end_span_none t w :
  span_to_end t w = None →
  ContextTracer.end_span t w =
    (Ok None, set_warnings (warnings w ++ ["No active span, cannot do end_span."%string]) w).
Proof.
  unfold span_to_end, ContextTracer.end_span, ContextTracer.current_span,
    asyncio_context.get_current_span, read_tracer, bind, gets, modify, ret, open_spans.
  simpl. intros H.
  destruct (ctx_span w); [done|].
  destruct (tracer_obj._spans_list (tracers w !!! t)) eqn:Hl; [done|].
  by rewrite H.
Qed.

Lemma end_span_some t w c :
  span_to_end t w = Some c →
  ∃ w',
    ContextTracer.end_span t w = (Ok (Some c), w') ∧
    spans w' = finished (clock w (clock_reads w)) (spans w) c ∧
    ctx_span w' =
      match trace_span.parent_span (spans w' !!! c) with
      | ParentSpan p => Some p
      | _ => None
      end ∧
    length (tracers w') = length (tracers w) ∧
    (t < length (tracers w) →
       open_spans t w' =
         if decide (c ∈ open_spans t w) then py_list_remove c (open_spans t w)
         else open_spans t w) ∧
    (if decide (c ∈ open_spans t w) then
       ∃ datas,
         exported w' = exported w ++ [(tracer_obj.exporter (tracers w !!! t), datas)] ∧
         (trace_span.children (spans w' !!! c) = [] →
            map span_data_module.source datas = [c])
     else exported w' = exported w) ∧
    warnings w' = warnings w ∧
    ctx_tracer w' = ctx_tracer w.
Proof.
  intros H.
  assert (Hrun : ContextTracer.end_span t w =
    (Span.finish c ;;;
      s <- read_span c ;;
      h <- gets spans ;;
      update_tracer t (λ me,
        tracer_obj.set_span_context
          (span_context.set_span_id
             (match trace_span.parent_span s with
              | ParentNone => None
              | ParentSpan p => Some (trace_span.span_id (h !!! p))
              | NullContextManager i => i
              end)
             (tracer_obj.span_context me)) me) ;;;
      match trace_span.parent_span s with
      | ParentSpan p => asyncio_context.set_current_span (Some p)
      | _ => asyncio_context.set_current_span None
      end ;;;
      me <- read_tracer t ;;
      (if bool_decide (c ∈ tracer_obj._spans_list me) then
         span_datas <- ContextTracer.get_span_datas t c ;;
         ContextTracer.export t span_datas ;;;
         update_tracer t (λ me,
           tracer_obj.set_spans_list
             (py_list_remove c (tracer_obj._spans_list me)) me)
       else ret tt) ;;;
      ret (Some c))%py w).
  { unfold span_to_end, open_spans in H.
    unfold ContextTracer.end_span, ContextTracer.current_span,
      asyncio_context.get_current_span, read_tracer.
    unfold bind at 1 2. unfold gets at 1 2. simpl.
    destruct (ctx_span w) as [c'|].
    - by inversion H.
    - destruct (tracer_obj._spans_list (tracers w !!! t)); [done|].
      by rewrite H. }
  rewrite Hrun. clear Hrun H.
  unfold Span.finish, read_span, read_tracer, update_span, update_tracer,
    asyncio_context.set_current_span, ContextTracer.get_span_datas,
    ContextTracer.export, to_iso_str, bind, gets, modify, ret, open_spans, finished.
  simpl.
  set (h' := <[c := _]> (spans w)).
  destruct (trace_span.parent_span (h' !!! c)) as [|p|i] eqn:Hp; simpl;
    rewrite ?spans_list_after_context_update;
    (destruct (decide (c ∈ tracer_obj._spans_list (tracers w !!! t))) as [Hin|Hin];
     [ rewrite (bool_decide_eq_true_2 _ Hin) | rewrite (bool_decide_eq_false_2 _ Hin) ];
     eexists; (split; [reflexivity|]); simpl;
     rewrite ?Hp, ?exporter_after_context_update, ?spans_list_after_context_update;
     repeat split; try reflexivity;
     rewrite ?length_insert; try done;
     try (intros Ht; rewrite !list_lookup_total_insert_eq; simpl;
         rewrite ?length_insert; try done;
         rewrite !list_lookup_total_insert_eq; simpl; rewrite ?length_insert; done);
     try (eexists; split; [reflexivity|]; intros Hch; rewrite Hch; reflexivity)).
Qed.

(** The heap after a span's end time is stamped. *)
Lemma finished_length time h c : length (finished time h c) = length h.
Proof. unfold finished. by rewrite length_insert. Qed.

Lemma finished_lookup_ne time h c r :
  r ≠ c → finished time h c !!! r = h !!! r.
Proof. intros. unfold finished. by rewrite list_lookup_total_insert_ne. Qed.

Lemma finished_lookup_eq time h c :
  c < length h →
  finished time h c !!! c = trace_span.set_end_time (Some time) (h !!! c).
Proof. intros. unfold finished. by rewrite list_lookup_total_insert_eq. Qed.

Lemma finished_parent time h c r :
  trace_span.parent_span (finished time h c !!! r) = trace_span.parent_span (h !!! r).
Proof.
  destruct (decide (r = c)) as [->|]; [|by rewrite finished_lookup_ne].
  destruct (decide (c < length h)).
  - by rewrite finished_lookup_eq.
  - unfold finished. by rewrite list_insert_ge by lia.
Qed.

Lemma finished_children time h c r :
  trace_span.children (finished time h c !!! r) = trace_span.children (h !!! r).
Proof.
  destruct (decide (r = c)) as [->|]; [|by rewrite finished_lookup_ne].
  destruct (decide (c < length h)).
  - by rewrite finished_lookup_eq.
  - unfold finished. by rewrite list_insert_ge by lia.
Qed.

Lemma finished_end_time time h c r :
  trace_span.end_time (h !!! r) ≠ None →
  trace_span.end_time (finished time h c !!! r) ≠ None.
Proof.
  intros Hr.
  destruct (decide (r = c)) as [->|]; [|by rewrite finished_lookup_ne].
  destruct (decide (c < length h)).
  - by rewrite finished_lookup_eq.
  - unfold finished. by rewrite list_insert_ge by lia.
Qed.

(** [nested] only looks at the parents of the spans on the stack. *)
Lemma nested_ext h h' stk :
  length h ≤ length h' →
  (∀ r, r < length h →
        trace_span.parent_span (h' !!! r) = trace_span.parent_span (h !!! r)) →
  nested h stk → nested h' stk.
Proof.
  intros Hlen Hpar. induction stk as [|r below IH]; [done|].
  simpl. intros (Hr & Hnotin & Hlink & Hbelow).
  split; [lia|]. split; [done|]. split; [|by apply IH].
  rewrite Hpar by done. done.
Qed.

Lemma nested_bound h stk r : nested h stk → r ∈ stk → r < length h.
Proof.
  induction stk as [|x below IH]; simpl.
  - intros _ Hin. by apply elem_of_nil in Hin.
  - intros (Hx & _ & _ & Hb) Hin. apply elem_of_cons in Hin as [->|Hin]; auto.
Qed.

Lemma nested_NoDup h stk : nested h stk → NoDup stk.
Proof.
  induction stk as [|x below IH]; simpl; [constructor|].
  intros (_ & Hnotin & _ & Hb). constructor; auto.
Qed.

(** [list.remove] on the last element of a list without duplicates. *)
Lemma py_list_remove_snoc c l : c ∉ l → py_list_remove c (l ++ [c]) = l.
Proof.
  induction l as [|y l IH]; simpl; intros Hnotin.
  - by case_decide.
  - apply not_elem_of_cons in Hnotin as [Hne Hnotin].
    case_decide; [congruence|]. by rewrite IH.
Qed.

Lemma elem_of_py_list_remove c l r :
  NoDup l → r ∈ py_list_remove c l ↔ r ∈ l ∧ r ≠ c.
Proof.
  induction l as [|y l IH]; simpl; intros Hnd.
  - split; [intros H; by apply elem_of_nil in H | intros [H _]; by apply elem_of_nil in H].
  - apply NoDup_cons in Hnd as [Hy Hnd]. case_decide as Hyc.
    + subst y. split.
      * intros Hr. split; [by right|]. intros ->. done.
      * intros [Hr Hne]. apply elem_of_cons in Hr as [?|?]; [congruence|done].
    + rewrite !elem_of_cons, IH by done. split.
      * intros [->|[? ?]]; [split; [by left|done] | split; [by right|done]].
      * intros [[->|?] ?]; [by left | right; done].
Qed.

Lemma py_list_remove_NoDup c l : NoDup l → NoDup (py_list_remove c l).
Proof.
  induction l as [|y l IH]; simpl; intros Hnd; [done|].
  apply NoDup_cons in Hnd as [Hy Hnd]. case_decide; [done|].
  apply NoDup_cons. split; [|by apply IH].
  rewrite elem_of_py_list_remove by done. tauto.
Qed.

Lemma py_list_remove_length c l :
  c ∈ l → S (length (py_list_remove c l)) = length l.
Proof.
  induction l as [|y l IH]; simpl; intros Hin.
  - by apply elem_of_nil in Hin.
  - case_decide as Hyc; [done|].
    apply elem_of_cons in Hin as [?|Hin]; [congruence|].
    simpl. by rewrite IH.
Qed.

Lemma start_span_step t name w :
  top_is_current t w →
  ∃ w',
    ContextTracer.start_span t name w = (Ok (length (spans w)), w') ∧
    top_is_current t w' ∧
    open_spans t w' = open_spans t w ++ [length (spans w)] ∧
    length (spans w') = S (length (spans w)) ∧
    exported w' = exported w ∧
    (∀ r, r < length (spans w) → spans w' !!! r = spans w !!! r).
Proof.
  intros [[Ht Hn] Hcur].
  destruct (start_span_spec t name w)
    as (w' & s & Hrun & Hsp & Hpar & _ & _ & Hlen & Hopen & Hctx & Hexp & _ & _).
  specialize (Hopen Ht).
  exists w'. split; [done|]. split; [|split; [done|split; [|split; [done|]]]].
  - split; [split; [lia|] |].
    + rewrite Hopen, reverse_snoc, Hsp. simpl.
      split; [rewrite length_app; simpl; lia|].
      split.
      { intros Hin. apply (nested_bound _ _ _ Hn) in Hin. lia. }
      split.
      * rewrite lookup_total_snoc, Hpar, Hcur, <- head_reverse.
        destruct (reverse (open_spans t w)); simpl; [by intros p|done].
      * eapply nested_ext; [| |exact Hn].
        -- rewrite length_app. lia.
        -- intros r Hr. by rewrite lookup_total_app_l.
    + by rewrite Hctx, Hopen, last_snoc.
  - rewrite Hsp, length_app. simpl. lia.
  - intros r Hr. by rewrite Hsp, lookup_total_app_l.
Qed.

Lemma end_span_step t w l c :
  properly_nested t w →
  ctx_span w = last (open_spans t w) ∨ ctx_span w = None →
  open_spans t w = l ++ [c] →
  ∃ w' datas,
    ContextTracer.end_span t w = (Ok (Some c), w') ∧
    top_is_current t w' ∧
    open_spans t w' = l ∧
    exported w' = exported w ++ [(tracer_obj.exporter (tracers w !!! t), datas)] ∧
    (trace_span.children (spans w !!! c) = [] →
       map span_data_module.source datas = [c]) ∧
    spans w' = finished (clock w (clock_reads w)) (spans w) c ∧
    c < length (spans w).
Proof.
  intros [Ht Hn] Hcur Hopen.
  assert (Htgt : span_to_end t w = Some c).
  { unfold span_to_end. rewrite Hopen in *. rewrite last_snoc in Hcur.
    destruct Hcur as [Hcur | Hcur]; rewrite Hcur; [done|].
    destruct l; simpl; [done|]. by rewrite last_cons, last_snoc. }
  rewrite Hopen, reverse_snoc in Hn. simpl in Hn.
  destruct Hn as (Hc & Hnotin & Hlink & Hbelow).
  rewrite elem_of_reverse in Hnotin.
  assert (Hin : c ∈ open_spans t w)
    by (rewrite Hopen; apply elem_of_app; right; apply list_elem_of_singleton; reflexivity).
  destruct (end_span_some t w c Htgt)
    as (w' & Hrun & Hsp & Hctx & Hlen & Hopen' & Hexp & _ & _).
  specialize (Hopen' Ht).
  rewrite decide_True in Hopen' by done.
  rewrite decide_True in Hexp by done.
  destruct Hexp as (datas & Hexp & Hsrc).
  rewrite Hopen, py_list_remove_snoc in Hopen' by done.
  exists w', datas. split; [done|].
  split; [|split; [done|split; [done|split; [|done]]]].
  - split; [split; [lia|] |].
    + rewrite Hopen', Hsp. eapply nested_ext; [| |exact Hbelow].
      * by rewrite finished_length.
      * intros r _. apply finished_parent.
    + rewrite Hctx, Hopen', Hsp, finished_parent, <- head_reverse.
      destruct (reverse l) as [|p below]; simpl.
      * destruct (trace_span.parent_span (spans w !!! c)) as [|p|i] eqn:Hp;
          [done| |done].
        by destruct (Hlink p).
      * by rewrite Hlink.
  - intros Hch. apply Hsrc. by rewrite Hsp, finished_children.
Qed.

Lemma end_span_idle t w :
  top_is_current t w →
  open_spans t w = [] →
  ∃ w',
    ContextTracer.end_span t w = (Ok None, w') ∧
    top_is_current t w' ∧
    open_spans t w' = [] ∧
    exported w' = exported w ∧
    spans w' = spans w.
Proof.
  intros [[Ht Hn] Hcur] Hopen.
  assert (Htgt : span_to_end t w = None).
  { unfold span_to_end. by rewrite Hcur, Hopen. }
  rewrite (end_span_none t w Htgt).
  eexists. split; [reflexivity|].
  unfold top_is_current, properly_nested, open_spans in *. simpl.
  rewrite Hopen in *. done.
Qed.

Lemma add_attribute_spec t k v w :
  ContextTracer.add_attribute_to_current_span t k v w =
    match ctx_span w with
    | None =>
        (Raise (AttributeError "'NoneType' object has no attribute 'add_attribute'"), w)
    | Some c =>
        (Ok tt, set_spans (<[c := trace_span.set_attributes
                                     (<[k := v]> (trace_span.attributes (spans w !!! c)))
                                     (spans w !!! c)]> (spans w)) w)
    end.
Proof.
  unfold ContextTracer.add_attribute_to_current_span, ContextTracer.current_span,
    asyncio_context.get_current_span, Span.add_attribute, update_span,
    bind, gets, modify, raise.
  by destruct (ctx_span w).
Qed.

Lemma init_spec e sc w :
  ∃ w',
    ContextTracer.__init__ e sc w = (Ok (length (tracers w)), w') ∧
    spans w' = spans w ∧
    ctx_span w' = ctx_span w ∧
    exported w' = exported w ∧
    length (tracers w') = S (length (tracers w)) ∧
    open_spans (length (tracers w)) w' = [].
Proof.
  unfold ContextTracer.__init__, ContextTracer.new_SpanContext, generate_id,
    bind, gets, modify, ret, open_spans.
  destruct sc as [c|]; simpl; eexists; (split; [reflexivity|]); simpl;
    rewrite length_app, lookup_total_snoc; simpl; repeat split; lia.
Qed.

Lemma fresh_tracer_top_is_current e sc w0 t w1 :
  ctx_span w0 = None →
  ContextTracer.__init__ e sc w0 = (Ok t, w1) →
  top_is_current t w1 ∧ open_spans t w1 = [] ∧ spans w1 = spans w0 ∧
  exported w1 = exported w0.
Proof.
  intros Hc Hrun.
  destruct (init_spec e sc w0) as (w' & Hrun' & Hsp & Hctx & Hexp & Hlen & Hopen).
  rewrite Hrun' in Hrun. inversion Hrun; subst t w1.
  split; [|done]. split; [split|].
  - lia.
  - by rewrite Hopen.
  - by rewrite Hopen, Hctx.
Qed.

Lemma add_attribute_step t k v w :
  top_is_current t w →
  ∃ o w', do_call t (AddAttribute k v) w = (o, w') ∧ top_is_current t w' ∧
          open_spans t w' = open_spans t w.
Proof.
  intros [[Ht Hn] Hcur]. simpl. rewrite add_attribute_spec.
  destruct (ctx_span w) as [c|] eqn:Hc.
  - eexists _, _. split; [reflexivity|].
    unfold top_is_current, properly_nested, open_spans. simpl.
    split; [|done]. split; [split; [done|] | by rewrite Hc].
    eapply nested_ext; [| |exact Hn].
    + by rewrite length_insert.
    + intros r Hr. destruct (decide (r = c)) as [->|].
      * by rewrite list_lookup_total_insert_eq.
      * by rewrite list_lookup_total_insert_ne.
  - eexists _, _. split; [reflexivity|]. split; [|done].
    split; [split; [done|done]|]. by rewrite Hc.
Qed.

Lemma do_call_top_is_current t c w :
  top_is_current t w → top_is_current t (do_call t c w).2.
Proof.
  intros Hinv. destruct c as [name| |k v].
  - destruct (start_span_step t name w Hinv) as (w' & Hrun & Hinv' & _).
    simpl. by rewrite Hrun.
  - destruct (open_spans t w) as [|x l] eqn:Hopen using rev_ind.
    + destruct (end_span_idle t w Hinv Hopen) as (w' & Hrun & Hinv' & _).
      simpl. by rewrite Hrun.
    + destruct Hinv as [Hn Hcur].
      destruct (end_span_step t w l x Hn (or_introl Hcur) Hopen)
        as (w' & datas & Hrun & Hinv' & _).
      simpl. by rewrite Hrun.
  - destruct (add_attribute_step t k v w Hinv) as (o & w' & Hrun & Hinv' & _).
    by rewrite Hrun.
Qed.

Lemma run_calls_top_is_current t cs w :
  top_is_current t w → top_is_current t (run_calls t cs w).2.
Proof.
  revert w. induction cs as [|c cs IH]; intros w Hinv; [done|].
  simpl. pose proof (do_call_top_is_current t c w Hinv) as H1.
  destruct (do_call t c w) as [o w1]. simpl in H1.
  specialize (IH w1 H1). destruct (run_calls t cs w1) as [os w2]. done.
Qed.

(** C1: a tracer is created in a task that has no current span; after any
    sequence of [start_span], [end_span] (and
    [add_attribute_to_current_span]) calls on it, the last element of its
    open-span list is the span the context store has as current, and the
    binding is none exactly when the list is empty.  Every point between two
    calls is the end of a shorter sequence. *)
Theorem C1_top_of_open_list_is_current_span w0 e sc t w1 cs :
  ctx_span w0 = None →
  ContextTracer.__init__ e sc w0 = (Ok t, w1) →
  last (open_spans t (run_calls t cs w1).2) = ctx_span (run_calls t cs w1).2.
Proof.
  intros Hc Hinit.
  destruct (fresh_tracer_top_is_current e sc w0 t w1 Hc Hinit) as (Hinv & _).
  by destruct (run_calls_top_is_current t cs w1 Hinv) as [_ ->].
Qed.

Lemma starts_run t names w :
  top_is_current t w →
  ∃ w2,
    run_calls t (map StartSpan names) w =
      (map Started (seq (length (spans w)) (length names)), w2) ∧
    top_is_current t w2 ∧
    open_spans t w2 = open_spans t w ++ seq (length (spans w)) (length names) ∧
    exported w2 = exported w ∧
    length (spans w2) = length (spans w) + length names.
Proof.
  revert w. induction names as [|name names IH]; intros w Hinv.
  - exists w. simpl. rewrite app_nil_r, Nat.add_0_r. done.
  - destruct (start_span_step t name w Hinv)
      as (w1 & Hrun & Hinv1 & Hopen1 & Hlen1 & Hexp1 & _).
    destruct (IH w1 Hinv1) as (w2 & Hrun2 & Hinv2 & Hopen2 & Hexp2 & Hlen2).
    exists w2. simpl. rewrite Hrun. rewrite Hrun2, Hlen1.
    split; [done|]. split; [done|].
    split; [by rewrite Hopen2, Hopen1, Hlen1, <- app_assoc|].
    split; [congruence|]. lia.
Qed.

Lemma ends_run t l : ∀ w,
  top_is_current t w →
  open_spans t w = l →
  ∃ w3,
    run_calls t (replicate (length l) EndSpan) w =
      (map (λ r, Ended (Some r)) (reverse l), w3) ∧
    top_is_current t w3 ∧
    open_spans t w3 = [] ∧
    length (exported w3) = length (exported w) + length l ∧
    (∀ r, r ∈ l → trace_span.end_time (spans w3 !!! r) ≠ None) ∧
    (∀ r, trace_span.end_time (spans w !!! r) ≠ None →
          trace_span.end_time (spans w3 !!! r) ≠ None).
Proof.
  induction l as [|c l IH] using rev_ind; intros w Hinv Hopen.
  - exists w. simpl. rewrite Nat.add_0_r.
    split; [done|]. split; [done|]. split; [done|]. split; [done|].
    split; [|done]. intros r Hr. by apply elem_of_nil in Hr.
  - destruct Hinv as [Hn Hcur].
    destruct (end_span_step t w l c Hn (or_introl Hcur) Hopen)
      as (w1 & datas & Hrun & Hinv1 & Hopen1 & Hexp1 & _ & Hsp1 & Hc).
    destruct (IH w1 Hinv1 Hopen1) as (w3 & Hrun3 & Hinv3 & Hopen3 & Hexp3 & Hend3 & Hkeep3).
    exists w3. rewrite length_app, Nat.add_1_r, reverse_snoc. simpl.
    rewrite Hrun, Hrun3.
    split; [done|]. split; [done|]. split; [done|].
    split; [rewrite Hexp3, Hexp1, length_app; simpl; lia|].
    split.
    + intros r Hr. apply elem_of_app in Hr as [Hr|Hr]; [by apply Hend3|].
      apply list_elem_of_singleton in Hr as ->. apply Hkeep3.
      rewrite Hsp1, finished_lookup_eq by done. done.
    + intros r Hr. apply Hkeep3. rewrite Hsp1. by apply finished_end_time.
Qed.

(** C2: on a tracer created in a task with no current span, N nested
    [start_span] calls return N distinct spans, leave exactly them on the
    open-span list (depth N) and make [current_span()] the N-th; N
    [end_span] calls then return the spans in reverse order of creation,
    each with its end time set, and leave the list empty and
    [current_span()] none. *)
Theorem C2_nested_spans_open_and_close_in_stack_order w0 e sc t w1 names :
  ctx_span w0 = None →
  ContextTracer.__init__ e sc w0 = (Ok t, w1) →
  ∃ started w2 w3,
    run_calls t (map StartSpan names) w1 = (map Started started, w2) ∧
    NoDup started ∧
    open_spans t w2 = started ∧
    length (open_spans t w2) = length names ∧
    ContextTracer.current_span t w2 = (Ok (started !! (length names - 1)), w2) ∧
    run_calls t (replicate (length names) EndSpan) w2 =
      (map (λ r, Ended (Some r)) (reverse started), w3) ∧
    (∀ r, r ∈ started → trace_span.end_time (spans w3 !!! r) ≠ None) ∧
    open_spans t w3 = [] ∧
    ContextTracer.current_span t w3 = (Ok None, w3).
Proof.
  intros Hc Hinit.
  destruct (fresh_tracer_top_is_current e sc w0 t w1 Hc Hinit)
    as (Hinv1 & Hopen1 & _).
  destruct (starts_run t names w1 Hinv1) as (w2 & Hrun2 & Hinv2 & Hopen2 & _).
  rewrite Hopen1 in Hopen2. simpl in Hopen2.
  set (started := seq (length (spans w1)) (length names)) in *.
  assert (Hlen : length started = length names) by apply length_seq.
  destruct (ends_run t started w2 Hinv2 Hopen2)
    as (w3 & Hrun3 & Hinv3 & Hopen3 & _ & Hend3 & _).
  rewrite Hlen in Hrun3.
  exists started, w2, w3.
  split; [done|]. split; [apply NoDup_seq|]. split; [done|].
  split; [by rewrite Hopen2|].
  split.
  { unfold ContextTracer.current_span, asyncio_context.get_current_span, gets.
    destruct Hinv2 as [_ ->]. rewrite Hopen2, last_lookup, Hlen.
    by replace (pred (length names)) with (length names - 1) by lia. }
  split; [done|]. split; [done|]. split; [done|].
  unfold ContextTracer.current_span, asyncio_context.get_current_span, gets.
  destruct Hinv3 as [_ ->]. by rewrite Hopen3.
Qed.

Lemma finish_run t l : ∀ w fuel,
  properly_nested t w →
  ctx_span w = last (open_spans t w) ∨ ctx_span w = None →
  open_spans t w = l →
  length l < fuel →
  ∃ w' batches,
    ContextTracer.finish fuel t w = Some (Ok tt, w') ∧
    exported w' = exported w ++ batches ∧
    length batches = length l ∧
    open_spans t w' = [] ∧
    top_is_current t w'.
Proof.
  induction l as [|c l IH] using rev_ind; intros w fuel Hn Hcur Hopen Hfuel.
  - exists w, []. destruct fuel as [|fuel]; [simpl in Hfuel; lia|].
    simpl. fold (open_spans t w). rewrite Hopen, app_nil_r.
    repeat split; try done.
    + by destruct Hn.
    + destruct Hn as [_ Hn]. by rewrite Hopen in *.
    + rewrite Hopen in *. simpl in Hcur. by destruct Hcur.
  - destruct (end_span_step t w l c Hn Hcur Hopen)
      as (w1 & datas & Hrun & [Hn1 Hcur1] & Hopen1 & Hexp1 & _).
    rewrite length_app in Hfuel. simpl in Hfuel.
    destruct fuel as [|fuel]; [lia|].
    destruct (IH w1 fuel Hn1 (or_introl Hcur1) Hopen1 ltac:(lia))
      as (w' & batches & Hfin & Hexp' & Hlen' & Hopen' & Hinv').
    exists w', ((tracer_obj.exporter (tracers w !!! t), datas) :: batches).
    assert (Hstep : ContextTracer.finish (S fuel) t w = ContextTracer.finish fuel t w1).
    { simpl. fold (open_spans t w). rewrite Hopen, Hrun. by destruct l. }
    rewrite Hstep, Hfin.
    split; [done|]. split; [by rewrite Hexp', Hexp1, <- app_assoc|].
    split; [rewrite length_app; simpl; lia|]. done.
Qed.

Lemma finish_fuel_mono t n : ∀ m w r,
  ContextTracer.finish n t w = Some r → n ≤ m →
  ContextTracer.finish m t w = Some r.
Proof.
  induction n as [|n IH]; intros m w r Hfin Hle; [done|].
  destruct m as [|m]; [lia|]. simpl in *.
  destruct (tracer_obj._spans_list (tracers w !!! t)); [done|].
  destruct (ContextTracer.end_span t w) as [[o|e] w1]; [|done].
  apply IH; [done|lia].
Qed.

(** C5: on a tracer whose K open spans are properly nested, with the
    current span the top of the stack or none, [finish()] terminates (any
    bound above K on the number of loop passes gives the same result), makes
    exactly K calls to [exporter.export] and leaves the open-span list
    empty. *)
Theorem C5_finish_exports_every_open_span t w :
  properly_nested t w →
  ctx_span w = last (open_spans t w) ∨ ctx_span w = None →
  ∃ w' batches,
    (∀ fuel, length (open_spans t w) < fuel →
             ContextTracer.finish fuel t w = Some (Ok tt, w')) ∧
    exported w' = exported w ++ batches ∧
    length batches = length (open_spans t w) ∧
    open_spans t w' = [].
Proof.
  intros Hn Hcur.
  destruct (finish_run t (open_spans t w) w (S (length (open_spans t w)))
              Hn Hcur eq_refl ltac:(lia))
    as (w' & batches & Hfin & Hexp & Hlen & Hopen & _).
  exists w', batches. split; [|done].
  intros fuel Hfuel. eapply finish_fuel_mono; [exact Hfin|lia].
Qed.

Lemma export_count_batch r c w w' x datas :
  exported w' = exported w ++ [(x, datas)] →
  map span_data_module.source datas = [c] →
  export_count r w' = export_count r w + (if decide (c = r) then 1 else 0).
Proof.
  intros Hexp Hsrc. unfold export_count.
  rewrite Hexp, map_app, concat_app, filter_app, length_app. simpl.
  rewrite app_nil_r. f_equal.
  destruct datas as [|d [|d' ds]]; try done.
  simpl in Hsrc. inversion Hsrc as [Hd].
  rewrite filter_cons, filter_nil. rewrite Hd. by destruct (decide (c = r)).
Qed.

Lemma export_count_same r w w' :
  exported w' = exported w → export_count r w' = export_count r w.
Proof. intros H. unfold export_count. by rewrite H. Qed.

Lemma children_default_nil (h : list trace_span.Span) r :
  length h ≤ r → trace_span.children (h !!! r) = [].
Proof.
  intros Hr. rewrite list_lookup_total_alt, (lookup_ge_None_2 h r) by lia. done.
Qed.

Lemma fresh_tracer_lifetime_inv e sc w0 t w1 :
  world_ok w0 →
  ContextTracer.__init__ e sc w0 = (Ok t, w1) →
  lifetime_inv t (length (spans w0)) w1 ∧ spans w1 = spans w0.
Proof.
  intros (Hpar & Hcur & Hlog) Hrun.
  destruct (init_spec e sc w0) as (w' & Hrun' & Hsp & Hctx & Hexp & Hlen & Hopen).
  rewrite Hrun' in Hrun. inversion Hrun; subst t w1.
  split; [|done]. split.
  - lia.
  - by rewrite Hsp.
  - rewrite Hsp. apply Hpar.
  - rewrite Hsp, Hctx. apply Hcur.
  - rewrite Hopen. constructor.
  - rewrite Hopen. intros r Hr. by apply elem_of_nil in Hr.
  - rewrite Hsp. intros r Hr. by apply children_default_nil.
  - rewrite Hopen. intros r Hr. by apply elem_of_nil in Hr.
  - rewrite Hsp. intros r Hr. lia.
  - rewrite Hsp. intros r Hr. rewrite (export_count_same r w0 w') by done. by apply Hlog.
Qed.

Lemma span_to_end_exists t base w c :
  lifetime_inv t base w → span_to_end t w = Some c → c < length (spans w).
Proof.
  intros Hinv. unfold span_to_end.
  destruct (ctx_span w) as [r|] eqn:Hc.
  - intros [= <-]. by apply (inv_current _ _ _ Hinv).
  - destruct (open_spans t w) as [|x l] eqn:Hopen; [done|].
    intros Hlast. apply last_Some_elem_of in Hlast.
    rewrite <- Hopen in Hlast. apply (inv_open _ _ _ Hinv) in Hlast. lia.
Qed.

Lemma start_span_lifetime t base name w :
  lifetime_inv t base w →
  ∃ w',
    ContextTracer.start_span t name w = (Ok (length (spans w)), w') ∧
    lifetime_inv t base w' ∧
    length (spans w') = S (length (spans w)).
Proof.
  intros Hinv.
  destruct (start_span_spec t name w)
    as (w' & s & Hrun & Hsp & Hpar & Hch & _ & Hlen & Hopen & Hctx & Hexp & _ & _).
  specialize (Hopen (inv_tracer _ _ _ Hinv)).
  assert (Hsize : length (spans w') = S (length (spans w))).
  { rewrite Hsp, length_app. simpl. lia. }
  assert (Hnew : length (spans w) ∉ open_spans t w).
  { intros Hin. apply (inv_open _ _ _ Hinv) in Hin. lia. }
  exists w'. split; [done|]. split; [|done]. split.
  - rewrite Hlen. by apply (inv_tracer _ _ _ Hinv).
  - pose proof (inv_base _ _ _ Hinv). lia.
  - intros r p Hr. rewrite Hsp. destruct (decide (r = length (spans w))) as [->|Hne].
    + rewrite lookup_total_snoc, Hpar.
      destruct (ctx_span w) as [q|] eqn:Hq; [|done].
      intros [= <-]. by apply (inv_current _ _ _ Hinv).
    + rewrite lookup_total_app_l by lia. apply (inv_parents _ _ _ Hinv). lia.
  - rewrite Hctx. intros r [= <-]. lia.
  - rewrite Hopen. apply NoDup_app. split; [by apply (inv_nodup _ _ _ Hinv)|].
    split; [|apply NoDup_singleton].
    intros r Hr Hr'. apply list_elem_of_singleton in Hr' as ->. done.
  - rewrite Hopen. intros r Hr. apply elem_of_app in Hr as [Hr|Hr].
    + apply (inv_open _ _ _ Hinv) in Hr. lia.
    + apply list_elem_of_singleton in Hr as ->.
      pose proof (inv_base _ _ _ Hinv). lia.
  - intros r Hr. rewrite Hsp.
    destruct (decide (r < length (spans w))) as [Hlt|Hge].
    + rewrite lookup_total_app_l by done. by apply (inv_leaf _ _ _ Hinv).
    + destruct (decide (r = length (spans w))) as [->|Hne].
      * by rewrite lookup_total_snoc.
      * apply children_default_nil. rewrite length_app. simpl. lia.
  - rewrite Hopen. intros r Hr. rewrite (export_count_same r w w') by done.
    apply elem_of_app in Hr as [Hr|Hr].
    + by apply (inv_opened _ _ _ Hinv).
    + apply list_elem_of_singleton in Hr as ->. by apply (inv_future _ _ _ Hinv).
  - rewrite Hopen, Hsize. intros r Hr Hnotin.
    rewrite (export_count_same r w w') by done.
    assert (r ≠ length (spans w)).
    { intros ->. apply Hnotin, elem_of_app. right. by apply list_elem_of_singleton. }
    assert (Hnotin' : r ∉ open_spans t w).
    { intros Hin. apply Hnotin, elem_of_app. by left. }
    rewrite Hsp, lookup_total_app_l by lia.
    apply (inv_closed _ _ _ Hinv); [lia|done].
  - rewrite Hsize. intros r Hr. rewrite (export_count_same r w w') by done.
    apply (inv_future _ _ _ Hinv). lia.
Qed.

Lemma end_span_lifetime_idle t base w :
  lifetime_inv t base w →
  span_to_end t w = None →
  ∃ w',
    ContextTracer.end_span t w = (Ok None, w') ∧
    lifetime_inv t base w' ∧
    spans w' = spans w ∧ open_spans t w' = open_spans t w ∧
    ctx_span w' = ctx_span w.
Proof.
  intros Hinv Htgt. rewrite (end_span_none t w Htgt).
  eexists. split; [reflexivity|]. split; [|done].
  destruct Hinv. by split.
Qed.

Lemma end_span_lifetime t base w c :
  lifetime_inv t base w →
  span_to_end t w = Some c →
  ∃ w',
    ContextTracer.end_span t w = (Ok (Some c), w') ∧
    lifetime_inv t base w' ∧
    length (spans w') = length (spans w) ∧
    c < length (spans w) ∧
    (∀ p, ctx_span w' = Some p → p < c) ∧
    open_spans t w' =
      (if decide (c ∈ open_spans t w) then py_list_remove c (open_spans t w)
       else open_spans t w).
Proof.
  intros Hinv Htgt.
  pose proof (span_to_end_exists t base w c Hinv Htgt) as Hc.
  destruct (end_span_some t w c Htgt)
    as (w' & Hrun & Hsp & Hctx & Hlen & Hopen & Hexp & _ & _).
  specialize (Hopen (inv_tracer _ _ _ Hinv)).
  assert (Hsize : length (spans w') = length (spans w)).
  { by rewrite Hsp, finished_length. }
  assert (Hpar : ∀ p, ctx_span w' = Some p → p < c).
  { intros p. rewrite Hctx, Hsp, finished_parent.
    destruct (trace_span.parent_span (spans w !!! c)) as [|q|i] eqn:Hq; try done.
    intros [= <-]. by apply (inv_parents _ _ _ Hinv c q). }
  exists w'. split; [done|]. split; [|done].
  assert (Hsub : ∀ r, r ∈ open_spans t w' → r ∈ open_spans t w).
  { intros r. rewrite Hopen. case_decide; [|done].
    rewrite elem_of_py_list_remove by apply (inv_nodup _ _ _ Hinv). tauto. }
  split.
  - rewrite Hlen. by apply (inv_tracer _ _ _ Hinv).
  - rewrite Hsize. by apply (inv_base _ _ _ Hinv).
  - intros r p. rewrite Hsize, Hsp, finished_parent. apply (inv_parents _ _ _ Hinv).
  - intros p Hp. apply Hpar in Hp. lia.
  - rewrite Hopen. case_decide; [|by apply (inv_nodup _ _ _ Hinv)].
    apply py_list_remove_NoDup, (inv_nodup _ _ _ Hinv).
  - intros r Hr. rewrite Hsize. by apply (inv_open _ _ _ Hinv), Hsub.
  - intros r Hr. rewrite Hsp, finished_children. by apply (inv_leaf _ _ _ Hinv).
  - intros r Hr. destruct (decide (c ∈ open_spans t w)) as [Hin|Hnotin].
    + destruct Hexp as (datas & Hexp & Hsrc).
      rewrite Hopen in Hr.
      apply elem_of_py_list_remove in Hr as [Hr Hne]; [|apply (inv_nodup _ _ _ Hinv)].
      rewrite (export_count_batch r c w w' _ datas Hexp).
      * rewrite decide_False by done. rewrite (inv_opened _ _ _ Hinv r Hr). done.
      * apply Hsrc. rewrite Hsp, finished_children.
        apply (inv_leaf _ _ _ Hinv). apply (inv_open _ _ _ Hinv) in Hin. lia.
    + rewrite (export_count_same r w w') by done.
      apply (inv_opened _ _ _ Hinv). by apply Hsub.
  - rewrite Hsize. intros r Hr Hnotin'.
    destruct (decide (c ∈ open_spans t w)) as [Hin|Hnotin].
    + destruct Hexp as (datas & Hexp & Hsrc).
      assert (Hsrc' : map span_data_module.source datas = [c]).
      { apply Hsrc. rewrite Hsp, finished_children.
        apply (inv_leaf _ _ _ Hinv). apply (inv_open _ _ _ Hinv) in Hin. lia. }
      rewrite (export_count_batch r c w w' _ datas Hexp Hsrc').
      destruct (decide (c = r)) as [->|Hne].
      * rewrite (inv_opened _ _ _ Hinv r Hin). split; [done|].
        rewrite Hsp, finished_lookup_eq by done. done.
      * assert (Hr' : r ∉ open_spans t w).
        { intros Hr'. apply Hnotin'. rewrite Hopen.
          apply elem_of_py_list_remove; [apply (inv_nodup _ _ _ Hinv)|]. split; [done|congruence]. }
        destruct (inv_closed _ _ _ Hinv r Hr Hr') as [Hcount Hend].
        rewrite Hcount. split; [lia|]. rewrite Hsp. by apply finished_end_time.
    + rewrite (export_count_same r w w') by done.
      rewrite Hopen in Hnotin'.
      destruct (inv_closed _ _ _ Hinv r Hr Hnotin') as [Hcount Hend].
      split; [done|]. rewrite Hsp. by apply finished_end_time.
  - rewrite Hsize. intros r Hr.
    destruct (decide (c ∈ open_spans t w)) as [Hin|Hnotin].
    + destruct Hexp as (datas & Hexp & Hsrc).
      rewrite (export_count_batch r c w w' _ datas Hexp).
      * rewrite decide_False by lia. rewrite (inv_future _ _ _ Hinv r Hr). done.
      * apply Hsrc. rewrite Hsp, finished_children.
        apply (inv_leaf _ _ _ Hinv). apply (inv_open _ _ _ Hinv) in Hin. lia.
    + rewrite (export_count_same r w w') by done. by apply (inv_future _ _ _ Hinv).
Qed.

Lemma add_attribute_lifetime t base k v w :
  lifetime_inv t base w →
  ∃ o w',
    do_call t (AddAttribute k v) w = (o, w') ∧
    (∀ r, o ≠ Started r) ∧
    lifetime_inv t base w' ∧
    length (spans w') = length (spans w).
Proof.
  intros Hinv. simpl. rewrite add_attribute_spec.
  destruct (ctx_span w) as [c|] eqn:Hc.
  2:{ eexists _, _. by split; [reflexivity|]. }
  eexists _, _. split; [reflexivity|]. split; [done|].
  set (h' := <[c := _]> (spans w)).
  assert (Hlen : length h' = length (spans w)) by apply length_insert.
  assert (Hsame : ∀ r,
    trace_span.parent_span (h' !!! r) = trace_span.parent_span (spans w !!! r) ∧
    trace_span.children (h' !!! r) = trace_span.children (spans w !!! r) ∧
    trace_span.end_time (h' !!! r) = trace_span.end_time (spans w !!! r)).
  { intros r. unfold h'. destruct (decide (r = c)) as [->|Hne].
    - destruct (decide (c < length (spans w))).
      + by rewrite list_lookup_total_insert_eq.
      + by rewrite list_insert_ge by lia.
    - by rewrite list_lookup_total_insert_ne. }
  split; [|done]. split; simpl.
  - apply (inv_tracer _ _ _ Hinv).
  - rewrite Hlen. apply (inv_base _ _ _ Hinv).
  - intros r p. rewrite Hlen. destruct (Hsame r) as (-> & _ & _).
    apply (inv_parents _ _ _ Hinv).
  - rewrite Hlen. apply (inv_current _ _ _ Hinv).
  - apply (inv_nodup _ _ _ Hinv).
  - intros r. rewrite Hlen. apply (inv_open _ _ _ Hinv).
  - intros r. destruct (Hsame r) as (_ & -> & _). apply (inv_leaf _ _ _ Hinv).
  - apply (inv_opened _ _ _ Hinv).
  - intros r. rewrite Hlen. destruct (Hsame r) as (_ & _ & ->).
    apply (inv_closed _ _ _ Hinv).
  - intros r. rewrite Hlen. apply (inv_future _ _ _ Hinv).
Qed.

Lemma do_call_lifetime t base c w :
  lifetime_inv t base w →
  ∃ o w',
    do_call t c w = (o, w') ∧
    lifetime_inv t base w' ∧
    length (spans w) ≤ length (spans w') ∧
    (∀ r, o = Started r → length (spans w) ≤ r < length (spans w')).
Proof.
  intros Hinv. destruct c as [name| |k v].
  - destruct (start_span_lifetime t base name w Hinv) as (w' & Hrun & Hinv' & Hlen).
    exists (Started (length (spans w))), w'. simpl. rewrite Hrun.
    split; [done|]. split; [done|]. split; [lia|]. intros r [= <-]. lia.
  - destruct (span_to_end t w) as [c|] eqn:Htgt.
    + destruct (end_span_lifetime t base w c Hinv Htgt) as (w' & Hrun & Hinv' & Hlen & _).
      exists (Ended (Some c)), w'. simpl. rewrite Hrun.
      split; [done|]. split; [done|]. split; [lia|done].
    + destruct (end_span_lifetime_idle t base w Hinv Htgt) as (w' & Hrun & Hinv' & Hsp & _).
      exists (Ended None), w'. simpl. rewrite Hrun.
      split; [done|]. split; [done|]. split; [by rewrite Hsp|done].
  - destruct (add_attribute_lifetime t base k v w Hinv) as (o & w' & Hrun & Hno & Hinv' & Hlen).
    exists o, w'. split; [done|]. split; [done|]. split; [lia|].
    intros r ->. by destruct (Hno r).
Qed.

Lemma do_event_lifetime t base e w :
  lifetime_inv t base w →
  ∃ os w',
    do_event t e w = (os, w') ∧
    lifetime_inv t base w' ∧
    length (spans w) ≤ length (spans w') ∧
    (∀ r, Started r ∈ os → length (spans w) ≤ r < length (spans w')).
Proof.
  intros Hinv. destruct e as [c|[r|]].
  - destruct (do_call_lifetime t base c w Hinv) as (o & w' & Hrun & Hinv' & Hlen & Hst).
    exists [o], w'. simpl. rewrite Hrun. split; [done|]. split; [done|]. split; [done|].
    intros r Hr. apply list_elem_of_singleton in Hr. by apply Hst.
  - simpl. case_decide as Hr.
    + eexists _, _. split; [reflexivity|]. split.
      * destruct Hinv. split; simpl; try done. by intros r' [= <-].
      * split; [done|]. intros r' Hr'. by apply elem_of_nil in Hr'.
    + eexists _, _. split; [reflexivity|]. split; [done|]. split; [done|].
      intros r' Hr'. by apply elem_of_nil in Hr'.
  - simpl. eexists _, _. split; [reflexivity|]. split.
    + destruct Hinv. by split.
    + split; [done|]. intros r' Hr'. by apply elem_of_nil in Hr'.
Qed.

Lemma run_events_lifetime t base es : ∀ w outs w',
  lifetime_inv t base w →
  run_events t es w = (outs, w') →
  lifetime_inv t base w' ∧
  length (spans w) ≤ length (spans w') ∧
  (∀ r, Started r ∈ outs → length (spans w) ≤ r < length (spans w')).
Proof.
  induction es as [|e es IH]; intros w outs w' Hinv Hrun.
  - simpl in Hrun. inversion Hrun; subst. split; [done|]. split; [done|].
    intros r Hr. by apply elem_of_nil in Hr.
  - simpl in Hrun.
    destruct (do_event_lifetime t base e w Hinv) as (os1 & w1 & Hrun1 & Hinv1 & Hlen1 & Hst1).
    rewrite Hrun1 in Hrun.
    destruct (run_events t es w1) as [os2 w2] eqn:Hrun2.
    inversion Hrun; subst.
    destruct (IH w1 os2 w' Hinv1 Hrun2) as (Hinv2 & Hlen2 & Hst2).
    split; [done|]. split; [lia|].
    intros r Hr. apply elem_of_app in Hr as [Hr|Hr].
    + apply Hst1 in Hr. lia.
    + apply Hst2 in Hr. lia.
Qed.

Lemma end_span_measure t base w :
  lifetime_inv t base w →
  open_spans t w ≠ [] →
  ∃ o w',
    ContextTracer.end_span t w = (Ok o, w') ∧
    lifetime_inv t base w' ∧
    length (spans w') = length (spans w) ∧
    finish_measure t w' < finish_measure t w.
Proof.
  intros Hinv Hne.
  assert (Htgt : ∃ c, span_to_end t w = Some c ∧
            (ctx_span w = Some c ∨ (ctx_span w = None ∧ c ∈ open_spans t w))).
  { unfold span_to_end. destruct (ctx_span w) as [r|]; [by eauto|].
    destruct (open_spans t w) as [|x l] eqn:Hopen; [done|].
    destruct (last (x :: l)) as [c|] eqn:Hlast.
    - exists c. split; [done|]. right. split; [done|]. by apply last_Some_elem_of.
    - by apply last_None in Hlast. }
  destruct Htgt as (c & Htgt & Hcase).
  destruct (end_span_lifetime t base w c Hinv Htgt)
    as (w' & Hrun & Hinv' & Hlen & Hc & Hpar & Hopen).
  exists (Some c), w'. split; [done|]. split; [done|]. split; [done|].
  unfold finish_measure. rewrite Hlen.
  assert (Hcv : match ctx_span w' with Some r => S r | None => 0 end ≤ c).
  { destruct (ctx_span w') as [p|]; [|lia]. specialize (Hpar p eq_refl). lia. }
  assert (Hshrink : length (open_spans t w') ≤ length (open_spans t w)).
  { rewrite Hopen. case_decide as Hin; [|done].
    pose proof (py_list_remove_length c _ Hin). lia. }
  destruct Hcase as [Hcur | [Hcur Hin]]; rewrite Hcur.
  - nia.
  - rewrite Hopen, decide_True by done.
    pose proof (py_list_remove_length c _ Hin) as Hl. nia.
Qed.

Lemma finish_terminates t base : ∀ fuel w,
  lifetime_inv t base w →
  finish_measure t w < fuel →
  ∃ w',
    ContextTracer.finish fuel t w = Some (Ok tt, w') ∧
    lifetime_inv t base w' ∧
    open_spans t w' = [] ∧
    length (spans w') = length (spans w).
Proof.
  induction fuel as [|fuel IH]; intros w Hinv Hfuel; [lia|].
  destruct (open_spans t w) as [|x l] eqn:Hopen.
  - exists w. simpl. fold (open_spans t w). by rewrite Hopen.
  - destruct (end_span_measure t base w Hinv) as (o & w1 & Hrun & Hinv1 & Hlen1 & Hdec).
    { by rewrite Hopen. }
    destruct (IH w1 Hinv1 ltac:(lia)) as (w' & Hfin & Hinv' & Hopen' & Hlen').
    exists w'. simpl. fold (open_spans t w). rewrite Hopen, Hrun.
    split; [done|]. split; [done|]. split; [done|]. lia.
Qed.

(** C3: at every point of a tracer's life (calls on it, and other code
    rebinding the current span in between), a span the tracer started and
    that is still on the open-span list has been handed to the exporter zero
    times; one that has left the list has its end time set and has been
    handed over exactly once.  [finish()] then terminates, empties the list,
    and leaves every span the tracer started exported exactly once. *)
Theorem C3_each_span_leaves_the_list_finished_and_exported_once
    w0 e sc t w1 es outs w :
  world_ok w0 →
  ContextTracer.__init__ e sc w0 = (Ok t, w1) →
  run_events t es w1 = (outs, w) →
  (∀ r, Started r ∈ outs →
     (r ∈ open_spans t w → export_count r w = 0) ∧
     (r ∉ open_spans t w →
        export_count r w = 1 ∧ trace_span.end_time (spans w !!! r) ≠ None)) ∧
  ∃ fuel w',
    ContextTracer.finish fuel t w = Some (Ok tt, w') ∧
    open_spans t w' = [] ∧
    ∀ r, Started r ∈ outs →
      export_count r w' = 1 ∧ trace_span.end_time (spans w' !!! r) ≠ None.
Proof.
  intros Hok Hinit Hrun.
  destruct (fresh_tracer_lifetime_inv e sc w0 t w1 Hok Hinit) as [Hinv1 Hsp1].
  destruct (run_events_lifetime t _ es w1 outs w Hinv1 Hrun) as (Hinv & Hlen & Hst).
  rewrite Hsp1 in Hst.
  split.
  - intros r Hr. apply Hst in Hr. split.
    + apply (inv_opened _ _ _ Hinv).
    + apply (inv_closed _ _ _ Hinv). lia.
  - destruct (finish_terminates t _ (S (finish_measure t w)) w Hinv ltac:(lia))
      as (w' & Hfin & Hinv' & Hopen' & Hlen').
    exists (S (finish_measure t w)), w'. split; [done|]. split; [done|].
    intros r Hr. apply Hst in Hr.
    apply (inv_closed _ _ _ Hinv'); [lia|].
    rewrite Hopen'. by apply not_elem_of_nil.
Qed.

(** * Properties of the instrumentation *)

Local Open Scope string_scope.

(** C7: with no current span in the context store,
    [add_attribute_to_current_span] raises AttributeError and changes
    nothing. *)
Theorem C7_attribute_without_current_span_raises t k v w :
  ctx_span w = None →
  ContextTracer.add_attribute_to_current_span t k v w =
    (Raise (AttributeError "'NoneType' object has no attribute 'add_attribute'"), w).
Proof. intros Hc. by rewrite add_attribute_spec, Hc. Qed.

(** C9: for a request whose URL [disable_tracing_url] reports as
    blacklisted, [do_trace_request] returns with the request and the world
    (span heap, tracers, context store) exactly as they were. *)
Theorem C9_blacklisted_url_is_not_traced disable_tracing_url self request w :
  disable_tracing_url (url request) (blacklist_paths self) = true →
  do_trace_request disable_tracing_url self request w = (Ok request, w).
Proof.
  intros Hurl. unfold do_trace_request. rewrite Hurl.
  by destruct (bool_decide (scheme request ∈ ["ws"; "wss"])).
Qed.

(** C6: awaiting the decorated form [AsyncSpan(f)(args)] raises at
    [with self:], whatever [f] does: no span is started and [f] is not
    called; the world is left as it was. *)
Theorem C6_decorated_call_fails_before_the_function_runs
    call_function f c name args kargs w :
  AsyncSpan__init__ (PFunc f c) name w = (Ok (mkAsyncSpan name (PFunc f c)), w) ∧
  AsyncSpan__call__ call_function (mkAsyncSpan name (PFunc f c)) args kargs w =
    (Raise (AttributeError "__enter__"), w).
Proof. done. Qed.

(** C8: when the client call is made with keyword arguments only,
    [wrap_execute] raises IndexError at [args[0]] before it looks for a
    tracer; the wrapped call is not made, whatever it would have done. *)
Theorem C8_keyword_only_call_fails_in_the_wrapper py_str wrapped instance kwargs w :
  wrap_execute py_str wrapped instance [] kwargs w =
    (Raise (IndexError "tuple index out of range"), w).
Proof. done. Qed.

Lemma wrap_execute_untraced py_str wrapped instance command args kwargs w :
  ctx_tracer w = None →
  wrap_execute py_str wrapped instance (command :: args) kwargs w =
    wrapped (command :: args) kwargs w.
Proof.
  intros Hc. unfold wrap_execute, asyncio_context.get_opencensus_tracer, bind, gets, ret.
  simpl. by rewrite Hc.
Qed.

(** The error path shared by [AsyncSpan.__aexit__] and [wrap_execute]. *)
Lemma error_path {A} t e w c :
  ctx_span w = Some c →
  c < length (spans w) →
  ∃ w',
    (Tracer.add_attribute_to_current_span (ContextTracerRef t) "error" (PBool true) ;;;
     Tracer.add_attribute_to_current_span (ContextTracerRef t) "error.message"
       (PStr (exc_str e)) ;;;
     Tracer.end_span (ContextTracerRef t) ;;;
     raise (A := A) e) w = (Raise e, w') ∧
    trace_span.attributes (spans w' !!! c) !! "error" = Some (PBool true) ∧
    trace_span.attributes (spans w' !!! c) !! "error.message" = Some (PStr (exc_str e)) ∧
    trace_span.end_time (spans w' !!! c) ≠ None.
Proof.
  intros Hc Hlt. simpl. unfold bind at 1.
  rewrite add_attribute_spec, Hc.
  set (w1 := set_spans _ w).
  assert (Hc1 : ctx_span w1 = Some c) by done.
  unfold bind at 1. rewrite add_attribute_spec, Hc1.
  set (w2 := set_spans _ w1).
  assert (Htgt : span_to_end t w2 = Some c).
  { unfold span_to_end. by replace (ctx_span w2) with (Some c). }
  destruct (end_span_some t w2 c Htgt) as (w' & Hrun & Hsp & _).
  unfold bind. rewrite Hrun. simpl. unfold raise.
  exists w'. split; [done|].
  assert (Hlt2 : c < length (spans w2)).
  { unfold w2, w1. simpl. by rewrite !length_insert. }
  rewrite Hsp, finished_lookup_eq by done. simpl.
  unfold w2, w1. simpl.
  rewrite !list_lookup_total_insert_eq by (rewrite ?length_insert; done). simpl.
  split; [|split; [|done]].
  - rewrite lookup_insert_ne by done. by rewrite lookup_insert_eq.
  - by rewrite lookup_insert_eq.
Qed.

Lemma aexit_error a e w t c :
  ctx_tracer w = Some (ContextTracerRef t) →
  exc_truthy e = true →
  ctx_span w = Some c →
  c < length (spans w) →
  ∃ w',
    AsyncSpan__aexit__ a (Some e) w = (Raise e, w') ∧
    trace_span.attributes (spans w' !!! c) !! "error" = Some (PBool true) ∧
    trace_span.attributes (spans w' !!! c) !! "error.message" = Some (PStr (exc_str e)) ∧
    trace_span.end_time (spans w' !!! c) ≠ None.
Proof.
  intros Ht Htruthy Hc Hlt.
  destruct (error_path (A := unit) t e w c Hc Hlt) as (w' & Hrun & Hres).
  exists w'. split; [|done]. rewrite <- Hrun.
  unfold AsyncSpan__aexit__, asyncio_context.get_opencensus_tracer.
  unfold bind at 1. unfold gets. rewrite Ht, Htruthy. reflexivity.
Qed.

Lemma block_error {A} a (body : span_val → M A) w v w1 e w2 t c :
  AsyncSpan__aenter__ a w = (Ok v, w1) →
  body v w1 = (Raise e, w2) →
  exc_truthy e = true →
  ctx_tracer w2 = Some (ContextTracerRef t) →
  ctx_span w2 = Some c →
  c < length (spans w2) →
  ∃ w',
    AsyncSpan_block a body w = (Raise e, w') ∧
    trace_span.attributes (spans w' !!! c) !! "error" = Some (PBool true) ∧
    trace_span.attributes (spans w' !!! c) !! "error.message" = Some (PStr (exc_str e)) ∧
    trace_span.end_time (spans w' !!! c) ≠ None.
Proof.
  intros Henter Hbody Htruthy Ht Hc Hlt.
  destruct (aexit_error a e w2 t c Ht Htruthy Hc Hlt) as (w' & Hrun & Hres).
  exists w'. split; [|done].
  unfold AsyncSpan_block, async_with. by rewrite Henter, Hbody, Hrun.
Qed.

Lemma attribute_then t k v w r :
  ctx_span w = Some r →
  ∃ w',
    ctx_span w' = Some r ∧
    length (spans w') = length (spans w) ∧
    ∀ B (rest : M B),
      (Tracer.add_attribute_to_current_span (ContextTracerRef t) k v ;;; rest) w
      = rest w'.
Proof.
  intros Hc. eexists. split; [|split]; [| |intros B rest; unfold bind; simpl;
    rewrite add_attribute_spec, Hc; reflexivity].
  - done.
  - simpl. by rewrite length_insert.
Qed.

Lemma wrap_execute_error py_str instance command args kwargs w t :
  ctx_tracer w = Some (ContextTracerRef t) →
  ∃ w_call,
    ctx_span w_call = Some (length (spans w)) ∧
    length (spans w_call) = S (length (spans w)) ∧
    ∀ wrapped e w_r c,
      wrapped (command :: args) kwargs w_call = (Raise e, w_r) →
      exc_is_Exception e = true →
      ctx_span w_r = Some c →
      c < length (spans w_r) →
      ∃ w',
        wrap_execute py_str wrapped instance (command :: args) kwargs w = (Raise e, w') ∧
        trace_span.attributes (spans w' !!! c) !! "error" = Some (PBool true) ∧
        trace_span.attributes (spans w' !!! c) !! "error.message"
          = Some (PStr (exc_str e)) ∧
        trace_span.end_time (spans w' !!! c) ≠ None.
Proof.
  intros Ht.
  destruct (start_span_spec t (PStr "span") w)
    as (w1 & s & Hrun & Hsp & _ & _ & _ & _ & _ & Hctx & _).
  unfold wrap_execute, asyncio_context.get_opencensus_tracer.
  unfold bind at 1. unfold ret at 1. unfold bind at 1. unfold gets. rewrite Ht.
  unfold bind at 1. unfold Tracer.start_span. unfold bind at 1. rewrite Hrun. unfold ret at 1.
  unfold bind at 1. unfold set_span_name, update_span, modify.
  set (w2 := set_spans _ w1).
  assert (Hlen2 : length (spans w2) = S (length (spans w))).
  { unfold w2. simpl. rewrite length_insert, Hsp, length_app. simpl. lia. }
  assert (Hc2 : ctx_span w2 = Some (length (spans w))) by done.
  clearbody w2.
  destruct (attribute_then t "redis.db" (db instance) w2 _ Hc2) as (w3 & Hc3 & Hlen3 & Hs3).
  destruct (attribute_then t "redis.address" (address instance).1 w3 _ Hc3)
    as (w4 & Hc4 & Hlen4 & Hs4).
  destruct (attribute_then t "redis.port" (address instance).2 w4 _ Hc4)
    as (w5 & Hc5 & Hlen5 & Hs5).
  destruct (attribute_then t "redis.encoding" (PStr (py_str (encoding instance))) w5 _ Hc5)
    as (w6 & Hc6 & Hlen6 & Hs6).
  assert (Hkey : ∃ w7, ctx_span w7 = Some (length (spans w)) ∧
            length (spans w7) = length (spans w6) ∧
            ∀ B (rest : M B),
              (match args with
               | [] => ret ()
               | key :: _ =>
                   Tracer.add_attribute_to_current_span (ContextTracerRef t) "redis.key" key
               end ;;; rest) w6 = rest w7).
  { destruct args as [|key args'].
    - exists w6. by repeat split.
    - apply attribute_then, Hc6. }
  destruct Hkey as (w7 & Hc7 & Hlen7 & Hs7).
  exists w7. split; [done|]. split; [lia|].
  intros wrapped e w_r c Hraise Hexc Hc Hlt.
  rewrite Hs3, Hs4, Hs5, Hs6, Hs7.
  unfold try_except_Exception. unfold bind at 1. rewrite Hraise, Hexc.
  apply error_path; done.
Qed.

Lemma aenter_context_tracer a w t n :
  ctx_tracer w = Some (ContextTracerRef t) →
  entered_name a = Some n →
  ∃ w',
    AsyncSpan__aenter__ a w = (Ok (SpanObj (length (spans w))), w') ∧
    trace_span.name (spans w' !!! length (spans w)) = n ∧
    ctx_span w' = Some (length (spans w)) ∧
    ctx_tracer w' = Some (ContextTracerRef t) ∧
    length (spans w') = S (length (spans w)).
Proof.
  intros Ht Hn.
  destruct (start_span_spec t (PStr "span") w)
    as (w1 & s & Hrun & Hsp & _ & _ & _ & _ & _ & Hctx & _ & _ & Htr).
  unfold AsyncSpan__aenter__, asyncio_context.get_opencensus_tracer.
  unfold bind at 1. unfold gets. rewrite Ht.
  unfold bind at 1. unfold on_tracer, Tracer.start_span. unfold bind at 1.
  rewrite Hrun. unfold ret at 1.
  assert (Hname : (match as_name a with
                   | PNone =>
                       match as_function a with
                       | PFunc f _ => ret (PStr ("[func] " ++ f))
                       | _ => raise (AttributeError "object has no attribute '__name__'")
                       end
                   | n => ret n
                   end) w1 = (Ok n, w1)).
  { unfold entered_name in Hn.
    destruct (as_name a); try (by inversion Hn).
    destruct (as_function a); by inversion Hn. }
  unfold bind at 1. rewrite Hname.
  eexists. split; [reflexivity|]. simpl.
  rewrite Hsp, length_insert, length_app, insert_snoc, lookup_total_snoc,
    lookup_total_snoc. simpl.
  rewrite Hctx, Htr, Ht. repeat split; try done. lia.
Qed.

Lemma aenter_named_by_string s fn w r w' :
  AsyncSpan__aenter__ (mkAsyncSpan (PStr s) fn) w = (Ok (SpanObj r), w') →
  trace_span.name (spans w' !!! r) = PStr s.
Proof.
  destruct (ctx_tracer w) as [[|t]|] eqn:Ht.
  - unfold AsyncSpan__aenter__, asyncio_context.get_opencensus_tracer.
    unfold bind at 1. unfold gets. rewrite Ht. simpl. by intros [=].
  - destruct (aenter_context_tracer (mkAsyncSpan (PStr s) fn) w t (PStr s) Ht eq_refl)
      as (w1 & Hrun & Hname & _).
    rewrite Hrun. by intros [= <- <-].
  - unfold AsyncSpan__aenter__, asyncio_context.get_opencensus_tracer.
    unfold bind at 1. unfold gets. rewrite Ht. simpl. by intros [=].
Qed.

(** C10 (amended): [span()] and [span(name=None)] raise TypeError from
    the constructor.  Given a string, the factory's object keeps that string
    as its name, also once [__call__] has attached a function, and entering
    it names the span by the string.  Given the function itself, [span(f)]
    builds an object without a name, and entering it names the span
    ["[func] " + f.__name__]. *)
Theorem C10_factory_without_name_raises_and_derived_name_needs_a_callable :
  (∀ w, span PNone w =
     (Raise (TypeError
        "First parameter must be either a span name or a callable function"), w)) ∧
  (∀ s w, span (PStr s) w = (Ok (mkAsyncSpan (PStr s) PNone), w)) ∧
  (∀ call_function s f c args kargs w,
     AsyncSpan__call__ call_function (mkAsyncSpan (PStr s) PNone) (PFunc f c :: args) kargs w
     = (Ok (inr (mkAsyncSpan (PStr s) (PFunc f c))), w)) ∧
  (∀ s fn w r w',
     AsyncSpan__aenter__ (mkAsyncSpan (PStr s) fn) w = (Ok (SpanObj r), w') →
     trace_span.name (spans w' !!! r) = PStr s) ∧
  (∀ f c w, span (PFunc f c) w = (Ok (mkAsyncSpan PNone (PFunc f c)), w)) ∧
  (∀ f c w t,
     ctx_tracer w = Some (ContextTracerRef t) →
     ∃ w',
       AsyncSpan__aenter__ (mkAsyncSpan PNone (PFunc f c)) w
         = (Ok (SpanObj (length (spans w))), w') ∧
       trace_span.name (spans w' !!! length (spans w)) = PStr ("[func] " ++ f)).
Proof.
  split; [done|]. split; [done|]. split; [done|].
  split; [apply aenter_named_by_string|]. split; [done|].
  intros f c w t Ht.
  destruct (aenter_context_tracer (mkAsyncSpan PNone (PFunc f c)) w t
              (PStr ("[func] " ++ f)) Ht eq_refl) as (w' & Hrun & Hname & _).
  by exists w'.
Qed.

(** C4 as stated fails: a KeyboardInterrupt from the client call passes
    [except Exception], leaving the span open and unmarked; a block body that
    ends the span itself and then raises has its exception replaced by the
    AttributeError of [add_attribute_to_current_span]; an exception object
    that is falsy is re-raised but not recorded. *)
Lemma C4_counterexample :
  (let r := wrap_execute py_str_example (λ _ _, raise KeyboardInterrupt)
              redis_connection [PStr "GET"; PStr "k"] [] traced_world in
   r.1 = Raise KeyboardInterrupt ∧
   open_spans 0 r.2 = [0] ∧
   trace_span.end_time (spans r.2 !!! 0) = None ∧
   trace_span.attributes (spans r.2 !!! 0) !! "error" = None) ∧
  (let r := AsyncSpan_block (mkAsyncSpan (PStr "job") PNone)
              (λ _, Tracer.end_span (ContextTracerRef 0) ;;; raise (A := unit) (ValueError "boom"))
              traced_world in
   r.1 = Raise (AttributeError "'NoneType' object has no attribute 'add_attribute'") ∧
   r.1 ≠ Raise (ValueError "boom")) ∧
  (let r := AsyncSpan_block (mkAsyncSpan (PStr "job") PNone)
              (λ _, raise (A := unit) (QuietError "quiet")) traced_world in
   r.1 = Raise (QuietError "quiet") ∧
   trace_span.attributes (spans r.2 !!! 0) !! "error" = None).
Proof.
  split; [|split].
  - vm_compute. done.
  - vm_compute. split; [done|]. intros [=].
  - vm_compute. done.
Qed.

(** C10 as stated fails: [span(handler)] is accepted, and entering the
    object it returns names the span after the function. *)
Lemma C10_counterexample :
  span (PFunc "handler" true) traced_world
    = (Ok (mkAsyncSpan PNone (PFunc "handler" true)), traced_world) ∧
  (let r := AsyncSpan__aenter__ (mkAsyncSpan PNone (PFunc "handler" true)) traced_world in
   r.1 = Ok (SpanObj 0) ∧
   trace_span.name (spans r.2 !!! 0) = PStr "[func] handler").
Proof. split; [reflexivity|]. vm_compute. done. Qed.

Lemma C1_witness :
  ctx_span boot_world = None ∧
  ContextTracer.__init__ None None boot_world = (Ok 0, fresh_tracer_world) ∧
  last (open_spans 0 (run_calls 0 example_calls fresh_tracer_world).2)
    = ctx_span (run_calls 0 example_calls fresh_tracer_world).2.
Proof.
  split; [reflexivity|]. split; [reflexivity|].
  apply (C1_top_of_open_list_is_current_span boot_world None None); reflexivity.
Defined.

Lemma C2_witness :
  ctx_span boot_world = None ∧
  ContextTracer.__init__ None None boot_world = (Ok 0, fresh_tracer_world) ∧
  ∃ started w2 w3,
    run_calls 0 (map StartSpan [PStr "a"; PStr "b"; PStr "c"]) fresh_tracer_world
      = (map Started started, w2) ∧
    NoDup started ∧
    open_spans 0 w2 = started ∧
    length (open_spans 0 w2) = 3 ∧
    ContextTracer.current_span 0 w2 = (Ok (started !! 2), w2) ∧
    run_calls 0 (replicate 3 EndSpan) w2
      = (map (λ r, Ended (Some r)) (reverse started), w3) ∧
    (∀ r, r ∈ started → trace_span.end_time (spans w3 !!! r) ≠ None) ∧
    open_spans 0 w3 = [] ∧
    ContextTracer.current_span 0 w3 = (Ok None, w3).
Proof.
  split; [reflexivity|]. split; [reflexivity|].
  apply (C2_nested_spans_open_and_close_in_stack_order boot_world None None 0
           fresh_tracer_world [PStr "a"; PStr "b"; PStr "c"]); reflexivity.
Defined.

Lemma boot_world_ok : world_ok boot_world.
Proof.
  split; [|split].
  - simpl. intros r p Hr. lia.
  - simpl. intros r Hr. discriminate Hr.
  - intros r Hr. reflexivity.
Defined.

Lemma C3_witness :
  world_ok boot_world ∧
  ContextTracer.__init__ None None boot_world = (Ok 0, fresh_tracer_world) ∧
  (∀ r, Started r ∈ (run_events 0 example_events fresh_tracer_world).1 →
     (r ∈ open_spans 0 (run_events 0 example_events fresh_tracer_world).2 →
        export_count r (run_events 0 example_events fresh_tracer_world).2 = 0) ∧
     (r ∉ open_spans 0 (run_events 0 example_events fresh_tracer_world).2 →
        export_count r (run_events 0 example_events fresh_tracer_world).2 = 1 ∧
        trace_span.end_time
          (spans (run_events 0 example_events fresh_tracer_world).2 !!! r) ≠ None)) ∧
  ∃ fuel w',
    ContextTracer.finish fuel 0 (run_events 0 example_events fresh_tracer_world).2
      = Some (Ok tt, w') ∧
    open_spans 0 w' = [] ∧
    ∀ r, Started r ∈ (run_events 0 example_events fresh_tracer_world).1 →
      export_count r w' = 1 ∧ trace_span.end_time (spans w' !!! r) ≠ None.
Proof.
  split; [exact boot_world_ok|]. split; [reflexivity|].
  exact (C3_each_span_leaves_the_list_finished_and_exported_once
           boot_world None None 0 fresh_tracer_world example_events _ _
           boot_world_ok eq_refl (surjective_pairing _)).
Defined.

Lemma two_open_world_nested : properly_nested 0 two_open_world.
Proof.
  vm_compute.
  split; [lia|].
  split; [lia|]. split; [intros H; apply list_elem_of_singleton in H; discriminate H|].
  split; [reflexivity|].
  split; [lia|]. split; [apply not_elem_of_nil|].
  split; [intros p H; discriminate H|exact I].
Defined.

Lemma C5_witness :
  properly_nested 0 two_open_world ∧
  (ctx_span two_open_world = last (open_spans 0 two_open_world) ∨
   ctx_span two_open_world = None) ∧
  ∃ w' batches,
    (∀ fuel, length (open_spans 0 two_open_world) < fuel →
             ContextTracer.finish fuel 0 two_open_world = Some (Ok tt, w')) ∧
    exported w' = (exported two_open_world ++ batches)%list ∧
    length batches = length (open_spans 0 two_open_world) ∧
    open_spans 0 w' = [].
Proof.
  split; [exact two_open_world_nested|].
  split; [left; vm_compute; reflexivity|].
  apply (C5_finish_exports_every_open_span 0 two_open_world);
    [exact two_open_world_nested | left; vm_compute; reflexivity].
Defined.

Lemma C7_witness :
  ctx_span fresh_tracer_world = None ∧
  ContextTracer.add_attribute_to_current_span 0 "http.method" (PStr "GET")
    fresh_tracer_world
  = (Raise (AttributeError "'NoneType' object has no attribute 'add_attribute'"),
     fresh_tracer_world).
Proof.
  split; [vm_compute; reflexivity|].
  apply (C7_attribute_without_current_span_raises 0 "http.method" (PStr "GET")
           fresh_tracer_world); vm_compute; reflexivity.
Defined.

Lemma C9_witness :
  disable_tracing_url_example (url health_request) (blacklist_paths example_middleware)
    = true ∧
  do_trace_request disable_tracing_url_example example_middleware health_request boot_world
    = (Ok health_request, boot_world).
Proof.
  split; [vm_compute; reflexivity|].
  apply (C9_blacklisted_url_is_not_traced disable_tracing_url_example
           example_middleware health_request boot_world); vm_compute; reflexivity.
Defined.

(** C4 (amended): when the body of an [AsyncSpan] block raises a truthy
    exception [e], or the client call wrapped by [wrap_execute] raises an
    [e] whose class derives from [Exception], and at that moment a
    [ContextTracer] is active and the context store holds a current span,
    then that span receives [error = True] and [error.message = str(e)], its
    end time is set, and [e] itself propagates.  In the second part [w_call]
    is the state in which [wrap_execute] makes the client call, after it has
    started and annotated its span; [c < length (spans _)] says that the
    current span is an object of the heap. *)
Theorem C4_error_is_recorded_on_the_current_span_and_reraised :
  (∀ A a (body : span_val → M A) w v w1 e w2 t c,
     AsyncSpan__aenter__ a w = (Ok v, w1) →
     body v w1 = (Raise e, w2) →
     exc_truthy e = true →
     ctx_tracer w2 = Some (ContextTracerRef t) →
     ctx_span w2 = Some c →
     c < length (spans w2) →
     ∃ w',
       AsyncSpan_block a body w = (Raise e, w') ∧
       trace_span.attributes (spans w' !!! c) !! "error" = Some (PBool true) ∧
       trace_span.attributes (spans w' !!! c) !! "error.message"
         = Some (PStr (exc_str e)) ∧
       trace_span.end_time (spans w' !!! c) ≠ None) ∧
  (∀ py_str instance command args kwargs w t,
     ctx_tracer w = Some (ContextTracerRef t) →
     ∃ w_call,
       ctx_span w_call = Some (length (spans w)) ∧
       length (spans w_call) = S (length (spans w)) ∧
       ∀ wrapped e w_r c,
         wrapped (command :: args) kwargs w_call = (Raise e, w_r) →
         exc_is_Exception e = true →
         ctx_span w_r = Some c →
         c < length (spans w_r) →
         ∃ w',
           wrap_execute py_str wrapped instance (command :: args) kwargs w
             = (Raise e, w') ∧
           trace_span.attributes (spans w' !!! c) !! "error" = Some (PBool true) ∧
           trace_span.attributes (spans w' !!! c) !! "error.message"
             = Some (PStr (exc_str e)) ∧
           trace_span.end_time (spans w' !!! c) ≠ None).
Proof.
  split.
  - intros A a body w v w1 e w2 t c. apply block_error.
  - intros py_str instance command args kwargs w t. apply wrap_execute_error.
Qed.

Lemma C4_witness :
  (∃ w',
     AsyncSpan_block (mkAsyncSpan (PStr "job") PNone)
       (λ _, raise (A := unit) (ValueError "boom")) traced_world
       = (Raise (ValueError "boom"), w') ∧
     trace_span.attributes (spans w' !!! 0) !! "error" = Some (PBool true) ∧
     trace_span.attributes (spans w' !!! 0) !! "error.message" = Some (PStr "boom") ∧
     trace_span.end_time (spans w' !!! 0) ≠ None) ∧
  (∃ w',
     wrap_execute py_str_example (λ _ _, raise (ValueError "boom")) redis_connection
       [PStr "GET"; PStr "k"] [] traced_world
       = (Raise (ValueError "boom"), w') ∧
     trace_span.attributes (spans w' !!! 0) !! "error" = Some (PBool true) ∧
     trace_span.attributes (spans w' !!! 0) !! "error.message" = Some (PStr "boom") ∧
     trace_span.end_time (spans w' !!! 0) ≠ None).
Proof.
  split.
  - apply (proj1 C4_error_is_recorded_on_the_current_span_and_reraised unit
             (mkAsyncSpan (PStr "job") PNone)
             (λ _, raise (A := unit) (ValueError "boom"))
             traced_world (SpanObj 0) entered_world (ValueError "boom")
             entered_world 0 0);
      vm_compute; first [reflexivity | lia].
  - destruct (proj2 C4_error_is_recorded_on_the_current_span_and_reraised
                py_str_example redis_connection (PStr "GET") [PStr "k"] []
                traced_world 0 eq_refl) as (w_call & Hcur & Hlen & Hcall).
    apply (Hcall (λ _ _, raise (ValueError "boom")) (ValueError "boom") w_call 0);
      [reflexivity | reflexivity | exact Hcur | rewrite Hlen; simpl; lia].
Defined.

Lemma C10_witness :
  AsyncSpan__aenter__ (mkAsyncSpan (PStr "job") PNone) traced_world
    = (Ok (SpanObj 0), entered_world) ∧
  trace_span.name (spans entered_world !!! 0) = PStr "job" ∧
  ctx_tracer traced_world = Some (ContextTracerRef 0) ∧
  ∃ w',
    AsyncSpan__aenter__ (mkAsyncSpan PNone (PFunc "handler" true)) traced_world
      = (Ok (SpanObj (length (spans traced_world))), w') ∧
    trace_span.name (spans w' !!! length (spans traced_world))
      = PStr ("[func] " ++ "handler").
Proof.
  pose proof C10_factory_without_name_raises_and_derived_name_needs_a_callable
    as (_ & _ & _ & Hnamed & _ & Hderived).
  split; [vm_compute; reflexivity|].
  split; [apply (Hnamed "job" PNone traced_world 0 entered_world); vm_compute; reflexivity|].
  split; [reflexivity|].
  apply (Hderived "handler" true traced_world 0). reflexivity.
Defined.

(** ** Runs of the model *)

(** A request that is not blacklisted gets a tracer, a root span named after
    the route, the request attributes, and the tracer stored both on the
    request and in the context store. *)
Example request_is_traced :
  let r := do_trace_request disable_tracing_url_example example_middleware
             users_request boot_world in
  r.1 = Ok (set_item "tracer" (ContextTracerRef 0) users_request) ∧
  ctx_tracer r.2 = Some (ContextTracerRef 0) ∧
  ctx_span r.2 = Some 0 ∧
  open_spans 0 r.2 = [0] ∧
  trace_span.name (spans r.2 !!! 0) = PStr "[svc] GET /users/<id>" ∧
  trace_span.attributes (spans r.2 !!! 0) !! "http.url" = Some (PStr "/users/<id>") ∧
  trace_span.attributes (spans r.2 !!! 0) !! "http.headers.user-agent"
    = Some (PStr "curl").
Proof. vm_compute. done. Qed.

(** A block that completes normally: the span is ended and exported, with no
    error attribute. *)
Example block_completes :
  let r := AsyncSpan_block (mkAsyncSpan (PStr "job") PNone) (λ _, ret 7) traced_world in
  r.1 = Ok 7 ∧
  open_spans 0 r.2 = [] ∧
  ctx_span r.2 = None ∧
  export_count 0 r.2 = 1 ∧
  trace_span.name (spans r.2 !!! 0) = PStr "job" ∧
  trace_span.end_time (spans r.2 !!! 0) = Some "now" ∧
  trace_span.attributes (spans r.2 !!! 0) !! "error" = None.
Proof. vm_compute. done. Qed.

(** A traced client call that succeeds. *)
Example client_call_is_traced :
  let r := wrap_execute py_str_example (λ _ _, ret (PBytes [Byte.x4f; Byte.x4b]))
             redis_connection [PStr "GET"; PStr "k"] [] traced_world in
  r.1 = Ok (PBytes [Byte.x4f; Byte.x4b]) ∧
  open_spans 0 r.2 = [] ∧
  trace_span.name (spans r.2 !!! 0) = PStr "[aioredis] GET" ∧
  trace_span.attributes (spans r.2 !!! 0) !! "redis.key" = Some (PStr "k") ∧
  trace_span.attributes (spans r.2 !!! 0) !! "redis.resposne.size" = Some (PInt 2) ∧
  export_count 0 r.2 = 1.
Proof. vm_compute. done. Qed.

(** [end_span] with nothing to end logs a warning and returns [None]. *)
Example end_span_without_span :
  ContextTracer.end_span 0 traced_world
  = (Ok None,
     set_warnings ["No active span, cannot do end_span."] traced_world).
Proof. reflexivity. Qed.

(** Under a [NoopTracer] the client call goes through and nothing is
    recorded. *)
Example client_call_under_noop_tracer :
  wrap_execute py_str_example (λ _ _, ret (PStr "PONG")) redis_connection
    [PStr "PING"] [] (set_ctx_tracer (Some NoopTracer) boot_world)
  = (Ok (PStr "PONG"), set_ctx_tracer (Some NoopTracer) boot_world).
Proof. reflexivity. Qed.

(** * Further properties of the tracer *)

Local Close Scope string_scope.

Lemma get_span_datas_leaf t c w :
  trace_span.children (spans w !!! c) = [] →
  ContextTracer.get_span_datas t c w = (Ok [span_record t (spans w) c], w).
Proof.
  intros Hleaf. unfold ContextTracer.get_span_datas, bind, gets, ret. simpl.
  by rewrite Hleaf.
Qed.

Lemma end_span_exports_record t w c :
  span_to_end t w = Some c →
  c ∈ open_spans t w →
  trace_span.children (spans w !!! c) = [] →
  ∃ w',
    ContextTracer.end_span t w = (Ok (Some c), w') ∧
    exported w' = exported w ++
      [(tracer_obj.exporter (tracers w !!! t),
        [span_record t (finished (clock w (clock_reads w)) (spans w) c) c])].
Proof.
  intros Htgt Hin Hleaf.
  assert (Hrun : ContextTracer.end_span t w =
    (Span.finish c ;;;
      s <- read_span c ;;
      h <- gets spans ;;
      update_tracer t (λ me,
        tracer_obj.set_span_context
          (span_context.set_span_id
             (match trace_span.parent_span s with
              | ParentNone => None
              | ParentSpan p => Some (trace_span.span_id (h !!! p))
              | NullContextManager i => i
              end)
             (tracer_obj.span_context me)) me) ;;;
      match trace_span.parent_span s with
      | ParentSpan p => asyncio_context.set_current_span (Some p)
      | _ => asyncio_context.set_current_span None
      end ;;;
      me <- read_tracer t ;;
      (if bool_decide (c ∈ tracer_obj._spans_list me) then
         span_datas <- ContextTracer.get_span_datas t c ;;
         ContextTracer.export t span_datas ;;;
         update_tracer t (λ me,
           tracer_obj.set_spans_list
             (py_list_remove c (tracer_obj._spans_list me)) me)
       else ret tt) ;;;
      ret (Some c))%py w).
  { unfold span_to_end, open_spans in Htgt.
    unfold ContextTracer.end_span, ContextTracer.current_span,
      asyncio_context.get_current_span, read_tracer.
    unfold bind at 1 2. unfold gets at 1 2. simpl.
    destruct (ctx_span w) as [c'|].
    - by inversion Htgt.
    - destruct (tracer_obj._spans_list (tracers w !!! t)); [done|].
      by rewrite Htgt. }
  rewrite Hrun. clear Hrun Htgt.
  unfold Span.finish, read_span, read_tracer, update_span, update_tracer,
    asyncio_context.set_current_span, ContextTracer.get_span_datas,
    ContextTracer.export, to_iso_str, bind, gets, modify, ret, open_spans in *.
  simpl. fold (finished (clock w (clock_reads w)) (spans w) c).
  set (h' := finished _ (spans w) c).
  assert (Hleaf' : trace_span.children (h' !!! c) = []).
  { unfold h'. by rewrite finished_children. }
  destruct (trace_span.parent_span (h' !!! c)) as [|p|i] eqn:Hp; simpl;
    rewrite ?spans_list_after_context_update;
    rewrite (bool_decide_eq_true_2 _ Hin); simpl;
    rewrite Hleaf'; simpl;
    rewrite ?exporter_after_context_update;
    eexists; (split; [reflexivity|]); simpl;
    unfold span_record; rewrite Hp, Hleaf'; reflexivity.
Qed.

Lemma span_record_fields t h r :
  span_data_module.source (span_record t h r) = r ∧
  span_data_module.name (span_record t h r) = trace_span.name (h !!! r) ∧
  span_data_module.attributes (span_record t h r) = trace_span.attributes (h !!! r) ∧
  span_data_module.end_time (span_record t h r) = trace_span.end_time (h !!! r).
Proof. done. Qed.

Lemma finished_fields time h c :
  c < length h →
  trace_span.name (finished time h c !!! c) = trace_span.name (h !!! c) ∧
  trace_span.attributes (finished time h c !!! c) = trace_span.attributes (h !!! c) ∧
  trace_span.end_time (finished time h c !!! c) = Some time.
Proof. intros Hc. by rewrite finished_lookup_eq. Qed.

Lemma start_span_context t name w :
  t < length (tracers w) →
  ∃ w',
    ContextTracer.start_span t name w = (Ok (length (spans w)), w') ∧
    remote_span_id t w' = remote_span_id t w ∧
    context_span_id t w' = Some (trace_span.span_id (spans w' !!! length (spans w))) ∧
    tracer_obj.exporter (tracers w' !!! t) = tracer_obj.exporter (tracers w !!! t).
Proof.
  intros Ht.
  unfold ContextTracer.start_span, ContextTracer.current_span,
    asyncio_context.get_current_span, asyncio_context.set_current_span,
    Span.__init__, Span.start, read_tracer, read_span, update_tracer,
    update_span, generate_id, to_iso_str, bind, gets, modify, ret,
    remote_span_id, context_span_id.
  destruct (ctx_span w) as [p|] eqn:Hc; simpl;
    rewrite lookup_total_snoc, insert_snoc;
    (eexists; split; [reflexivity|]); simpl;
    repeat (rewrite list_lookup_total_insert_eq by (rewrite ?length_insert; done); simpl);
    rewrite ?lookup_total_snoc; done.
Qed.

Lemma end_span_context t w c :
  t < length (tracers w) →
  span_to_end t w = Some c →
  ∃ w',
    ContextTracer.end_span t w = (Ok (Some c), w') ∧
    remote_span_id t w' = remote_span_id t w ∧
    context_span_id t w' =
      match trace_span.parent_span (spans w !!! c) with
      | ParentNone => None
      | ParentSpan p => Some (trace_span.span_id (spans w' !!! p))
      | NullContextManager i => i
      end ∧
    tracer_obj.exporter (tracers w' !!! t) = tracer_obj.exporter (tracers w !!! t).
Proof.
  intros Ht Htgt.
  assert (Hrun : ContextTracer.end_span t w =
    (Span.finish c ;;;
      s <- read_span c ;;
      h <- gets spans ;;
      update_tracer t (λ me,
        tracer_obj.set_span_context
          (span_context.set_span_id
             (match trace_span.parent_span s with
              | ParentNone => None
              | ParentSpan p => Some (trace_span.span_id (h !!! p))
              | NullContextManager i => i
              end)
             (tracer_obj.span_context me)) me) ;;;
      match trace_span.parent_span s with
      | ParentSpan p => asyncio_context.set_current_span (Some p)
      | _ => asyncio_context.set_current_span None
      end ;;;
      me <- read_tracer t ;;
      (if bool_decide (c ∈ tracer_obj._spans_list me) then
         span_datas <- ContextTracer.get_span_datas t c ;;
         ContextTracer.export t span_datas ;;;
         update_tracer t (λ me,
           tracer_obj.set_spans_list
             (py_list_remove c (tracer_obj._spans_list me)) me)
       else ret tt) ;;;
      ret (Some c))%py w).
  { unfold span_to_end, open_spans in Htgt.
    unfold ContextTracer.end_span, ContextTracer.current_span,
      asyncio_context.get_current_span, read_tracer.
    unfold bind at 1 2. unfold gets at 1 2. simpl.
    destruct (ctx_span w) as [c'|].
    - by inversion Htgt.
    - destruct (tracer_obj._spans_list (tracers w !!! t)); [done|].
      by rewrite Htgt. }
  rewrite Hrun. clear Hrun Htgt.
  unfold Span.finish, read_span, read_tracer, update_span, update_tracer,
    asyncio_context.set_current_span, ContextTracer.get_span_datas,
    ContextTracer.export, to_iso_str, bind, gets, modify, ret, open_spans,
    remote_span_id, context_span_id in *.
  simpl. fold (finished (clock w (clock_reads w)) (spans w) c).
  set (h' := finished _ (spans w) c).
  assert (Hpar : trace_span.parent_span (h' !!! c)
                 = trace_span.parent_span (spans w !!! c)).
  { unfold h'. by rewrite finished_parent. }
  rewrite <- Hpar.
  destruct (trace_span.parent_span (h' !!! c)) as [|p|i] eqn:Hp; simpl;
    rewrite ?spans_list_after_context_update;
    (destruct (decide (c ∈ tracer_obj._spans_list (tracers w !!! t))) as [Hin|Hin];
     [ rewrite (bool_decide_eq_true_2 _ Hin) | rewrite (bool_decide_eq_false_2 _ Hin) ];
     (eexists; split; [reflexivity|]); simpl;
     rewrite ?Hp;
     repeat (rewrite list_lookup_total_insert_eq by (rewrite ?length_insert; done); simpl);
     done).
Qed.

Lemma start_span_new_span t name w :
  ∃ w',
    ContextTracer.start_span t name w = (Ok (length (spans w)), w') ∧
    spans w' = spans w ++
      [trace_span.mkSpan name
         (match ctx_span w with
          | Some p => ParentSpan p
          | None => NullContextManager
                      (span_context.span_id (tracer_obj.span_context (tracers w !!! t)))
          end)
         ∅ (Some (clock w (clock_reads w))) None (random_ids w (ids_drawn w)) []
         (Some t)] ∧
    clock_reads w' = S (clock_reads w) ∧
    clock w' = clock w.
Proof.
  unfold ContextTracer.start_span, ContextTracer.current_span,
    asyncio_context.get_current_span, asyncio_context.set_current_span,
    Span.__init__, Span.start, read_tracer, read_span, update_tracer,
    update_span, generate_id, to_iso_str, bind, gets, modify, ret.
  destruct (ctx_span w) as [p|] eqn:Hc; simpl;
    rewrite lookup_total_snoc, insert_snoc;
    (eexists; split; [reflexivity|]); done.
Qed.

Lemma top_is_current_empty t w :
  top_is_current t w → ctx_span w = None → open_spans t w = [].
Proof. intros [_ Hc] Hn. rewrite Hn in Hc. symmetry in Hc. by apply last_None in Hc. Qed.

Lemma top_is_current_tracer t w : top_is_current t w → t < length (tracers w).
Proof. by intros [[Ht _] _]. Qed.

Lemma top_is_current_bound t w r :
  top_is_current t w → r ∈ open_spans t w → r < length (spans w).
Proof.
  intros [[_ Hn] _] Hr. apply (nested_bound _ _ _ Hn). by apply elem_of_reverse.
Qed.

Lemma start_span_in_step t name w :
  in_step t w →
  ∃ w',
    ContextTracer.start_span t name w = (Ok (length (spans w)), w') ∧
    in_step t w' ∧
    open_spans t w' = open_spans t w ++ [length (spans w)] ∧
    exported w' = exported w ∧
    ctx_tracer w' = ctx_tracer w ∧
    length (spans w') = S (length (spans w)) ∧
    trace_span.name (spans w' !!! length (spans w)) = name ∧
    trace_span.attributes (spans w' !!! length (spans w)) = ∅ ∧
    trace_span.parent_span (spans w' !!! length (spans w)) =
      match ctx_span w with
      | Some p => ParentSpan p
      | None => NullContextManager (remote_span_id t w)
      end ∧
    (∀ r, r < length (spans w) → spans w' !!! r = spans w !!! r).
Proof.
  intros Hinv. pose proof (step_stack _ _ Hinv) as Hstack.
  pose proof (top_is_current_tracer _ _ Hstack) as Ht.
  destruct (start_span_step t name w Hstack)
    as (w' & Hrun & Hstack' & Hopen & Hlen & Hexp & Hold).
  destruct (start_span_context t name w Ht) as (w2 & Hrun2 & Hrem & Hctx & _).
  rewrite Hrun in Hrun2. injection Hrun2 as <-.
  destruct (start_span_spec t name w)
    as (w3 & s & Hrun3 & Hsp & Hpar & Hch & _ & _ & _ & Hcur & _ & _ & Htr).
  rewrite Hrun in Hrun3. injection Hrun3 as <-.
  assert (Hnew : spans w' !!! length (spans w) = s).
  { by rewrite Hsp, lookup_total_snoc. }
  assert (Hpar' : trace_span.parent_span (spans w' !!! length (spans w)) =
      match ctx_span w with
      | Some p => ParentSpan p
      | None => NullContextManager (remote_span_id t w)
      end).
  { rewrite Hnew, Hpar. destruct (ctx_span w) eqn:Hc; [done|].
    f_equal. pose proof (step_context _ _ Hinv) as Hsc. by rewrite Hc in Hsc. }
  exists w'. split; [done|]. split; [|repeat split; try done].
  - split; [done| | |].
    + by rewrite Hctx, Hcur.
    + rewrite Hopen, Hrem. destruct (open_spans t w) as [|r0 l] eqn:Ho; simpl.
      * rewrite Hpar'. destruct (ctx_span w) as [p|] eqn:Hc; [|done].
        destruct Hstack as [_ Hlast]. rewrite Ho, Hc in Hlast. done.
      * rewrite Hold.
        -- pose proof (step_remote _ _ Hinv) as Hr. by rewrite Ho in Hr.
        -- apply (top_is_current_bound t w); [done|]. rewrite Ho. by left.
    + intros r. rewrite Hopen. intros Hr. apply elem_of_app in Hr as [Hr|Hr].
      * rewrite Hold; [by apply (step_leaf _ _ Hinv)|].
        by apply (top_is_current_bound t w).
      * apply list_elem_of_singleton in Hr as ->. by rewrite Hnew.
  - destruct (start_span_new_span t name w) as (w4 & Hrun4 & Hsp4 & _).
    rewrite Hrun in Hrun4. injection Hrun4 as <-.
    by rewrite Hsp4, lookup_total_snoc.
  - destruct (start_span_new_span t name w) as (w4 & Hrun4 & Hsp4 & _).
    rewrite Hrun in Hrun4. injection Hrun4 as <-.
    by rewrite Hsp4, lookup_total_snoc.
Qed.

Lemma finished_span_id time h c r :
  trace_span.span_id (finished time h c !!! r) = trace_span.span_id (h !!! r).
Proof.
  destruct (decide (r = c)) as [->|]; [|by rewrite finished_lookup_ne].
  destruct (decide (c < length h)).
  - by rewrite finished_lookup_eq.
  - unfold finished. by rewrite list_insert_ge by lia.
Qed.

Lemma end_span_in_step t w l c :
  in_step t w →
  open_spans t w = l ++ [c] →
  ∃ w',
    ContextTracer.end_span t w = (Ok (Some c), w') ∧
    in_step t w' ∧
    open_spans t w' = l ∧
    ctx_span w' = last l ∧
    spans w' = finished (clock w (clock_reads w)) (spans w) c ∧
    ctx_tracer w' = ctx_tracer w ∧
    exported w' = exported w ++
      [(tracer_obj.exporter (tracers w !!! t), [span_record t (spans w') c])] ∧
    span_data_module.parent_span_id (span_record t (spans w') c) =
      match last l with
      | Some p => Some (trace_span.span_id (spans w !!! p))
      | None => remote_span_id t w
      end.
Proof.
  intros Hinv Hopen. pose proof (step_stack _ _ Hinv) as Hstack.
  pose proof (top_is_current_tracer _ _ Hstack) as Ht.
  assert (Hin : c ∈ open_spans t w).
  { rewrite Hopen. apply elem_of_app. right. by apply list_elem_of_singleton. }
  assert (Hc : c < length (spans w)) by by apply (top_is_current_bound t w).
  assert (Htgt : span_to_end t w = Some c).
  { unfold span_to_end. destruct Hstack as [_ ->]. by rewrite Hopen, last_snoc. }
  destruct Hstack as [Hn Hcur].
  destruct (end_span_step t w l c Hn (or_introl Hcur) Hopen)
    as (w' & datas & Hrun & Hstack' & Hopen' & _ & _ & Hsp & _).
  destruct (end_span_context t w c Ht Htgt) as (w2 & Hrun2 & Hrem & Hctx & _).
  rewrite Hrun in Hrun2. injection Hrun2 as <-.
  destruct (end_span_exports_record t w c Htgt Hin (step_leaf _ _ Hinv c Hin))
    as (w3 & Hrun3 & Hexp).
  rewrite Hrun in Hrun3. injection Hrun3 as <-.
  destruct (end_span_some t w c Htgt) as (w4 & Hrun4 & _ & _ & _ & _ & _ & _ & Htr).
  rewrite Hrun in Hrun4. injection Hrun4 as <-.
  (* the parent of [c], read off the stack *)
  assert (Hpar : trace_span.parent_span (spans w !!! c) =
            match last l with
            | Some p => ParentSpan p
            | None => NullContextManager (remote_span_id t w)
            end).
  { destruct Hn as [_ Hn]. rewrite Hopen, reverse_snoc in Hn. simpl in Hn.
    destruct Hn as (_ & _ & Hlink & _).
    rewrite <- head_reverse.
    destruct (reverse l) as [|p below] eqn:Hrev; simpl; [|done].
    apply (f_equal reverse) in Hrev. rewrite reverse_involutive in Hrev.
    simpl in Hrev. subst l.
    pose proof (step_remote _ _ Hinv) as Hr. by rewrite Hopen in Hr. }
  assert (Hcur' : ctx_span w' = last l).
  { destruct Hstack' as [_ ->]. by rewrite Hopen'. }
  exists w'. split; [done|]. split; [|split; [done|split; [done|split; [done|split; [done|split]]]]].
  - split; [done| | |].
    + rewrite Hctx, Hpar, Hcur'. by destruct (last l).
    + rewrite Hopen', Hrem. destruct l as [|r0 l']; [done|].
      rewrite Hsp, finished_parent.
      pose proof (step_remote _ _ Hinv) as Hr. by rewrite Hopen in Hr.
    + intros r. rewrite Hopen'. intros Hr. rewrite Hsp, finished_children.
      apply (step_leaf _ _ Hinv). rewrite Hopen. apply elem_of_app. by left.
  - by rewrite Hexp, Hsp.
  - unfold span_record. simpl. rewrite Hsp, finished_parent, Hpar.
    destruct (last l); [|done]. by rewrite finished_span_id.
Qed.

Lemma end_span_in_step_idle t w :
  in_step t w →
  open_spans t w = [] →
  ∃ w',
    ContextTracer.end_span t w = (Ok None, w') ∧
    in_step t w' ∧
    open_spans t w' = [] ∧
    exported w' = exported w ∧
    spans w' = spans w.
Proof.
  intros Hinv Hopen. pose proof (step_stack _ _ Hinv) as Hstack.
  assert (Htgt : span_to_end t w = None).
  { unfold span_to_end. destruct Hstack as [_ ->]. by rewrite Hopen. }
  rewrite (end_span_none t w Htgt).
  eexists. split; [reflexivity|]. split; [|done].
  destruct Hinv as [Hs Hc Hr Hl]. by split.
Qed.

Lemma add_attribute_current t k v w c :
  ctx_span w = Some c →
  ContextTracer.add_attribute_to_current_span t k v w = (Ok tt, with_attribute c k v w).
Proof. intros Hc. by rewrite add_attribute_spec, Hc. Qed.

Lemma same_structure_update (h : list trace_span.Span) c f :
  (∀ s, trace_span.parent_span (f s) = trace_span.parent_span s ∧
        trace_span.children (f s) = trace_span.children s ∧
        trace_span.span_id (f s) = trace_span.span_id s ∧
        trace_span.end_time (f s) = trace_span.end_time s ∧
        trace_span.start_time (f s) = trace_span.start_time s) →
  same_structure h (<[c := f (h !!! c)]> h).
Proof.
  intros Hf. split; [apply length_insert|].
  intros r. destruct (decide (r = c)) as [->|Hne].
  - destruct (decide (c < length h)).
    + rewrite list_lookup_total_insert_eq by done. apply Hf.
    + by rewrite list_insert_ge by lia.
  - by rewrite list_lookup_total_insert_ne.
Qed.

Lemma with_attribute_structure c k v w :
  same_structure (spans w) (spans (with_attribute c k v w)).
Proof. apply same_structure_update. done. Qed.

Lemma renamed_structure r n w : same_structure (spans w) (spans (renamed r n w)).
Proof. apply same_structure_update. done. Qed.

Lemma nested_same_structure h h' stk :
  same_structure h h' → nested h stk → nested h' stk.
Proof.
  intros [Hlen Hsame]. apply nested_ext; [lia|]. intros r _. apply Hsame.
Qed.

(** A change of names and attributes that leaves tracers and context store
    alone keeps the tracer in step. *)
Lemma in_step_same_structure t w w' :
  same_structure (spans w) (spans w') →
  tracers w' = tracers w →
  ctx_span w' = ctx_span w →
  in_step t w → in_step t w'.
Proof.
  intros Hs Htr Hc Hinv. pose proof Hs as [Hlen Hsame].
  assert (Hopen : open_spans t w' = open_spans t w).
  { unfold open_spans. by rewrite Htr. }
  destruct Hinv as [[[Ht Hn] Hcur] Hctx Hrem Hleaf]. split.
  - split; [split|].
    + by rewrite Htr.
    + rewrite Hopen. by eapply nested_same_structure.
    + by rewrite Hc, Hopen.
  - unfold context_span_id, remote_span_id in *. rewrite Htr, Hc, Hctx.
    destruct (ctx_span w) as [c|]; [|done].
    by destruct (Hsame c) as (_ & _ & -> & _).
  - rewrite Hopen. unfold remote_span_id in *. rewrite Htr.
    destruct (open_spans t w) as [|r0 l]; [done|].
    by destruct (Hsame r0) as (-> & _).
  - intros r. rewrite Hopen. intros Hr.
    destruct (Hsame r) as (_ & -> & _). by apply Hleaf.
Qed.

Lemma with_attribute_in_step t c k v w :
  in_step t w → in_step t (with_attribute c k v w).
Proof. apply in_step_same_structure; [apply with_attribute_structure|done|done]. Qed.

Lemma renamed_in_step t r n w : in_step t w → in_step t (renamed r n w).
Proof. apply in_step_same_structure; [apply renamed_structure|done|done]. Qed.

Lemma with_attribute_lookup c k v w :
  c < length (spans w) →
  trace_span.attributes (spans (with_attribute c k v w) !!! c)
  = <[k := v]> (trace_span.attributes (spans w !!! c)).
Proof. intros Hc. simpl. by rewrite list_lookup_total_insert_eq. Qed.

Lemma with_attribute_other c k v w r :
  r ≠ c → spans (with_attribute c k v w) !!! r = spans w !!! r.
Proof. intros Hne. simpl. by rewrite list_lookup_total_insert_ne. Qed.

Lemma with_attribute_name c k v w r :
  trace_span.name (spans (with_attribute c k v w) !!! r) = trace_span.name (spans w !!! r).
Proof.
  simpl. destruct (decide (r = c)) as [->|Hne].
  - destruct (decide (c < length (spans w))).
    + by rewrite list_lookup_total_insert_eq.
    + by rewrite list_insert_ge by lia.
  - by rewrite list_lookup_total_insert_ne.
Qed.

Lemma fresh_tracer_in_step e sc w0 t w1 :
  ctx_span w0 = None →
  ContextTracer.__init__ e sc w0 = (Ok t, w1) →
  in_step t w1 ∧
  remote_span_id t w1 = match sc with Some c => span_context.span_id c | None => None end ∧
  tracer_obj.exporter (tracers w1 !!! t) = match e with Some x => x | None => PrintExporter end.
Proof.
  intros Hc Hinit.
  destruct (fresh_tracer_top_is_current e sc w0 t w1 Hc Hinit) as (Hstack & Hopen & _).
  assert (Hctx1 : ctx_span w1 = None).
  { destruct Hstack as [_ ->]. by rewrite Hopen. }
  assert (Hme : context_span_id t w1 = remote_span_id t w1 ∧
     remote_span_id t w1 = match sc with Some c => span_context.span_id c | None => None end ∧
     tracer_obj.exporter (tracers w1 !!! t) = match e with Some x => x | None => PrintExporter end).
  { revert Hinit.
    unfold ContextTracer.__init__, ContextTracer.new_SpanContext, generate_id,
      bind, gets, modify, ret, context_span_id, remote_span_id.
    destruct sc as [c|]; simpl; intros [= <- <-]; simpl;
      rewrite lookup_total_snoc; by destruct e. }
  destruct Hme as (Hsc & Hrem & Hexp).
  split; [|done]. split; [done| | |].
  - by rewrite Hctx1.
  - by rewrite Hopen.
  - rewrite Hopen. intros r Hr. by apply elem_of_nil in Hr.
Qed.

Lemma do_call_in_step t c w :
  in_step t w →
  in_step t (do_call t c w).2 ∧
  remote_span_id t (do_call t c w).2 = remote_span_id t w ∧
  tracer_obj.exporter (tracers (do_call t c w).2 !!! t)
    = tracer_obj.exporter (tracers w !!! t).
Proof.
  intros Hinv. destruct c as [name| |k v].
  - destruct (start_span_in_step t name w Hinv) as (w' & Hrun & Hinv' & _).
    destruct (start_span_context t name w
                (top_is_current_tracer _ _ (step_stack _ _ Hinv)))
      as (w2 & Hrun2 & Hrem & _ & Hexp).
    rewrite Hrun in Hrun2. injection Hrun2 as <-.
    simpl. by rewrite Hrun.
  - destruct (open_spans t w) as [|x l] eqn:Hopen using rev_ind.
    + destruct (end_span_in_step_idle t w Hinv Hopen) as (w' & Hrun & Hinv' & _).
      simpl. rewrite Hrun. simpl. split; [done|].
      assert (Htgt : span_to_end t w = None).
      { unfold span_to_end. destruct (step_stack _ _ Hinv) as [_ ->]. by rewrite Hopen. }
      rewrite (end_span_none t w Htgt) in Hrun. by injection Hrun as <-.
    + destruct (end_span_in_step t w l x Hinv Hopen) as (w' & Hrun & Hinv' & _).
      assert (Htgt : span_to_end t w = Some x).
      { unfold span_to_end. destruct (step_stack _ _ Hinv) as [_ ->].
        by rewrite Hopen, last_snoc. }
      destruct (end_span_context t w x
                  (top_is_current_tracer _ _ (step_stack _ _ Hinv)) Htgt)
        as (w2 & Hrun2 & Hrem & _ & Hexp).
      rewrite Hrun in Hrun2. injection Hrun2 as <-.
      simpl. by rewrite Hrun.
  - simpl. rewrite add_attribute_spec.
    destruct (ctx_span w) as [c|] eqn:Hc; simpl; [|done].
    split; [|done]. by apply (with_attribute_in_step t c k v w).
Qed.

Lemma run_calls_in_step t cs : ∀ w,
  in_step t w →
  in_step t (run_calls t cs w).2 ∧
  remote_span_id t (run_calls t cs w).2 = remote_span_id t w ∧
  tracer_obj.exporter (tracers (run_calls t cs w).2 !!! t)
    = tracer_obj.exporter (tracers w !!! t).
Proof.
  induction cs as [|c cs IH]; intros w Hinv; [done|].
  simpl. destruct (do_call_in_step t c w Hinv) as (H1 & Hr1 & He1).
  destruct (do_call t c w) as [o w1]. simpl in *.
  destruct (IH w1 H1) as (H2 & Hr2 & He2).
  destruct (run_calls t cs w1) as [os w2]. simpl in *.
  split; [done|]. split; congruence.
Qed.

Lemma same_structure_refl h : same_structure h h.
Proof. by split. Qed.

Lemma same_structure_trans h1 h2 h3 :
  same_structure h1 h2 → same_structure h2 h3 → same_structure h1 h3.
Proof.
  intros [L1 S1] [L2 S2]. split; [congruence|].
  intros r. destruct (S1 r) as (a1 & b1 & c1 & d1 & e1).
  destruct (S2 r) as (a2 & b2 & c2 & d2 & e2).
  repeat split; congruence.
Qed.

Lemma top_is_current_same_structure t w w' :
  same_structure (spans w) (spans w') →
  tracers w' = tracers w →
  ctx_span w' = ctx_span w →
  top_is_current t w → top_is_current t w'.
Proof.
  intros Hs Htr Hc [[Ht Hn] Hcur].
  assert (Hopen : open_spans t w' = open_spans t w).
  { unfold open_spans. by rewrite Htr. }
  split; [split|].
  - by rewrite Htr.
  - rewrite Hopen. by eapply nested_same_structure.
  - by rewrite Hc, Hopen.
Qed.

Lemma with_attribute_length c k v w :
  length (spans (with_attribute c k v w)) = length (spans w).
Proof. simpl. apply length_insert. Qed.

Lemma renamed_length r n w : length (spans (renamed r n w)) = length (spans w).
Proof. simpl. apply length_insert. Qed.

Lemma renamed_name r n w :
  r < length (spans w) → trace_span.name (spans (renamed r n w) !!! r) = n.
Proof. intros Hr. simpl. by rewrite list_lookup_total_insert_eq. Qed.

Lemma renamed_attributes r n w r' :
  trace_span.attributes (spans (renamed r n w) !!! r')
  = trace_span.attributes (spans w !!! r').
Proof.
  simpl. destruct (decide (r' = r)) as [->|Hne].
  - destruct (decide (r < length (spans w))).
    + by rewrite list_lookup_total_insert_eq.
    + by rewrite list_insert_ge by lia.
  - by rewrite list_lookup_total_insert_ne.
Qed.

Lemma renamed_other r n w r' :
  r' ≠ r → spans (renamed r n w) !!! r' = spans w !!! r'.
Proof. intros Hne. simpl. by rewrite list_lookup_total_insert_ne. Qed.

Lemma attribute_step {B} t k v w r (rest : M B) :
  ctx_span w = Some r →
  (Tracer.add_attribute_to_current_span (ContextTracerRef t) k v ;;; rest)%py w
  = rest (with_attribute r k v w).
Proof.
  intros Hc. unfold bind. simpl. by rewrite (add_attribute_current t k v w r Hc).
Qed.

(** Ending the top span of a well-kept stack. *)
Lemma end_top_span t w l r :
  top_is_current t w →
  open_spans t w = l ++ [r] →
  trace_span.children (spans w !!! r) = [] →
  ∃ w',
    ContextTracer.end_span t w = (Ok (Some r), w') ∧
    top_is_current t w' ∧
    open_spans t w' = l ∧
    ctx_span w' = last l ∧
    ctx_tracer w' = ctx_tracer w ∧
    exported w' = exported w ++
      [(tracer_obj.exporter (tracers w !!! t), [span_record t (spans w') r])] ∧
    spans w' = finished (clock w (clock_reads w)) (spans w) r ∧
    r < length (spans w).
Proof.
  intros Hstack Hopen Hleaf.
  assert (Hin : r ∈ open_spans t w).
  { rewrite Hopen. apply elem_of_app. right. by apply list_elem_of_singleton. }
  assert (Htgt : span_to_end t w = Some r).
  { unfold span_to_end. destruct Hstack as [_ ->]. by rewrite Hopen, last_snoc. }
  destruct Hstack as [Hn Hcur].
  destruct (end_span_step t w l r Hn (or_introl Hcur) Hopen)
    as (w' & datas & Hrun & Hstack' & Hopen' & _ & _ & Hsp & Hlt).
  destruct (end_span_exports_record t w r Htgt Hin Hleaf) as (w3 & Hrun3 & Hexp).
  rewrite Hrun in Hrun3. injection Hrun3 as <-.
  destruct (end_span_some t w r Htgt) as (w4 & Hrun4 & _ & _ & _ & _ & _ & _ & Htr).
  rewrite Hrun in Hrun4. injection Hrun4 as <-.
  exists w'. split; [done|]. split; [done|]. split; [done|].
  split; [destruct Hstack' as [_ ->]; by rewrite Hopen'|].
  split; [done|]. split; [by rewrite Hexp, Hsp|]. done.
Qed.

(** ** The span context and the exported records *)

(** X1: on a tracer created in a task with no current span, after any
    sequence of [start_span], [end_span] and [add_attribute_to_current_span]
    calls the span id held by the tracer's span context is the id of the
    current span, and when there is no current span it is the span id the
    tracer was created with (that of the remote parent, or none). *)
Theorem span_context_follows_current_span w0 e sc t w1 cs :
  ctx_span w0 = None →
  ContextTracer.__init__ e sc w0 = (Ok t, w1) →
  context_span_id t (run_calls t cs w1).2 =
    match ctx_span (run_calls t cs w1).2 with
    | Some c => Some (trace_span.span_id (spans (run_calls t cs w1).2 !!! c))
    | None => match sc with Some c => span_context.span_id c | None => None end
    end.
Proof.
  intros Hc Hinit.
  destruct (fresh_tracer_in_step e sc w0 t w1 Hc Hinit) as (Hinv & Hrem & _).
  destruct (run_calls_in_step t cs w1 Hinv) as (Hinv' & Hrem' & _).
  rewrite (step_context _ _ Hinv'), Hrem', Hrem. done.
Qed.

(** X2: under the same conditions, [end_span] on a tracer whose open list
    ends in [c] hands the tracer's exporter one batch of one record, the
    record of [c]: its name, span id, attributes and start time as they were,
    the clock reading of the call as end time, no children, and as parent id
    the id of the span below [c] on the list, or the span id the tracer was
    created with when [c] is the bottom span. *)
Theorem end_span_exports_the_finished_span w0 e sc t w1 cs l c :
  ctx_span w0 = None →
  ContextTracer.__init__ e sc w0 = (Ok t, w1) →
  open_spans t (run_calls t cs w1).2 = l ++ [c] →
  ∃ w' d,
    ContextTracer.end_span t (run_calls t cs w1).2 = (Ok (Some c), w') ∧
    exported w' = exported (run_calls t cs w1).2 ++
      [(match e with Some x => x | None => PrintExporter end, [d])] ∧
    span_data_module.source d = c ∧
    span_data_module.name d = trace_span.name (spans (run_calls t cs w1).2 !!! c) ∧
    span_data_module.span_id d = trace_span.span_id (spans (run_calls t cs w1).2 !!! c) ∧
    span_data_module.attributes d
      = trace_span.attributes (spans (run_calls t cs w1).2 !!! c) ∧
    span_data_module.start_time d
      = trace_span.start_time (spans (run_calls t cs w1).2 !!! c) ∧
    span_data_module.end_time d
      = Some (clock (run_calls t cs w1).2 (clock_reads (run_calls t cs w1).2)) ∧
    span_data_module.child_span_count d = 0 ∧
    span_data_module.parent_span_id d =
      match last l with
      | Some p => Some (trace_span.span_id (spans (run_calls t cs w1).2 !!! p))
      | None => match sc with Some x => span_context.span_id x | None => None end
      end.
Proof.
  intros Hc Hinit Hopen.
  destruct (fresh_tracer_in_step e sc w0 t w1 Hc Hinit) as (Hinv1 & Hrem1 & Hexp1).
  destruct (run_calls_in_step t cs w1 Hinv1) as (Hinv & Hrem & Hexporter).
  set (w := (run_calls t cs w1).2) in *.
  destruct (end_span_in_step t w l c Hinv Hopen)
    as (w' & Hrun & _ & _ & _ & Hsp & _ & Hexp & Hpar).
  assert (Hc' : c < length (spans w)).
  { apply (top_is_current_bound t w); [apply (step_stack _ _ Hinv)|].
    rewrite Hopen. apply elem_of_app. right. by apply list_elem_of_singleton. }
  assert (Hleaf : trace_span.children (spans w !!! c) = []).
  { apply (step_leaf _ _ Hinv). rewrite Hopen. apply elem_of_app. right.
    by apply list_elem_of_singleton. }
  exists w', (span_record t (spans w') c).
  split; [done|]. split; [by rewrite Hexp, Hexporter, Hexp1|].
  split; [done|].
  repeat split;
    first [ by rewrite Hpar, Hrem, Hrem1
          | unfold span_record; simpl;
            rewrite Hsp, finished_lookup_eq by done; simpl;
            rewrite ?Hleaf; done ].
Qed.

(** X3: [start_span(name)] followed by [end_span()] is a round trip: the
    open list, the current span and the span context's span id are as
    before, older spans are untouched, and the one thing added is an export
    of the new span, named [name] and without attributes. *)
Theorem start_then_end_restores_the_tracer w0 e sc t w1 cs name :
  ctx_span w0 = None →
  ContextTracer.__init__ e sc w0 = (Ok t, w1) →
  ∃ w2 w3 d,
    ContextTracer.start_span t name (run_calls t cs w1).2
      = (Ok (length (spans (run_calls t cs w1).2)), w2) ∧
    ContextTracer.end_span t w2
      = (Ok (Some (length (spans (run_calls t cs w1).2))), w3) ∧
    open_spans t w3 = open_spans t (run_calls t cs w1).2 ∧
    ctx_span w3 = ctx_span (run_calls t cs w1).2 ∧
    context_span_id t w3 = context_span_id t (run_calls t cs w1).2 ∧
    exported w3 = exported (run_calls t cs w1).2 ++
      [(match e with Some x => x | None => PrintExporter end, [d])] ∧
    span_data_module.source d = length (spans (run_calls t cs w1).2) ∧
    span_data_module.name d = name ∧
    span_data_module.attributes d = ∅ ∧
    (∀ r, r < length (spans (run_calls t cs w1).2) →
          spans w3 !!! r = spans (run_calls t cs w1).2 !!! r).
Proof.
  intros Hc Hinit.
  destruct (fresh_tracer_in_step e sc w0 t w1 Hc Hinit) as (Hinv1 & Hrem1 & Hexp1).
  destruct (run_calls_in_step t cs w1 Hinv1) as (Hinv & Hrem & Hexporter).
  set (w := (run_calls t cs w1).2) in *.
  destruct (start_span_in_step t name w Hinv)
    as (w2 & Hrun2 & Hinv2 & Hopen2 & Hexp2 & _ & Hlen2 & Hname2 & Hattr2 & _ & Hold2).
  destruct (start_span_context t name w
              (top_is_current_tracer _ _ (step_stack _ _ Hinv)))
    as (w2' & Hrun2' & Hrem2 & _ & Hexporter2).
  rewrite Hrun2 in Hrun2'. injection Hrun2' as <-.
  destruct (end_span_in_step t w2 (open_spans t w) (length (spans w)) Hinv2 Hopen2)
    as (w3 & Hrun3 & Hinv3 & Hopen3 & Hcur3 & Hsp3 & _ & Hexp3 & _).
  assert (Htgt : span_to_end t w2 = Some (length (spans w))).
  { unfold span_to_end. destruct (step_stack _ _ Hinv2) as [_ ->].
    by rewrite Hopen2, last_snoc. }
  destruct (end_span_context t w2 _
              (top_is_current_tracer _ _ (step_stack _ _ Hinv2)) Htgt)
    as (w3' & Hrun3' & Hrem3 & _).
  rewrite Hrun3 in Hrun3'. injection Hrun3' as <-.
  assert (Hcur : ctx_span w3 = ctx_span w).
  { rewrite Hcur3. by destruct (step_stack _ _ Hinv) as [_ ->]. }
  assert (Hold3 : ∀ r, r < length (spans w) → spans w3 !!! r = spans w !!! r).
  { intros r Hr. rewrite Hsp3, finished_lookup_ne by lia. by apply Hold2. }
  exists w2, w3, (span_record t (spans w3) (length (spans w))).
  split; [done|]. split; [done|]. split; [done|]. split; [done|].
  split.
  { rewrite (step_context _ _ Hinv3), (step_context _ _ Hinv), Hcur, Hrem3, Hrem2.
    destruct (ctx_span w) as [c|] eqn:Hcw; [|done].
    rewrite Hold3; [done|]. destruct (step_stack _ _ Hinv) as [[_ Hn] Hl].
    rewrite Hcw in Hl. symmetry in Hl. apply last_Some_elem_of in Hl.
    apply (nested_bound _ _ _ Hn). by apply elem_of_reverse. }
  split; [by rewrite Hexp3, Hexp2, Hexporter2, Hexporter, Hexp1|].
  split; [done|].
  assert (Hlt : length (spans w) < length (spans w2)) by lia.
  split; [|split; [|done]];
    unfold span_record; simpl; rewrite Hsp3, finished_lookup_eq by done; done.
Qed.

(** X4: with a current span [c], [add_attribute_to_current_span(k, v)]
    sets [k] to [v] on [c] and changes nothing else: the other attributes
    and the name of [c], every other span, the tracers, the context store
    and the export log stay as they were. *)
Theorem attribute_is_set_on_the_current_span_only t k v w c :
  ctx_span w = Some c →
  c < length (spans w) →
  ∃ w',
    ContextTracer.add_attribute_to_current_span t k v w = (Ok tt, w') ∧
    trace_span.attributes (spans w' !!! c) !! k = Some v ∧
    (∀ k', k' ≠ k →
       trace_span.attributes (spans w' !!! c) !! k'
       = trace_span.attributes (spans w !!! c) !! k') ∧
    trace_span.name (spans w' !!! c) = trace_span.name (spans w !!! c) ∧
    same_structure (spans w) (spans w') ∧
    (∀ r, r ≠ c → spans w' !!! r = spans w !!! r) ∧
    tracers w' = tracers w ∧ ctx_span w' = ctx_span w ∧
    ctx_tracer w' = ctx_tracer w ∧ exported w' = exported w.
Proof.
  intros Hc Hlt. exists (with_attribute c k v w).
  split; [by apply add_attribute_current|].
  rewrite with_attribute_lookup by done.
  split; [by rewrite lookup_insert_eq|].
  split; [intros k' Hk; by rewrite lookup_insert_ne|].
  split; [apply with_attribute_name|].
  split; [apply with_attribute_structure|].
  split; [intros r Hr; by apply with_attribute_other|]. done.
Qed.

(** X5: when the current span is not on the tracer's open list (it was
    ended before, or belongs to another tracer), [end_span] still stamps
    its end time and moves the current span to its parent, but exports
    nothing and leaves the open list alone. *)
Theorem end_span_never_exports_an_unlisted_span t w c :
  t < length (tracers w) →
  ctx_span w = Some c →
  c ∉ open_spans t w →
  ∃ w',
    ContextTracer.end_span t w = (Ok (Some c), w') ∧
    exported w' = exported w ∧
    open_spans t w' = open_spans t w ∧
    spans w' = finished (clock w (clock_reads w)) (spans w) c ∧
    ctx_span w' =
      match trace_span.parent_span (spans w !!! c) with
      | ParentSpan p => Some p
      | _ => None
      end.
Proof.
  intros Ht Hc Hnotin.
  assert (Htgt : span_to_end t w = Some c).
  { unfold span_to_end. rewrite Hc. by destruct (open_spans t w). }
  destruct (end_span_some t w c Htgt)
    as (w' & Hrun & Hsp & Hctx & _ & Hopen & Hexp & _).
  specialize (Hopen Ht).
  destruct (decide (c ∈ open_spans t w)) as [Hin|_]; [done|].
  exists w'. repeat split; try done.
  by rewrite Hctx, Hsp, finished_parent.
Qed.



(** * Further properties of the instrumentation *)

Local Open Scope string_scope.

(** ** ext.aioredis.trace *)

(** X8: for a client call with at least one positional argument, when no
    tracer is active or the active tracer is a [NoopTracer], [wrap_execute]
    is the wrapped call: same result or exception, same final state. *)
Theorem wrap_execute_is_transparent_without_a_context_tracer
    py_str wrapped instance command args kwargs w :
  ctx_tracer w = None ∨ ctx_tracer w = Some NoopTracer →
  wrap_execute py_str wrapped instance (command :: args) kwargs w
  = wrapped (command :: args) kwargs w.
Proof.
  intros [Hc|Hc].
  - by apply wrap_execute_untraced.
  - unfold wrap_execute, asyncio_context.get_opencensus_tracer.
    unfold bind at 1. unfold ret at 1. unfold bind at 1. unfold gets. rewrite Hc.
    assert (Hpre : ∀ B (rest : M B),
      (_span <- Tracer.start_span NoopTracer (PStr "span") ;;
       set_span_name _span (PStr ("[aioredis] " ++ py_str command)) ;;;
       Tracer.add_attribute_to_current_span NoopTracer "redis.db" (db instance) ;;;
       Tracer.add_attribute_to_current_span NoopTracer "redis.address"
         (fst (address instance)) ;;;
       Tracer.add_attribute_to_current_span NoopTracer "redis.port"
         (snd (address instance)) ;;;
       Tracer.add_attribute_to_current_span NoopTracer "redis.encoding"
         (PStr (py_str (encoding instance))) ;;;
       match args with
       | key :: _ => Tracer.add_attribute_to_current_span NoopTracer "redis.key" key
       | _ => ret tt
       end ;;; rest)%py w = rest w).
    { intros B rest. by destruct args. }
    rewrite Hpre. unfold try_except_Exception. unfold bind at 1.
    destruct (wrapped (command :: args) kwargs w) as [[r|e] w'].
    + by destruct r.
    + by destruct (exc_is_Exception e).
Qed.

Lemma client_span_prologue py_str instance command args t w :
  ctx_tracer w = Some (ContextTracerRef t) →
  top_is_current t w →
  ∃ w_call,
    (∀ wrapped kwargs,
       wrap_execute py_str wrapped instance (command :: args) kwargs w =
       try_except_Exception
        (result <- wrapped (command :: args) kwargs ;;
         match result with
         | PBytes b =>
             Tracer.add_attribute_to_current_span (ContextTracerRef t)
               "redis.resposne.size" (PInt (Z.of_nat (length b)))
         | _ =>
             Tracer.add_attribute_to_current_span (ContextTracerRef t)
               "redis.resposne.size" (PInt 0)
         end ;;;
         Tracer.end_span (ContextTracerRef t) ;;;
         ret result)
        (λ e,
         Tracer.add_attribute_to_current_span (ContextTracerRef t) "error" (PBool true) ;;;
         Tracer.add_attribute_to_current_span (ContextTracerRef t) "error.message"
           (PStr (exc_str e)) ;;;
         Tracer.end_span (ContextTracerRef t) ;;;
         raise e)%py w_call) ∧
    top_is_current t w_call ∧
    open_spans t w_call = (open_spans t w ++ [length (spans w)])%list ∧
    ctx_span w_call = Some (length (spans w)) ∧
    ctx_tracer w_call = Some (ContextTracerRef t) ∧
    exported w_call = exported w ∧
    tracer_obj.exporter (tracers w_call !!! t) = tracer_obj.exporter (tracers w !!! t) ∧
    length (spans w_call) = S (length (spans w)) ∧
    (∀ r, r < length (spans w) → spans w_call !!! r = spans w !!! r) ∧
    trace_span.children (spans w_call !!! length (spans w)) = [] ∧
    trace_span.name (spans w_call !!! length (spans w))
      = PStr ("[aioredis] " ++ py_str command) ∧
    trace_span.attributes (spans w_call !!! length (spans w)) !! "redis.db"
      = Some (db instance) ∧
    trace_span.attributes (spans w_call !!! length (spans w)) !! "redis.resposne.size"
      = None ∧
    trace_span.attributes (spans w_call !!! length (spans w)) !! "error" = None ∧
    trace_span.attributes (spans w_call !!! length (spans w)) !! "error.message" = None.
Proof.
  intros Ht Hstack.
  destruct (start_span_step t (PStr "span") w Hstack)
    as (wa & Hrun & Hstacka & Hopena & Hlena & Hexpa & Holda).
  destruct (start_span_new_span t (PStr "span") w) as (wa' & Hrun' & Hspa & _).
  rewrite Hrun in Hrun'. injection Hrun' as <-.
  destruct (start_span_spec t (PStr "span") w)
    as (wa' & s & Hrun' & _ & _ & _ & _ & _ & _ & Hcura & _ & _ & Htra).
  rewrite Hrun in Hrun'. injection Hrun' as <-.
  destruct (start_span_context t (PStr "span") w (top_is_current_tracer _ _ Hstack))
    as (wa' & Hrun' & _ & _ & Hexpr).
  rewrite Hrun in Hrun'. injection Hrun' as <-.
  set (r := length (spans w)) in *.
  set (wb := renamed r (PStr ("[aioredis] " ++ py_str command)) wa).
  set (w3 := with_attribute r "redis.db" (db instance) wb).
  set (w4 := with_attribute r "redis.address" (address instance).1 w3).
  set (w5 := with_attribute r "redis.port" (address instance).2 w4).
  set (w6 := with_attribute r "redis.encoding" (PStr (py_str (encoding instance))) w5).
  set (w7 := match args with
             | key :: _ => with_attribute r "redis.key" key w6
             | [] => w6
             end).
  assert (Hrwa : r < length (spans wa)) by lia.
  assert (Hnew : spans wa !!! r = trace_span.mkSpan (PStr "span")
            (match ctx_span w with
             | Some p => ParentSpan p
             | None => NullContextManager
                 (span_context.span_id (tracer_obj.span_context (tracers w !!! t)))
             end) ∅ (Some (clock w (clock_reads w))) None
            (random_ids w (ids_drawn w)) [] (Some t)).
  { rewrite Hspa. apply lookup_total_snoc. }
  assert (Hrwb : r < length (spans wb)) by (unfold wb; by rewrite renamed_length).
  assert (Hrw3 : r < length (spans w3)) by (unfold w3; by rewrite with_attribute_length).
  assert (Hrw4 : r < length (spans w4)) by (unfold w4; by rewrite with_attribute_length).
  assert (Hrw5 : r < length (spans w5)) by (unfold w5; by rewrite with_attribute_length).
  assert (Hrw6 : r < length (spans w6)) by (unfold w6; by rewrite with_attribute_length).
  assert (Hs6 : same_structure (spans wa) (spans w6)).
  { eapply same_structure_trans; [apply renamed_structure|].
    eapply same_structure_trans; [apply with_attribute_structure|].
    eapply same_structure_trans; [apply with_attribute_structure|].
    eapply same_structure_trans; [apply with_attribute_structure|].
    apply with_attribute_structure. }
  assert (Hs7 : same_structure (spans wa) (spans w7)).
  { unfold w7. destruct args; [done|].
    eapply same_structure_trans; [exact Hs6|apply with_attribute_structure]. }
  assert (Htr7 : tracers w7 = tracers wa) by (unfold w7; by destruct args).
  assert (Hc7 : ctx_span w7 = Some r) by (unfold w7; by destruct args).
  assert (Hct7 : ctx_tracer w7 = ctx_tracer wa) by (unfold w7; by destruct args).
  assert (Hex7 : exported w7 = exported wa) by (unfold w7; by destruct args).
  assert (Hattr6 : trace_span.attributes (spans w6 !!! r) =
      <["redis.encoding" := PStr (py_str (encoding instance))]>
        (<["redis.port" := (address instance).2]>
           (<["redis.address" := (address instance).1]>
              (<["redis.db" := db instance]> ∅)))).
  { unfold w6. rewrite with_attribute_lookup by done.
    unfold w5. rewrite with_attribute_lookup by done.
    unfold w4. rewrite with_attribute_lookup by done.
    unfold w3. rewrite with_attribute_lookup by done.
    unfold wb. by rewrite renamed_attributes, Hnew. }
  assert (Hname7 : trace_span.name (spans w7 !!! r)
                   = PStr ("[aioredis] " ++ py_str command)).
  { unfold w7. destruct args; rewrite ?with_attribute_name;
      unfold w6, w5, w4, w3; rewrite !with_attribute_name;
      unfold wb; by rewrite renamed_name. }
  assert (Hattr7 : ∀ k, k ≠ "redis.key" →
            trace_span.attributes (spans w7 !!! r) !! k
            = trace_span.attributes (spans w6 !!! r) !! k).
  { intros k Hk. unfold w7. destruct args; [done|].
    rewrite with_attribute_lookup by done.
    by rewrite lookup_insert_ne. }
  exists w7.
  split.
  { intros wrapped kwargs.
    unfold wrap_execute, asyncio_context.get_opencensus_tracer.
    unfold bind at 1. unfold ret at 1. unfold bind at 1. unfold gets. rewrite Ht.
    unfold bind at 1. unfold Tracer.start_span. unfold bind at 1. rewrite Hrun.
    unfold ret at 1. unfold bind at 1. unfold set_span_name, update_span, modify.
    fold (renamed r (PStr ("[aioredis] " ++ py_str command)) wa). fold wb.
    rewrite (attribute_step t _ _ wb r) by done. fold w3.
    rewrite (attribute_step t _ _ w3 r) by done. fold w4.
    rewrite (attribute_step t _ _ w4 r) by done. fold w5.
    rewrite (attribute_step t _ _ w5 r) by done. fold w6.
    unfold w7. destruct args as [|key args'].
    - reflexivity.
    - by rewrite (attribute_step t _ _ w6 r). }
  destruct Hs7 as [Hlen7 Hsame7].
  split.
  { eapply top_is_current_same_structure; [split; [exact Hlen7|exact Hsame7]| | |exact Hstacka].
    - done.
    - by rewrite Hc7, Hcura. }
  split; [unfold open_spans in *; by rewrite Htr7|].
  split; [done|]. split; [by rewrite Hct7, Htra|].
  split; [by rewrite Hex7|]. split; [by rewrite Htr7|].
  split; [lia|].
  split.
  { intros r' Hr'. rewrite <- Holda by done.
    unfold w7. assert (r' ≠ r) by lia.
    destruct args; rewrite ?with_attribute_other by done;
      unfold w6, w5, w4, w3; rewrite !with_attribute_other by done;
      unfold wb; by rewrite renamed_other. }
  split; [destruct (Hsame7 r) as (_ & -> & _); by rewrite Hnew|].
  split; [done|].
  rewrite !Hattr7 by done. rewrite Hattr6.
  split; [by rewrite !lookup_insert_ne, lookup_insert_eq by done|].
  repeat split; by rewrite !lookup_insert_ne by done.
Qed.

Lemma tracing_untouched_top_is_current t w1 w2 :
  tracing_untouched w1 w2 → top_is_current t w1 → top_is_current t w2.
Proof.
  intros (Hs & Htr & Hc & _ & _).
  apply top_is_current_same_structure; [|done|done].
  rewrite Hs. apply same_structure_refl.
Qed.

(** X9: under a [ContextTracer] whose stack is in order, a client call that
    returns [result] and does not touch the tracing state leaves the open
    list and the current span as they were, and adds one export batch of one
    record: the new span, named ["[aioredis] " + str(command)], with the
    connection's [redis.db], the size of the result under
    [redis.resposne.size] (0 unless the result is a bytes object), no
    [error] attribute, and an end time.  [result] is returned. *)
Theorem traced_client_call_is_balanced
    py_str wrapped instance command args kwargs w t result :
  ctx_tracer w = Some (ContextTracerRef t) →
  top_is_current t w →
  (∀ w1, ∃ w2, wrapped (command :: args) kwargs w1 = (Ok result, w2) ∧
               tracing_untouched w1 w2) →
  ∃ w' d,
    wrap_execute py_str wrapped instance (command :: args) kwargs w = (Ok result, w') ∧
    top_is_current t w' ∧
    open_spans t w' = open_spans t w ∧
    ctx_span w' = ctx_span w ∧
    exported w' = (exported w ++ [(tracer_obj.exporter (tracers w !!! t), [d])])%list ∧
    span_data_module.source d = length (spans w) ∧
    span_data_module.name d = PStr ("[aioredis] " ++ py_str command) ∧
    span_data_module.attributes d !! "redis.db" = Some (db instance) ∧
    span_data_module.attributes d !! "redis.resposne.size"
      = Some (PInt (match result with
                    | PBytes b => Z.of_nat (length b)
                    | _ => 0
                    end)) ∧
    span_data_module.attributes d !! "error" = None ∧
    span_data_module.end_time d ≠ None.
Proof.
  intros Ht Hstack Hwrapped.
  destruct (client_span_prologue py_str instance command args t w Ht Hstack)
    as (wc & Hrun & Hstackc & Hopenc & Hcurc & Htrc & Hexpc & Hexpr & Hlenc & Holdc
        & Hleafc & Hnamec & Hdbc & Hsizec & Herrc & _).
  destruct (Hwrapped wc) as (wr & Hcall & Hun).
  pose proof (tracing_untouched_top_is_current t wc wr Hun Hstackc) as Hstackr.
  destruct Hun as (Hspr & Htrr & Hcurr & Hctr & Hexr).
  set (r := length (spans w)) in *.
  set (size := PInt (match result with
                     | PBytes b => Z.of_nat (length b)
                     | _ => 0
                     end)).
  set (ws := with_attribute r "redis.resposne.size" size wr).
  assert (Hrr : r < length (spans wr)) by (rewrite Hspr; lia).
  assert (Hstacks : top_is_current t ws).
  { apply (top_is_current_same_structure t wr); [apply with_attribute_structure|done|done|done]. }
  assert (Hopens : open_spans t ws = (open_spans t w ++ [r])%list).
  { unfold open_spans in *. simpl. by rewrite Htrr. }
  assert (Hleafs : trace_span.children (spans ws !!! r) = []).
  { destruct (with_attribute_structure r "redis.resposne.size" size wr) as [_ Hsame].
    destruct (Hsame r) as (_ & Hch & _). fold ws in Hch. by rewrite Hch, Hspr. }
  destruct (end_top_span t ws (open_spans t w) r Hstacks Hopens Hleafs)
    as (w' & Hend & Hstack' & Hopen' & Hcur' & _ & Hexp' & Hsp' & Hrs).
  exists w', (span_record t (spans w') r).
  split.
  { rewrite Hrun. unfold try_except_Exception. unfold bind at 1. rewrite Hcall.
    assert (Hsize : (match result with
              | PBytes b =>
                  Tracer.add_attribute_to_current_span (ContextTracerRef t)
                    "redis.resposne.size" (PInt (Z.of_nat (length b)))
              | _ =>
                  Tracer.add_attribute_to_current_span (ContextTracerRef t)
                    "redis.resposne.size" (PInt 0)
              end) = Tracer.add_attribute_to_current_span (ContextTracerRef t)
                       "redis.resposne.size" size).
    { unfold size. by destruct result. }
    rewrite Hsize. rewrite (attribute_step t _ _ wr r) by (by rewrite Hcurr).
    fold ws. unfold bind at 1. unfold Tracer.end_span. unfold bind at 1.
    by rewrite Hend. }
  split; [done|]. split; [done|].
  split; [rewrite Hcur'; by destruct Hstack as [_ ->]|].
  split.
  { rewrite Hexp'. simpl. rewrite Hexr, Hexpc, Htrr.
    unfold ws. by rewrite Hexpr. }
  destruct (span_record_fields t (spans w') r) as (-> & -> & -> & ->).
  split; [done|].
  rewrite Hsp'. destruct (finished_fields (clock ws (clock_reads ws)) (spans ws) r Hrs)
    as (-> & -> & ->).
  unfold ws. rewrite with_attribute_name, with_attribute_lookup by done.
  rewrite Hspr.
  split; [done|].
  split; [by rewrite lookup_insert_ne|].
  split; [by rewrite lookup_insert_eq|].
  split; [by rewrite lookup_insert_ne|]. done.
Qed.

(** X10: the same when the client call raises an [e] that derives from
    [Exception]: the stack is restored, the one exported record carries
    [error = True] and [error.message = str(e)] and no result size, and [e]
    propagates. *)
Theorem failed_client_call_is_balanced
    py_str wrapped instance command args kwargs w t e :
  ctx_tracer w = Some (ContextTracerRef t) →
  top_is_current t w →
  exc_is_Exception e = true →
  (∀ w1, ∃ w2, wrapped (command :: args) kwargs w1 = (Raise e, w2) ∧
               tracing_untouched w1 w2) →
  ∃ w' d,
    wrap_execute py_str wrapped instance (command :: args) kwargs w = (Raise e, w') ∧
    top_is_current t w' ∧
    open_spans t w' = open_spans t w ∧
    ctx_span w' = ctx_span w ∧
    exported w' = (exported w ++ [(tracer_obj.exporter (tracers w !!! t), [d])])%list ∧
    span_data_module.source d = length (spans w) ∧
    span_data_module.name d = PStr ("[aioredis] " ++ py_str command) ∧
    span_data_module.attributes d !! "error" = Some (PBool true) ∧
    span_data_module.attributes d !! "error.message" = Some (PStr (exc_str e)) ∧
    span_data_module.attributes d !! "redis.resposne.size" = None ∧
    span_data_module.end_time d ≠ None.
Proof.
  intros Ht Hstack Hexc Hwrapped.
  destruct (client_span_prologue py_str instance command args t w Ht Hstack)
    as (wc & Hrun & Hstackc & Hopenc & Hcurc & Htrc & Hexpc & Hexpr & Hlenc & Holdc
        & Hleafc & Hnamec & Hdbc & Hsizec & Herrc & _).
  destruct (Hwrapped wc) as (wr & Hcall & Hun).
  pose proof (tracing_untouched_top_is_current t wc wr Hun Hstackc) as Hstackr.
  destruct Hun as (Hspr & Htrr & Hcurr & Hctr & Hexr).
  set (r := length (spans w)) in *.
  set (w1 := with_attribute r "error" (PBool true) wr).
  set (ws := with_attribute r "error.message" (PStr (exc_str e)) w1).
  assert (Hrr : r < length (spans wr)) by (rewrite Hspr; lia).
  assert (Hr1 : r < length (spans w1)) by (unfold w1; by rewrite with_attribute_length).
  assert (Hstruct : same_structure (spans wr) (spans ws)).
  { eapply same_structure_trans; apply with_attribute_structure. }
  assert (Hstacks : top_is_current t ws).
  { by apply (top_is_current_same_structure t wr). }
  assert (Hopens : open_spans t ws = (open_spans t w ++ [r])%list).
  { unfold open_spans in *. simpl. by rewrite Htrr. }
  assert (Hleafs : trace_span.children (spans ws !!! r) = []).
  { destruct Hstruct as [_ Hsame]. destruct (Hsame r) as (_ & Hch & _).
    by rewrite Hch, Hspr. }
  destruct (end_top_span t ws (open_spans t w) r Hstacks Hopens Hleafs)
    as (w' & Hend & Hstack' & Hopen' & Hcur' & _ & Hexp' & Hsp' & Hrs).
  exists w', (span_record t (spans w') r).
  split.
  { rewrite Hrun. unfold try_except_Exception. unfold bind at 1. rewrite Hcall, Hexc.
    rewrite (attribute_step t _ _ wr r) by (by rewrite Hcurr). fold w1.
    rewrite (attribute_step t _ _ w1 r) by (unfold w1; simpl; by rewrite Hcurr). fold ws.
    unfold bind at 1. unfold Tracer.end_span. unfold bind at 1.
    by rewrite Hend. }
  split; [done|]. split; [done|].
  split; [rewrite Hcur'; by destruct Hstack as [_ ->]|].
  split.
  { rewrite Hexp'. simpl. rewrite Hexr, Hexpc, Htrr. by rewrite Hexpr. }
  destruct (span_record_fields t (spans w') r) as (-> & -> & -> & ->).
  split; [done|].
  rewrite Hsp'. destruct (finished_fields (clock ws (clock_reads ws)) (spans ws) r Hrs)
    as (-> & -> & ->).
  unfold ws. rewrite with_attribute_name, with_attribute_lookup by done.
  unfold w1. rewrite with_attribute_name, with_attribute_lookup by done.
  rewrite Hspr.
  split; [done|].
  split; [by rewrite lookup_insert_ne, lookup_insert_eq|].
  split; [by rewrite lookup_insert_eq|].
  split; [by rewrite !lookup_insert_ne|]. done.
Qed.

(** ** asyncio_context_tracer.AsyncSpan *)

Lemma aenter_unfold a w t :
  ctx_tracer w = Some (ContextTracerRef t) →
  AsyncSpan__aenter__ a w =
    match ContextTracer.start_span t (PStr "span") w with
    | (Ok r, w1) =>
        match entered_name a with
        | Some n => (Ok (SpanObj r), renamed r n w1)
        | None => (Raise (AttributeError "object has no attribute '__name__'"), w1)
        end
    | (Raise e, w1) => (Raise e, w1)
    end.
Proof.
  intros Ht. unfold AsyncSpan__aenter__, asyncio_context.get_opencensus_tracer.
  unfold bind at 1. unfold gets. rewrite Ht.
  unfold bind at 1. unfold on_tracer, Tracer.start_span. unfold bind at 1.
  destruct (ContextTracer.start_span t (PStr "span") w) as [[r|e] w1]; [|done].
  unfold ret at 1. unfold bind at 1. unfold entered_name.
  destruct (as_name a); try done. by destruct (as_function a).
Qed.

Lemma aenter_step a w t v w1 :
  ctx_tracer w = Some (ContextTracerRef t) →
  top_is_current t w →
  AsyncSpan__aenter__ a w = (Ok v, w1) →
  v = SpanObj (length (spans w)) ∧
  top_is_current t w1 ∧
  open_spans t w1 = (open_spans t w ++ [length (spans w)])%list ∧
  ctx_span w1 = Some (length (spans w)) ∧
  ctx_tracer w1 = Some (ContextTracerRef t) ∧
  exported w1 = exported w ∧
  tracer_obj.exporter (tracers w1 !!! t) = tracer_obj.exporter (tracers w !!! t) ∧
  length (spans w1) = S (length (spans w)) ∧
  entered_name a = Some (trace_span.name (spans w1 !!! length (spans w))) ∧
  trace_span.attributes (spans w1 !!! length (spans w)) = ∅ ∧
  trace_span.children (spans w1 !!! length (spans w)) = [] ∧
  (∀ r, r < length (spans w) → spans w1 !!! r = spans w !!! r).
Proof.
  intros Ht Hstack. rewrite (aenter_unfold a w t Ht).
  destruct (start_span_step t (PStr "span") w Hstack)
    as (wa & Hrun & Hstacka & Hopena & Hlena & Hexpa & Holda).
  destruct (start_span_new_span t (PStr "span") w) as (wa' & Hrun' & Hspa & _).
  rewrite Hrun in Hrun'. injection Hrun' as <-.
  destruct (start_span_spec t (PStr "span") w)
    as (wa' & s & Hrun' & _ & _ & _ & _ & _ & _ & Hcura & _ & _ & Htra).
  rewrite Hrun in Hrun'. injection Hrun' as <-.
  destruct (start_span_context t (PStr "span") w (top_is_current_tracer _ _ Hstack))
    as (wa' & Hrun' & _ & _ & Hexpr).
  rewrite Hrun in Hrun'. injection Hrun' as <-.
  rewrite Hrun. destruct (entered_name a) as [n|]; [|done].
  intros [= <- <-]. set (r := length (spans w)) in *.
  assert (Hr : r < length (spans wa)) by lia.
  assert (Hnew : spans wa !!! r = trace_span.mkSpan (PStr "span")
            (match ctx_span w with
             | Some p => ParentSpan p
             | None => NullContextManager
                 (span_context.span_id (tracer_obj.span_context (tracers w !!! t)))
             end) ∅ (Some (clock w (clock_reads w))) None
            (random_ids w (ids_drawn w)) [] (Some t)).
  { rewrite Hspa. apply lookup_total_snoc. }
  split; [done|].
  split.
  { apply (top_is_current_same_structure t wa); [apply renamed_structure|done|done|done]. }
  split; [done|]. split; [done|]. split; [by rewrite <- Ht|].
  split; [done|]. split; [done|]. split; [by rewrite renamed_length|].
  split; [by rewrite renamed_name|].
  split; [by rewrite renamed_attributes, Hnew|].
  split.
  { destruct (renamed_structure r n wa) as [_ Hsame].
    destruct (Hsame r) as (_ & -> & _). by rewrite Hnew. }
  intros r' Hr'. rewrite renamed_other by lia. by apply Holda.
Qed.

(** X11: an [async with AsyncSpan(..)] block whose body returns [x] and
    leaves the tracer's stack as it found it (the tracer still active, the
    block's span on top) returns [x], has ended the block's span with one
    export batch, and restores the open list and the current span of before
    the block. *)
Theorem block_with_balanced_body_is_balanced
    {A} a (body : span_val → M A) w t v w1 x w2 :
  ctx_tracer w = Some (ContextTracerRef t) →
  top_is_current t w →
  AsyncSpan__aenter__ a w = (Ok v, w1) →
  body v w1 = (Ok x, w2) →
  ctx_tracer w2 = Some (ContextTracerRef t) →
  top_is_current t w2 →
  open_spans t w2 = open_spans t w1 →
  ∃ w' batch,
    AsyncSpan_block a body w = (Ok x, w') ∧
    top_is_current t w' ∧
    open_spans t w' = open_spans t w ∧
    ctx_span w' = ctx_span w ∧
    ctx_tracer w' = Some (ContextTracerRef t) ∧
    exported w' = (exported w2 ++ [batch])%list ∧
    trace_span.end_time (spans w' !!! length (spans w)) ≠ None.
Proof.
  intros Ht Hstack Henter Hbody Ht2 Hstack2 Hopen2.
  destruct (aenter_step a w t v w1 Ht Hstack Henter)
    as (-> & Hstack1 & Hopen1 & _).
  rewrite Hopen1 in Hopen2.
  destruct Hstack2 as [Hn2 Hcur2].
  destruct (end_span_step t w2 _ _ Hn2 (or_introl Hcur2) Hopen2)
    as (w' & datas & Hend & Hstack' & Hopen' & Hexp' & _ & Hsp' & Hlt).
  assert (Htgt : span_to_end t w2 = Some (length (spans w))).
  { unfold span_to_end. by rewrite Hcur2, Hopen2, last_snoc. }
  destruct (end_span_some t w2 _ Htgt) as (w4 & Hrun4 & _ & _ & _ & _ & _ & _ & Htr).
  rewrite Hend in Hrun4. injection Hrun4 as <-.
  exists w', (tracer_obj.exporter (tracers w2 !!! t), datas).
  split.
  { unfold AsyncSpan_block, async_with. rewrite Henter, Hbody.
    unfold AsyncSpan__aexit__, asyncio_context.get_opencensus_tracer.
    unfold bind at 1. unfold gets. rewrite Ht2.
    unfold on_tracer, Tracer.end_span. unfold bind. by rewrite Hend. }
  split; [done|]. split; [done|].
  split; [destruct Hstack' as [_ ->]; rewrite Hopen'; by destruct Hstack as [_ ->]|].
  split; [by rewrite Htr|]. split; [done|].
  by rewrite Hsp', finished_lookup_eq.
Qed.


(** X13: with no tracer active, the block raises AttributeError at
    [__aenter__], on [None.start_span]; the body is not run and nothing
    changes. *)
Theorem block_without_tracer_fails_at_entry {A} a (body : span_val → M A) w :
  ctx_tracer w = None →
  AsyncSpan_block a body w
  = (Raise (AttributeError "'NoneType' object has no attribute 'start_span'"), w).
Proof.
  intros Ht. unfold AsyncSpan_block, async_with, AsyncSpan__aenter__,
    asyncio_context.get_opencensus_tracer.
  unfold bind at 1. unfold gets. by rewrite Ht.
Qed.

(** X14: under a [NoopTracer], a block that can name its span is its body
    run with a [BlankSpan]: same result or exception, same final state. *)
Theorem block_under_noop_tracer_is_transparent
    {A} a (body : span_val → M A) w n r w2 :
  ctx_tracer w = Some NoopTracer →
  entered_name a = Some n →
  body BlankSpan w = (r, w2) →
  ctx_tracer w2 = Some NoopTracer →
  AsyncSpan_block a body w = (r, w2).
Proof.
  intros Ht Hn Hbody Ht2.
  assert (Henter : AsyncSpan__aenter__ a w = (Ok BlankSpan, w)).
  { unfold AsyncSpan__aenter__, asyncio_context.get_opencensus_tracer.
    unfold bind at 1. unfold gets. rewrite Ht. simpl.
    unfold entered_name in Hn. unfold bind, ret.
    destruct (as_name a); try done. by destruct (as_function a). }
  unfold AsyncSpan_block, async_with. rewrite Henter, Hbody.
  unfold AsyncSpan__aexit__, asyncio_context.get_opencensus_tracer.
  destruct r as [x|e].
  - unfold bind, gets. by rewrite Ht2.
  - unfold bind at 1. unfold gets. rewrite Ht2.
    destruct (exc_truthy e); done.
Qed.

(** ** ext.sanic.sanic_middleware *)

Lemma header_key_inj h h' : "http.headers." ++ h = "http.headers." ++ h' → h = h'.
Proof. intros H. by simplify_eq/=. Qed.

Lemma add_header_attributes_spec t request r names : ∀ w,
  ctx_span w = Some r →
  r < length (spans w) →
  ∃ w',
    add_header_attributes (ContextTracerRef t) request names w = (Ok tt, w') ∧
    same_structure (spans w) (spans w') ∧
    tracers w' = tracers w ∧
    ctx_span w' = ctx_span w ∧
    ctx_tracer w' = ctx_tracer w ∧
    exported w' = exported w ∧
    trace_span.name (spans w' !!! r) = trace_span.name (spans w !!! r) ∧
    (∀ r', r' ≠ r → spans w' !!! r' = spans w !!! r') ∧
    (∀ h, h ∈ names →
       trace_span.attributes (spans w' !!! r) !! ("http.headers." ++ h)
       = match headers request !! h with
         | Some v => Some (PStr v)
         | None => trace_span.attributes (spans w !!! r) !! ("http.headers." ++ h)
         end) ∧
    (∀ k, (∀ h, h ∈ names → k ≠ "http.headers." ++ h) →
       trace_span.attributes (spans w' !!! r) !! k
       = trace_span.attributes (spans w !!! r) !! k).
Proof.
  induction names as [|header rest IH]; intros w Hc Hr.
  - exists w. split; [done|]. split; [apply same_structure_refl|].
    repeat split; try done. intros h Hh. by apply elem_of_nil in Hh.
  - set (w1 := match headers request !! header with
               | Some v => with_attribute r ("http.headers." ++ header) (PStr v) w
               | None => w
               end).
    assert (Hc1 : ctx_span w1 = Some r) by (unfold w1; by destruct (headers request !! header)).
    assert (Hr1 : r < length (spans w1)).
    { unfold w1. destruct (headers request !! header); [by rewrite with_attribute_length|done]. }
    assert (Hs1 : same_structure (spans w) (spans w1)).
    { unfold w1. destruct (headers request !! header);
        [apply with_attribute_structure|apply same_structure_refl]. }
    destruct (IH w1 Hc1 Hr1)
      as (w' & Hrun & Hs & Htr & Hcs & Hct & Hex & Hname & Hother & Hset & Hkeep).
    exists w'. split.
    { cbn [add_header_attributes]. unfold w1 in Hrun.
      destruct (headers request !! header) as [v|].
      - by rewrite (attribute_step t _ _ w r).
      - unfold bind, ret. exact Hrun. }
    split; [by eapply same_structure_trans|].
    split; [rewrite Htr; unfold w1; by destruct (headers request !! header)|].
    split; [by rewrite Hcs, Hc1|].
    split; [rewrite Hct; unfold w1; by destruct (headers request !! header)|].
    split; [rewrite Hex; unfold w1; by destruct (headers request !! header)|].
    split.
    { rewrite Hname. unfold w1. destruct (headers request !! header); [|done].
      apply with_attribute_name. }
    split.
    { intros r' Hr'. rewrite Hother by done. unfold w1.
      destruct (headers request !! header); [|done]. by apply with_attribute_other. }
    split.
    + intros h Hh. destruct (decide (h ∈ rest)) as [Hin|Hnin].
      * rewrite (Hset h Hin). destruct (headers request !! h) as [v|] eqn:Hv; [done|].
        unfold w1. destruct (headers request !! header) as [v'|] eqn:Hv'; [|done].
        rewrite with_attribute_lookup by done.
        rewrite lookup_insert_ne; [done|].
        intros Heq. apply header_key_inj in Heq. congruence.
      * apply elem_of_cons in Hh as [->|Hh]; [|done].
        rewrite Hkeep.
        2:{ intros h' Hh' Heq. apply header_key_inj in Heq. by subst. }
        unfold w1. destruct (headers request !! header) as [v|]; [|done].
        rewrite with_attribute_lookup by done. by rewrite lookup_insert_eq.
    + intros k Hk. rewrite Hkeep.
      2:{ intros h Hh. apply Hk. by apply elem_of_cons; right. }
      unfold w1. destruct (headers request !! header) as [v|]; [|done].
      rewrite with_attribute_lookup by done. rewrite lookup_insert_ne; [done|].
      intros Heq. apply (Hk header); [by apply elem_of_cons; left|done].
Qed.

Lemma start_span_tracers_other t name w t' :
  ∃ w',
    ContextTracer.start_span t name w = (Ok (length (spans w)), w') ∧
    (t' ≠ t → tracers w' !!! t' = tracers w !!! t').
Proof.
  unfold ContextTracer.start_span, ContextTracer.current_span,
    asyncio_context.get_current_span, asyncio_context.set_current_span,
    Span.__init__, Span.start, read_tracer, read_span, update_tracer,
    update_span, generate_id, to_iso_str, bind, gets, modify, ret.
  destruct (ctx_span w) as [p|] eqn:Hc; simpl;
    (eexists; split; [reflexivity|]); simpl; intros Hne;
    by rewrite !list_lookup_total_insert_ne.
Qed.

Lemma start_span_trace_id t name w :
  ∃ w',
    ContextTracer.start_span t name w = (Ok (length (spans w)), w') ∧
    tracer_obj.trace_id (tracers w' !!! t) = tracer_obj.trace_id (tracers w !!! t).
Proof.
  unfold ContextTracer.start_span, ContextTracer.current_span,
    asyncio_context.get_current_span, asyncio_context.set_current_span,
    Span.__init__, Span.start, read_tracer, read_span, update_tracer,
    update_span, generate_id, to_iso_str, bind, gets, modify, ret.
  destruct (decide (t < length (tracers w))) as [Ht|Ht].
  - destruct (ctx_span w) as [p|] eqn:Hc; simpl;
      (eexists; split; [reflexivity|]); simpl;
      repeat (rewrite list_lookup_total_insert_eq by (rewrite ?length_insert; done); simpl);
      done.
  - destruct (ctx_span w) as [p|] eqn:Hc; simpl;
      (eexists; split; [reflexivity|]); simpl;
      by rewrite !list_insert_ge by (rewrite ?length_insert; lia).
Qed.

(** The state in which a sampled request's span has been started and given
    its first name, and the rest of [do_trace_request] from there. *)
Lemma request_span_prologue disable_tracing_url self request w :
  scheme request ∉ ["ws"; "wss"] →
  disable_tracing_url (url request) (blacklist_paths self) = false →
  (∀ ms, blacklist_methods self = Some ms → method request ∉ ms) →
  span_context.from_header (propagator_from_headers self (headers request))
    && span_context.trace_options_enabled (propagator_from_headers self (headers request))
  || sampler_should_sample self
       (span_context.trace_id (propagator_from_headers self (headers request))) = true →
  ctx_span w = None →
  ∃ wb,
    do_trace_request disable_tracing_url self request w =
      (routing_url <-
         match route request with
         | Ok r =>
             set_span_name (SpanObj (length (spans w)))
               (PStr ("[" ++ service_name self ++ "] " ++ method request ++ " " ++ r)) ;;;
             ret r
         | Raise ex =>
             if String.eqb (exc_class ex) "NotFound" then ret (url request)
             else raise ex
         end ;;
       Tracer.add_attribute_to_current_span (ContextTracerRef (length (tracers w)))
         "http.method" (PStr (method request)) ;;;
       Tracer.add_attribute_to_current_span (ContextTracerRef (length (tracers w)))
         "http.host" (PStr (host request)) ;;;
       Tracer.add_attribute_to_current_span (ContextTracerRef (length (tracers w)))
         "http.scheme" (PStr (scheme request)) ;;;
       Tracer.add_attribute_to_current_span (ContextTracerRef (length (tracers w)))
         "http.url" (PStr routing_url) ;;;
       Tracer.add_attribute_to_current_span (ContextTracerRef (length (tracers w)))
         "http.client.ip" (ip request) ;;;
       add_header_attributes (ContextTracerRef (length (tracers w))) request
         ["user-agent"; "x-forwarded-for"; "x-real-ip"] ;;;
       asyncio_context.set_opencensus_tracer (ContextTracerRef (length (tracers w))) ;;;
       ret (set_item "tracer" (ContextTracerRef (length (tracers w))) request))%py wb ∧
    top_is_current (length (tracers w)) wb ∧
    open_spans (length (tracers w)) wb = [length (spans w)] ∧
    ctx_span wb = Some (length (spans w)) ∧
    ctx_tracer wb = ctx_tracer w ∧
    exported wb = exported w ∧
    length (spans wb) = S (length (spans w)) ∧
    length (tracers wb) = S (length (tracers w)) ∧
    (∀ r, r < length (spans w) → spans wb !!! r = spans w !!! r) ∧
    (∀ t, t < length (tracers w) → tracers wb !!! t = tracers w !!! t) ∧
    tracer_obj.exporter (tracers wb !!! length (tracers w)) = exporter self ∧
    tracer_obj.trace_id (tracers wb !!! length (tracers w))
      = span_context.trace_id (propagator_from_headers self (headers request)) ∧
    spans wb !!! length (spans w) =
      trace_span.mkSpan
        (PStr ("[" ++ service_name self ++ "] " ++ method request ++ " " ++ path request))
        (NullContextManager
           (span_context.span_id (propagator_from_headers self (headers request))))
        ∅ (Some (clock w (clock_reads w))) None (random_ids w (ids_drawn w)) []
        (Some (length (tracers w))).
Proof.
  intros Hws Hurl Hm Hsampled Hc.
  set (sc := propagator_from_headers self (headers request)) in *.
  set (t := length (tracers w)).
  set (r := length (spans w)).
  set (w0 := set_tracers
    (tracers w ++ [tracer_obj.mkContextTracer (exporter self) sc
                     (span_context.trace_id sc) (span_context.span_id sc) []])%list w).
  assert (Hinit : ContextTracer.__init__ (Some (exporter self)) (Some sc) w = (Ok t, w0))
    by done.
  destruct (fresh_tracer_top_is_current _ _ w t w0 Hc Hinit) as (Hstack0 & Hopen0 & Hsp0 & Hex0).
  destruct (start_span_step t (PStr "span") w0 Hstack0)
    as (wa & Hrun & Hstacka & Hopena & Hlena & Hexpa & Holda).
  destruct (start_span_new_span t (PStr "span") w0) as (wa' & Hrun' & Hspa & _).
  rewrite Hrun in Hrun'. injection Hrun' as <-.
  destruct (start_span_spec t (PStr "span") w0)
    as (wa' & s & Hrun' & _ & _ & _ & _ & Hlta & _ & Hcura & _ & _ & Htra).
  rewrite Hrun in Hrun'. injection Hrun' as <-.
  destruct (start_span_context t (PStr "span") w0 (top_is_current_tracer _ _ Hstack0))
    as (wa' & Hrun' & _ & _ & Hexpr).
  rewrite Hrun in Hrun'. injection Hrun' as <-.
  assert (Hw0r : length (spans w0) = r) by done.
  rewrite Hw0r in *.
  set (n1 := PStr ("[" ++ service_name self ++ "] " ++ method request ++ " " ++ path request)).
  set (wb := renamed r n1 wa).
  assert (Hra : r < length (spans wa)) by lia.
  assert (Hme0 : tracers w0 !!! t = tracer_obj.mkContextTracer (exporter self) sc
                     (span_context.trace_id sc) (span_context.span_id sc) []).
  { unfold w0, t. simpl. apply lookup_total_snoc. }
  assert (Hnew : spans wa !!! r = trace_span.mkSpan (PStr "span")
            (NullContextManager (span_context.span_id sc))
            ∅ (Some (clock w (clock_reads w))) None
            (random_ids w (ids_drawn w)) [] (Some t)).
  { rewrite Hspa. unfold r. rewrite <- Hsp0 at 1.
    change (length (spans w0)) with (length (spans w0)).
    rewrite lookup_total_snoc. rewrite Hme0.
    assert (Hc0 : ctx_span w0 = None) by done. by rewrite Hc0. }
  exists wb.
  split.
  { unfold do_trace_request. rewrite bool_decide_eq_false_2 by done. rewrite Hurl.
    assert (Hmeth : match blacklist_methods self with
                    | Some (m :: ms) => bool_decide (method request ∈ m :: ms)
                    | _ => false
                    end = false).
    { destruct (blacklist_methods self) as [[|m ms]|] eqn:Hb; try done.
      apply bool_decide_eq_false_2. by apply Hm. }
    rewrite Hmeth. fold sc.
    assert (Htracer :
      (if span_context.from_header sc && span_context.trace_options_enabled sc
       then t <- ContextTracer.__init__ (Some (exporter self)) (Some sc) ;;
            ret (ContextTracerRef t)
       else if sampler_should_sample self (span_context.trace_id sc)
            then t <- ContextTracer.__init__ (Some (exporter self)) (Some sc) ;;
                 ret (ContextTracerRef t)
            else ret NoopTracer)%py
      = (t <- ContextTracer.__init__ (Some (exporter self)) (Some sc) ;;
         ret (ContextTracerRef t))%py).
    { destruct (span_context.from_header sc && span_context.trace_options_enabled sc);
        [done|]. simpl in Hsampled. by rewrite Hsampled. }
    rewrite Htracer.
    unfold bind at 1. unfold bind at 1. rewrite Hinit. unfold ret at 1.
    unfold bind at 1. unfold Tracer.start_span. unfold bind at 1. rewrite Hrun.
    unfold ret at 1. unfold bind at 1. unfold set_span_name at 1. unfold update_span, modify.
    fold n1. fold (renamed r n1 wa). fold wb. reflexivity. }
  split.
  { apply (top_is_current_same_structure t wa); [apply renamed_structure|done|done|done]. }
  split; [change (open_spans t wb) with (open_spans t wa); by rewrite Hopena, Hopen0|].
  split; [done|].
  split; [change (ctx_tracer wb) with (ctx_tracer wa); by rewrite Htra|].
  split; [change (exported wb) with (exported wa); by rewrite Hexpa|].
  split; [unfold wb; rewrite renamed_length; lia|].
  split; [change (tracers wb) with (tracers wa); rewrite Hlta; unfold w0; simpl;
          rewrite length_app; simpl; lia|].
  split.
  { intros r' Hr'. unfold wb. rewrite renamed_other by lia.
    rewrite Holda by done. done. }
  split.
  { intros t' Ht'. change (tracers wb) with (tracers wa).
    destruct (start_span_tracers_other t (PStr "span") w0 t') as (w2 & Hrun2 & Hoth).
    rewrite Hrun in Hrun2. injection Hrun2 as <-.
    rewrite Hoth by (unfold t; lia). unfold w0. simpl.
    by rewrite lookup_total_app_l. }
  split; [change (tracers wb) with (tracers wa); by rewrite Hexpr, Hme0|].
  split.
  { change (tracers wb) with (tracers wa).
    destruct (start_span_trace_id t (PStr "span") w0) as (w2 & Hrun2 & Hid).
    rewrite Hrun in Hrun2. injection Hrun2 as <-. by rewrite Hid, Hme0. }
  unfold wb. simpl. rewrite list_lookup_total_insert_eq by done. by rewrite Hnew.
Qed.

Lemma request_span_opened disable_tracing_url self request w :
  scheme request ∉ ["ws"; "wss"] →
  disable_tracing_url (url request) (blacklist_paths self) = false →
  (∀ ms, blacklist_methods self = Some ms → method request ∉ ms) →
  span_context.from_header (propagator_from_headers self (headers request))
    && span_context.trace_options_enabled (propagator_from_headers self (headers request))
  || sampler_should_sample self
       (span_context.trace_id (propagator_from_headers self (headers request))) = true →
  ctx_span w = None →
  (∀ ex, route request = Raise ex → exc_class ex = "NotFound") →
  ∃ w',
    do_trace_request disable_tracing_url self request w
      = (Ok (set_item "tracer" (ContextTracerRef (length (tracers w))) request), w') ∧
    ctx_tracer w' = Some (ContextTracerRef (length (tracers w))) ∧
    ctx_span w' = Some (length (spans w)) ∧
    top_is_current (length (tracers w)) w' ∧
    open_spans (length (tracers w)) w' = [length (spans w)] ∧
    exported w' = exported w ∧
    tracer_obj.exporter (tracers w' !!! length (tracers w)) = exporter self ∧
    tracer_obj.trace_id (tracers w' !!! length (tracers w))
      = span_context.trace_id (propagator_from_headers self (headers request)) ∧
    trace_span.parent_span (spans w' !!! length (spans w))
      = NullContextManager
          (span_context.span_id (propagator_from_headers self (headers request))) ∧
    trace_span.end_time (spans w' !!! length (spans w)) = None ∧
    trace_span.children (spans w' !!! length (spans w)) = [] ∧
    trace_span.name (spans w' !!! length (spans w))
      = PStr ("[" ++ service_name self ++ "] " ++ method request ++ " " ++
              match route request with Ok r => r | Raise _ => path request end) ∧
    trace_span.attributes (spans w' !!! length (spans w)) !! "http.method"
      = Some (PStr (method request)) ∧
    trace_span.attributes (spans w' !!! length (spans w)) !! "http.host"
      = Some (PStr (host request)) ∧
    trace_span.attributes (spans w' !!! length (spans w)) !! "http.scheme"
      = Some (PStr (scheme request)) ∧
    trace_span.attributes (spans w' !!! length (spans w)) !! "http.url"
      = Some (PStr (match route request with Ok r => r | Raise _ => url request end)) ∧
    trace_span.attributes (spans w' !!! length (spans w)) !! "http.client.ip"
      = Some (ip request) ∧
    (∀ h, h ∈ ["user-agent"; "x-forwarded-for"; "x-real-ip"] →
       trace_span.attributes (spans w' !!! length (spans w)) !! ("http.headers." ++ h)
       = PStr <$> headers request !! h) ∧
    (∀ k, k ∉ ["http.method"; "http.host"; "http.scheme"; "http.url"; "http.client.ip"] →
       (∀ h, k ≠ "http.headers." ++ h) →
       trace_span.attributes (spans w' !!! length (spans w)) !! k = None) ∧
    (∀ r, r < length (spans w) → spans w' !!! r = spans w !!! r).
Proof.
  intros Hws Hurl Hm Hsampled Hc Hroute.
  destruct (request_span_prologue disable_tracing_url self request w Hws Hurl Hm Hsampled Hc)
    as (wb & Hrun & Hstackb & Hopenb & Hcurb & Hctb & Hexb & Hlenb & Hltb & Holdb & _
        & Hexpb & Hidb & Hnewb).
  set (t := length (tracers w)) in *. set (r := length (spans w)) in *.
  set (sc := propagator_from_headers self (headers request)) in *.
  set (rt := match route request with Ok x => x | Raise _ => path request end).
  set (ru := match route request with Ok x => x | Raise _ => url request end).
  set (wc := match route request with
             | Ok x => renamed r (PStr ("[" ++ service_name self ++ "] " ++
                                        method request ++ " " ++ x)) wb
             | Raise _ => wb
             end).
  set (w1 := with_attribute r "http.method" (PStr (method request)) wc).
  set (w2 := with_attribute r "http.host" (PStr (host request)) w1).
  set (w3 := with_attribute r "http.scheme" (PStr (scheme request)) w2).
  set (w4 := with_attribute r "http.url" (PStr ru) w3).
  set (w5 := with_attribute r "http.client.ip" (ip request) w4).
  assert (Hrb : r < length (spans wb)) by lia.
  assert (Hrc : r < length (spans wc)).
  { unfold wc. destruct (route request); [by rewrite renamed_length|done]. }
  assert (Hr1 : r < length (spans w1)) by (unfold w1; by rewrite with_attribute_length).
  assert (Hr2 : r < length (spans w2)) by (unfold w2; by rewrite with_attribute_length).
  assert (Hr3 : r < length (spans w3)) by (unfold w3; by rewrite with_attribute_length).
  assert (Hr4 : r < length (spans w4)) by (unfold w4; by rewrite with_attribute_length).
  assert (Hr5 : r < length (spans w5)) by (unfold w5; by rewrite with_attribute_length).
  assert (Hsc : same_structure (spans wb) (spans wc)).
  { unfold wc. destruct (route request); [apply renamed_structure|apply same_structure_refl]. }
  assert (Hs5 : same_structure (spans wb) (spans w5)).
  { eapply same_structure_trans; [exact Hsc|].
    eapply same_structure_trans; [apply with_attribute_structure|].
    eapply same_structure_trans; [apply with_attribute_structure|].
    eapply same_structure_trans; [apply with_attribute_structure|].
    eapply same_structure_trans; [apply with_attribute_structure|].
    apply with_attribute_structure. }
  assert (Htr5 : tracers w5 = tracers wb) by (unfold wc; by destruct (route request)).
  assert (Hc5 : ctx_span w5 = Some r) by (unfold wc; by destruct (route request)).
  assert (Hct5 : ctx_tracer w5 = ctx_tracer wb) by (unfold wc; by destruct (route request)).
  assert (Hex5 : exported w5 = exported wb) by (unfold wc; by destruct (route request)).
  assert (Hnamec : trace_span.name (spans wc !!! r)
                   = PStr ("[" ++ service_name self ++ "] " ++ method request ++ " " ++ rt)).
  { unfold wc, rt. destruct (route request); [by rewrite renamed_name|by rewrite Hnewb]. }
  assert (Hattrc : trace_span.attributes (spans wc !!! r) = ∅).
  { unfold wc. destruct (route request); [rewrite renamed_attributes|]; by rewrite Hnewb. }
  assert (Hattr5 : trace_span.attributes (spans w5 !!! r) =
      <["http.client.ip" := ip request]>
        (<["http.url" := PStr ru]>
           (<["http.scheme" := PStr (scheme request)]>
              (<["http.host" := PStr (host request)]>
                 (<["http.method" := PStr (method request)]> ∅))))).
  { unfold w5. rewrite with_attribute_lookup by done.
    unfold w4. rewrite with_attribute_lookup by done.
    unfold w3. rewrite with_attribute_lookup by done.
    unfold w2. rewrite with_attribute_lookup by done.
    unfold w1. rewrite with_attribute_lookup by done.
    by rewrite Hattrc. }
  destruct (add_header_attributes_spec t request r
              ["user-agent"; "x-forwarded-for"; "x-real-ip"] w5 Hc5 Hr5)
    as (w6 & Hrun6 & Hs6 & Htr6 & Hc6 & Hct6 & Hex6 & Hname6 & Hoth6 & Hset6 & Hkeep6).
  assert (Hkeep : ∀ k, (∀ h, k ≠ "http.headers." ++ h) →
            trace_span.attributes (spans w6 !!! r) !! k
            = trace_span.attributes (spans w5 !!! r) !! k).
  { intros k Hk. apply Hkeep6. intros h _. apply Hk. }
  assert (Hs : same_structure (spans wb) (spans w6)) by (by eapply same_structure_trans).
  exists (set_ctx_tracer (Some (ContextTracerRef t)) w6).
  split.
  { rewrite Hrun. unfold bind at 1.
    assert (Hroute' :
      match route request with
      | Ok x =>
          (set_span_name (SpanObj r)
             (PStr ("[" ++ service_name self ++ "] " ++ method request ++ " " ++ x)) ;;;
           ret x)%py
      | Raise ex => if String.eqb (exc_class ex) "NotFound" then ret (url request)
                    else raise ex
      end wb = (Ok ru, wc)).
    { unfold ru, wc. destruct (route request) as [x|ex] eqn:Hrt; [done|].
      by rewrite (Hroute ex eq_refl). }
    rewrite Hroute'.
    rewrite (attribute_step t _ _ wc r) by (unfold wc; by destruct (route request)).
    fold w1.
    rewrite (attribute_step t _ _ w1 r) by (unfold wc; by destruct (route request)).
    fold w2.
    rewrite (attribute_step t _ _ w2 r) by (unfold wc; by destruct (route request)).
    fold w3.
    rewrite (attribute_step t _ _ w3 r) by (unfold wc; by destruct (route request)).
    fold w4.
    rewrite (attribute_step t _ _ w4 r) by (unfold wc; by destruct (route request)).
    fold w5. unfold bind at 1. rewrite Hrun6. done. }
  split; [done|].
  split; [change (ctx_span w6 = Some r); by rewrite Hc6|].
  split.
  { apply (top_is_current_same_structure t wb); [exact Hs| | |done].
    - change (tracers w6 = tracers wb). by rewrite Htr6.
    - change (ctx_span w6 = ctx_span wb). by rewrite Hc6, Hc5. }
  split; [unfold open_spans in *; simpl; by rewrite Htr6, Htr5|].
  split; [simpl; by rewrite Hex6, Hex5|].
  split; [simpl; by rewrite Htr6, Htr5|].
  split; [simpl; by rewrite Htr6, Htr5|].
  destruct Hs as [_ Hsame]. destruct (Hsame r) as (Hpar & Hch & _ & Hend & _).
  simpl.
  split; [by rewrite Hpar, Hnewb|].
  split; [by rewrite Hend, Hnewb|].
  split; [by rewrite Hch, Hnewb|].
  split.
  { rewrite Hname6. unfold w5, w4, w3, w2, w1. by rewrite !with_attribute_name. }
  split; [rewrite Hkeep by done; rewrite Hattr5;
          by rewrite !lookup_insert_ne, lookup_insert_eq by done|].
  split; [rewrite Hkeep by done; rewrite Hattr5;
          by rewrite !lookup_insert_ne, lookup_insert_eq by done|].
  split; [rewrite Hkeep by done; rewrite Hattr5;
          by rewrite !lookup_insert_ne, lookup_insert_eq by done|].
  split; [rewrite Hkeep by done; rewrite Hattr5;
          by rewrite !lookup_insert_ne, lookup_insert_eq by done|].
  split; [rewrite Hkeep by done; rewrite Hattr5; by rewrite lookup_insert_eq|].
  split.
  { intros h Hh. rewrite (Hset6 h Hh). destruct (headers request !! h); [done|].
    rewrite Hattr5. by rewrite !lookup_insert_ne by done. }
  split.
  { intros k Hk Hnh. rewrite Hkeep by done. rewrite Hattr5.
    rewrite !lookup_insert_ne; [done|..]; intros <-; apply Hk;
      repeat (first [by apply list_elem_of_here | apply list_elem_of_further]). }
  intros r' Hr'. rewrite Hoth6 by lia.
  unfold w5, w4, w3, w2, w1. rewrite !with_attribute_other by lia.
  rewrite <- Holdb by done. unfold wc. destruct (route request); [|done].
  apply renamed_other. lia.
Qed.

(** X15: for a request that is not skipped and is sampled (forced by the
    inbound header or allowed by the sampler), in a task with no current
    span and with a route lookup that succeeds or raises NotFound,
    [do_trace_request] creates a tracer on the inbound span context with the
    middleware's exporter, stores it under [request['tracer']] and as the
    task's tracer, and leaves one open span, the current one: its parent is
    the inbound span id, its name is ["[service] METHOD route"] (the path in
    place of the route after NotFound), and its attributes are exactly
    [http.method], [http.host], [http.scheme], [http.url] (the route, or the
    raw URL after NotFound), [http.client.ip] and one [http.headers.h] for
    each of user-agent, x-forwarded-for and x-real-ip that the request
    carries.  Nothing is exported and older spans are untouched. *)
Theorem sampled_request_opens_the_root_span disable_tracing_url self request w :
  scheme request ∉ ["ws"; "wss"] →
  disable_tracing_url (url request) (blacklist_paths self) = false →
  (∀ ms, blacklist_methods self = Some ms → method request ∉ ms) →
  span_context.from_header (propagator_from_headers self (headers request))
    && span_context.trace_options_enabled (propagator_from_headers self (headers request))
  || sampler_should_sample self
       (span_context.trace_id (propagator_from_headers self (headers request))) = true →
  ctx_span w = None →
  (∀ ex, route request = Raise ex → exc_class ex = "NotFound") →
  ∃ w',
    do_trace_request disable_tracing_url self request w
      = (Ok (set_item "tracer" (ContextTracerRef (length (tracers w))) request), w') ∧
    ctx_tracer w' = Some (ContextTracerRef (length (tracers w))) ∧
    ctx_span w' = Some (length (spans w)) ∧
    top_is_current (length (tracers w)) w' ∧
    open_spans (length (tracers w)) w' = [length (spans w)] ∧
    exported w' = exported w ∧
    tracer_obj.exporter (tracers w' !!! length (tracers w)) = exporter self ∧
    tracer_obj.trace_id (tracers w' !!! length (tracers w))
      = span_context.trace_id (propagator_from_headers self (headers request)) ∧
    trace_span.parent_span (spans w' !!! length (spans w))
      = NullContextManager
          (span_context.span_id (propagator_from_headers self (headers request))) ∧
    trace_span.end_time (spans w' !!! length (spans w)) = None ∧
    trace_span.children (spans w' !!! length (spans w)) = [] ∧
    trace_span.name (spans w' !!! length (spans w))
      = PStr ("[" ++ service_name self ++ "] " ++ method request ++ " " ++
              match route request with Ok r => r | Raise _ => path request end) ∧
    trace_span.attributes (spans w' !!! length (spans w)) !! "http.method"
      = Some (PStr (method request)) ∧
    trace_span.attributes (spans w' !!! length (spans w)) !! "http.host"
      = Some (PStr (host request)) ∧
    trace_span.attributes (spans w' !!! length (spans w)) !! "http.scheme"
      = Some (PStr (scheme request)) ∧
    trace_span.attributes (spans w' !!! length (spans w)) !! "http.url"
      = Some (PStr (match route request with Ok r => r | Raise _ => url request end)) ∧
    trace_span.attributes (spans w' !!! length (spans w)) !! "http.client.ip"
      = Some (ip request) ∧
    (∀ h, h ∈ ["user-agent"; "x-forwarded-for"; "x-real-ip"] →
       trace_span.attributes (spans w' !!! length (spans w)) !! ("http.headers." ++ h)
       = PStr <$> headers request !! h) ∧
    (∀ k, k ∉ ["http.method"; "http.host"; "http.scheme"; "http.url"; "http.client.ip"] →
       (∀ h, k ≠ "http.headers." ++ h) →
       trace_span.attributes (spans w' !!! length (spans w)) !! k = None) ∧
    (∀ r, r < length (spans w) → spans w' !!! r = spans w !!! r).
Proof.
  intros Hws Hurl Hm Hsampled Hc Hroute.
  exact (request_span_opened disable_tracing_url self request w
           Hws Hurl Hm Hsampled Hc Hroute).
Qed.

(** X16: when the route lookup raises anything but NotFound, the exception
    leaves [do_trace_request] after the span was started: the new span is
    open, current and without attributes, but the tracer is neither stored
    on the request nor made the task's tracer, and nothing is exported. *)
Theorem route_error_leaves_the_request_span_open
    disable_tracing_url self request w ex :
  scheme request ∉ ["ws"; "wss"] →
  disable_tracing_url (url request) (blacklist_paths self) = false →
  (∀ ms, blacklist_methods self = Some ms → method request ∉ ms) →
  span_context.from_header (propagator_from_headers self (headers request))
    && span_context.trace_options_enabled (propagator_from_headers self (headers request))
  || sampler_should_sample self
       (span_context.trace_id (propagator_from_headers self (headers request))) = true →
  ctx_span w = None →
  route request = Raise ex →
  exc_class ex ≠ "NotFound" →
  ∃ w',
    do_trace_request disable_tracing_url self request w = (Raise ex, w') ∧
    ctx_tracer w' = ctx_tracer w ∧
    ctx_span w' = Some (length (spans w)) ∧
    open_spans (length (tracers w)) w' = [length (spans w)] ∧
    trace_span.end_time (spans w' !!! length (spans w)) = None ∧
    trace_span.attributes (spans w' !!! length (spans w)) = ∅ ∧
    exported w' = exported w.
Proof.
  intros Hws Hurl Hm Hsampled Hc Hroute Hclass.
  destruct (request_span_prologue disable_tracing_url self request w Hws Hurl Hm Hsampled Hc)
    as (wb & Hrun & Hstackb & Hopenb & Hcurb & Hctb & Hexb & Hlenb & Hltb & Holdb & _
        & Hexpb & Hidb & Hnewb).
  exists wb. split.
  { rewrite Hrun, Hroute. unfold bind at 1.
    by rewrite (proj2 (String.eqb_neq _ _) Hclass). }
  rewrite Hnewb. done.
Qed.



(** X18: a request over ws or wss, to a blacklisted URL, or with a
    blacklisted method, is returned untouched by [do_trace_request], and
    [do_trace_response] for it (no ['tracer'] item) does nothing either. *)
Theorem skipped_request_is_skipped_in_both_phases
    disable_tracing_url py_str fuel self request response w :
  scheme request ∈ ["ws"; "wss"]
  ∨ disable_tracing_url (url request) (blacklist_paths self) = true
  ∨ (∃ ms, blacklist_methods self = Some ms ∧ method request ∈ ms) →
  items request !! "tracer" = None →
  do_trace_request disable_tracing_url self request w = (Ok request, w) ∧
  do_trace_response disable_tracing_url py_str fuel self request response w
    = Some (Ok tt, w).
Proof.
  intros Hskip Hitem. split.
  - unfold do_trace_request.
    destruct (bool_decide (scheme request ∈ ["ws"; "wss"])) eqn:Hws; [done|].
    destruct (disable_tracing_url (url request) (blacklist_paths self)) eqn:Hurl; [done|].
    destruct Hskip as [Hs|[Hs|(ms & Hb & Hin)]].
    + apply bool_decide_eq_false in Hws. done.
    + done.
    + rewrite Hb. destruct ms as [|m ms]; [by apply elem_of_nil in Hin|].
      by rewrite bool_decide_eq_true_2.
  - unfold do_trace_response. rewrite Hitem.
    by destruct (disable_tracing_url (url request) (blacklist_paths self)).
Qed.

Lemma end_span_ctx_tracer t w :
  ctx_tracer (ContextTracer.end_span t w).2 = ctx_tracer w.
Proof.
  destruct (span_to_end t w) as [c|] eqn:Htgt.
  - destruct (end_span_some t w c Htgt) as (w' & -> & _ & _ & _ & _ & _ & _ & Hct). done.
  - by rewrite (end_span_none t w Htgt).
Qed.

Lemma finish_ctx_tracer fuel t : ∀ w r w',
  ContextTracer.finish fuel t w = Some (r, w') → ctx_tracer w' = ctx_tracer w.
Proof.
  induction fuel as [|fuel IH]; intros w r w' Hfin; [done|].
  simpl in Hfin. destruct (tracer_obj._spans_list (tracers w !!! t)).
  - by injection Hfin as _ <-.
  - pose proof (end_span_ctx_tracer t w) as Hct.
    destruct (ContextTracer.end_span t w) as [[o|e] w1].
    + rewrite (IH _ _ _ Hfin). done.
    + injection Hfin as _ <-. done.
Qed.

Lemma response_span_closed
    disable_tracing_url py_str fuel self request response w t l c :
  disable_tracing_url (url request) (blacklist_paths self) = false →
  items request !! "tracer" = Some (ContextTracerRef t) →
  top_is_current t w →
  open_spans t w = (l ++ [c])%list →
  trace_span.children (spans w !!! c) = [] →
  length l < fuel →
  ∃ w' d batches,
    do_trace_response disable_tracing_url py_str fuel self request response w
      = Some (Ok tt, w') ∧
    open_spans t w' = [] ∧
    ctx_span w' = None ∧
    ctx_tracer w' = ctx_tracer w ∧
    exported w' = (exported w ++
      (tracer_obj.exporter (tracers w !!! t), [d]) :: batches)%list ∧
    length batches = length l ∧
    span_data_module.source d = c ∧
    span_data_module.name d = trace_span.name (spans w !!! c) ∧
    span_data_module.attributes d !! "http.status_code"
      = Some (PStr (status_code_text py_str response)) ∧
    span_data_module.attributes d !! "error"
      = (if server_error response then Some (PBool true)
         else trace_span.attributes (spans w !!! c) !! "error") ∧
    span_data_module.end_time d ≠ None ∧
    span_data_module.parent_span_id d =
      match trace_span.parent_span (spans w !!! c) with
      | ParentNone => None
      | ParentSpan p => Some (trace_span.span_id (spans w !!! p))
      | NullContextManager i => i
      end.
Proof.
  intros Hurl Hitem Hstack Hopen Hleaf Hfuel.
  assert (Hcur : ctx_span w = Some c).
  { destruct Hstack as [_ ->]. by rewrite Hopen, last_snoc. }
  assert (Hc : c < length (spans w)).
  { apply (top_is_current_bound t w); [done|]. rewrite Hopen.
    apply elem_of_app. right. by apply list_elem_of_singleton. }
  set (w1 := with_attribute c "http.status_code"
               (PStr (status_code_text py_str response)) w).
  set (ws := if server_error response
             then with_attribute c "error" (PBool true) w1 else w1).
  assert (Hc1 : c < length (spans w1)) by (unfold w1; by rewrite with_attribute_length).
  assert (Hs1 : same_structure (spans w) (spans w1)) by apply with_attribute_structure.
  assert (Hss : same_structure (spans w) (spans ws)).
  { unfold ws. destruct (server_error response); [|done].
    eapply same_structure_trans; [exact Hs1|apply with_attribute_structure]. }
  assert (Htrs : tracers ws = tracers w) by (unfold ws; by destruct (server_error response)).
  assert (Hcs : ctx_span ws = Some c) by (unfold ws; by destruct (server_error response)).
  assert (Hcts : ctx_tracer ws = ctx_tracer w)
    by (unfold ws; by destruct (server_error response)).
  assert (Hexs : exported ws = exported w)
    by (unfold ws; by destruct (server_error response)).
  assert (Hstacks : top_is_current t ws).
  { apply (top_is_current_same_structure t w); [done|done|by rewrite Hcs, Hcur|done]. }
  assert (Hopens : open_spans t ws = (l ++ [c])%list).
  { unfold open_spans in *. by rewrite Htrs. }
  assert (Hleafs : trace_span.children (spans ws !!! c) = []).
  { destruct Hss as [_ Hsame]. destruct (Hsame c) as (_ & -> & _). done. }
  destruct (end_top_span t ws l c Hstacks Hopens Hleafs)
    as (we & Hend & Hstacke & Hopene & Hcure & Hcte & Hexpe & Hspe & Hlt).
  destruct Hstacke as [Hne Hcurl].
  destruct (finish_run t l we fuel Hne (or_introl Hcurl) Hopene Hfuel)
    as (w' & batches & Hfin & Hexp' & Hlen' & Hopen' & Hstack').
  exists w', (span_record t (spans we) c), batches.
  split.
  { unfold do_trace_response. rewrite Hurl, Hitem.
    fold (status_code_text py_str response).
    rewrite (attribute_step t _ _ w c) by done. fold w1.
    assert (Hmark :
      (match response with
       | Some r => if (500 <=? status r)%Z
                   then Tracer.add_attribute_to_current_span (ContextTracerRef t)
                          "error" (PBool true)
                   else ret tt
       | None => ret tt
       end ;;; Tracer.end_span (ContextTracerRef t))%py w1
      = Tracer.end_span (ContextTracerRef t) ws).
    { unfold ws, server_error. destruct response as [rsp|]; [|done].
      destruct (500 <=? status rsp)%Z; [|done].
      by rewrite (attribute_step t _ _ w1 c). }
    rewrite Hmark. unfold Tracer.end_span. unfold bind at 1. rewrite Hend.
    unfold ret. unfold Tracer_finish. exact Hfin. }
  split; [done|].
  split; [destruct Hstack' as [_ ->]; by rewrite Hopen'|].
  split; [rewrite (finish_ctx_tracer _ _ _ _ _ Hfin); by rewrite Hcte|].
  split; [rewrite Hexp', Hexpe, Hexs, Htrs; by rewrite <- app_assoc|].
  split; [done|].
  assert (Hpid : span_data_module.parent_span_id (span_record t (spans we) c) =
      match trace_span.parent_span (spans w !!! c) with
      | ParentNone => None
      | ParentSpan p => Some (trace_span.span_id (spans w !!! p))
      | NullContextManager i => i
      end).
  { unfold span_record. cbn [span_data_module.parent_span_id].
    rewrite Hspe, finished_parent. destruct Hss as [_ Hsame].
    destruct (Hsame c) as (-> & _).
    destruct (trace_span.parent_span (spans w !!! c)) as [|p|i]; [done| |done].
    rewrite finished_span_id. destruct (Hsame p) as (_ & _ & -> & _). done. }
  destruct (span_record_fields t (spans we) c) as (-> & -> & -> & ->).
  split; [done|].
  rewrite Hspe. destruct (finished_fields (clock ws (clock_reads ws)) (spans ws) c Hlt)
    as (-> & -> & ->).
  split.
  { unfold ws, w1. destruct (server_error response); by rewrite !with_attribute_name. }
  split.
  { unfold ws. destruct (server_error response).
    - rewrite with_attribute_lookup by done. rewrite lookup_insert_ne by done.
      unfold w1. rewrite with_attribute_lookup by done. by rewrite lookup_insert_eq.
    - unfold w1. rewrite with_attribute_lookup by done. by rewrite lookup_insert_eq. }
  split.
  { unfold ws. destruct (server_error response).
    - rewrite with_attribute_lookup by done. by rewrite lookup_insert_eq.
    - unfold w1. rewrite with_attribute_lookup by done. by rewrite lookup_insert_ne. }
  split; [done|]. rewrite <- Hspe. exact Hpid.
Qed.

(** X19: [do_trace_response] on a request that carries a [ContextTracer]
    whose stack is in order writes [http.status_code] (and [error = True]
    for a status of 500 or more) on the current span, which is the top of
    the stack and not necessarily the request's span, ends and exports it,
    and then [finish] ends every span left below it, one export batch each.
    The open list and the current span end up empty; the tracer stays the
    task's tracer.  Any loop bound above the number of spans below the top
    is enough. *)
Theorem response_closes_every_open_span
    disable_tracing_url py_str fuel self request response w t l c :
  disable_tracing_url (url request) (blacklist_paths self) = false →
  items request !! "tracer" = Some (ContextTracerRef t) →
  top_is_current t w →
  open_spans t w = (l ++ [c])%list →
  trace_span.children (spans w !!! c) = [] →
  length l < fuel →
  ∃ w' d batches,
    do_trace_response disable_tracing_url py_str fuel self request response w
      = Some (Ok tt, w') ∧
    open_spans t w' = [] ∧
    ctx_span w' = None ∧
    ctx_tracer w' = ctx_tracer w ∧
    exported w' = (exported w ++
      (tracer_obj.exporter (tracers w !!! t), [d]) :: batches)%list ∧
    length batches = length l ∧
    span_data_module.source d = c ∧
    span_data_module.name d = trace_span.name (spans w !!! c) ∧
    span_data_module.attributes d !! "http.status_code"
      = Some (PStr (status_code_text py_str response)) ∧
    span_data_module.attributes d !! "error"
      = (if server_error response then Some (PBool true)
         else trace_span.attributes (spans w !!! c) !! "error") ∧
    span_data_module.end_time d ≠ None ∧
    span_data_module.parent_span_id d =
      match trace_span.parent_span (spans w !!! c) with
      | ParentNone => None
      | ParentSpan p => Some (trace_span.span_id (spans w !!! p))
      | NullContextManager i => i
      end.
Proof.
  intros Hurl Hitem Hstack Hopen Hleaf Hfuel.
  exact (response_span_closed disable_tracing_url py_str fuel self request response
           w t l c Hurl Hitem Hstack Hopen Hleaf Hfuel).
Qed.

(** X20: when the task has no current span, [do_trace_response] on a
    request that carries a [ContextTracer] raises AttributeError at the
    first attribute; [end_span] and [finish] are not reached, so spans still
    on the tracer's list are not exported. *)
Theorem response_without_current_span_raises
    disable_tracing_url py_str fuel self request response w t :
  disable_tracing_url (url request) (blacklist_paths self) = false →
  items request !! "tracer" = Some (ContextTracerRef t) →
  ctx_span w = None →
  do_trace_response disable_tracing_url py_str fuel self request response w
    = Some (Raise (AttributeError "'NoneType' object has no attribute 'add_attribute'"), w).
Proof.
  intros Hurl Hitem Hc. unfold do_trace_response. rewrite Hurl, Hitem.
  unfold bind at 1. unfold Tracer.add_attribute_to_current_span at 1.
  by rewrite add_attribute_spec, Hc.
Qed.


(** ** The properties on example inputs *)

Lemma traced_world_top_is_current : top_is_current 0 traced_world.
Proof. vm_compute. split; [split; [lia|exact I]|reflexivity]. Defined.

Lemma entered_world_top_is_current : top_is_current 0 entered_world.
Proof.
  vm_compute. split; [|reflexivity].
  split; [lia|]. split; [lia|]. split; [apply not_elem_of_nil|].
  split; [intros p H; discriminate H|exact I].
Defined.

Lemma two_open_world_top_is_current : top_is_current 0 two_open_world.
Proof. split; [exact two_open_world_nested|vm_compute; reflexivity]. Defined.

Lemma span_context_follows_current_span_witness :
  ctx_span boot_world = None ∧
  ContextTracer.__init__ None None boot_world = (Ok 0, fresh_tracer_world) ∧
  context_span_id 0 (run_calls 0 example_calls fresh_tracer_world).2 =
    match ctx_span (run_calls 0 example_calls fresh_tracer_world).2 with
    | Some c =>
        Some (trace_span.span_id
                (spans (run_calls 0 example_calls fresh_tracer_world).2 !!! c))
    | None => None
    end.
Proof.
  split; [reflexivity|]. split; [reflexivity|].
  exact (span_context_follows_current_span boot_world None None 0 fresh_tracer_world
           example_calls eq_refl eq_refl).
Defined.

Lemma end_span_exports_the_finished_span_witness :
  ctx_span boot_world = None ∧
  ContextTracer.__init__ None None boot_world = (Ok 0, fresh_tracer_world) ∧
  open_spans 0
    (run_calls 0 [StartSpan (PStr "request"); StartSpan (PStr "query")]
       fresh_tracer_world).2 = ([0] ++ [1])%list ∧
  ∃ w' d,
    ContextTracer.end_span 0 two_open_world = (Ok (Some 1), w') ∧
    exported w' = (exported two_open_world ++ [(PrintExporter, [d])])%list ∧
    span_data_module.source d = 1 ∧
    span_data_module.name d = PStr "query" ∧
    span_data_module.child_span_count d = 0 ∧
    span_data_module.parent_span_id d
      = Some (trace_span.span_id (spans two_open_world !!! 0)).
Proof.
  split; [reflexivity|]. split; [reflexivity|]. split; [vm_compute; reflexivity|].
  destruct (end_span_exports_the_finished_span boot_world None None 0 fresh_tracer_world
              [StartSpan (PStr "request"); StartSpan (PStr "query")] [0] 1
              eq_refl eq_refl ltac:(vm_compute; reflexivity))
    as (w' & d & Hrun & Hexp & Hsrc & Hname & _ & _ & _ & _ & Hcount & Hpar).
  exists w', d. split; [exact Hrun|]. split; [exact Hexp|]. split; [exact Hsrc|].
  split; [rewrite Hname; vm_compute; reflexivity|]. split; [exact Hcount|exact Hpar].
Defined.

Lemma start_then_end_restores_the_tracer_witness :
  ctx_span boot_world = None ∧
  ContextTracer.__init__ None None boot_world = (Ok 0, fresh_tracer_world) ∧
  ∃ w2 w3 d,
    ContextTracer.start_span 0 (PStr "query") two_open_world = (Ok 2, w2) ∧
    ContextTracer.end_span 0 w2 = (Ok (Some 2), w3) ∧
    open_spans 0 w3 = open_spans 0 two_open_world ∧
    ctx_span w3 = ctx_span two_open_world ∧
    exported w3 = (exported two_open_world ++ [(PrintExporter, [d])])%list ∧
    span_data_module.name d = PStr "query".
Proof.
  split; [reflexivity|]. split; [reflexivity|].
  destruct (start_then_end_restores_the_tracer boot_world None None 0 fresh_tracer_world
              [StartSpan (PStr "request"); StartSpan (PStr "query")] (PStr "query")
              eq_refl eq_refl)
    as (w2 & w3 & d & Hstart & Hend & Hopen & Hcur & _ & Hexp & _ & Hname & _).
  exists w2, w3, d. split; [exact Hstart|]. split; [exact Hend|].
  split; [exact Hopen|]. split; [exact Hcur|]. split; [exact Hexp|exact Hname].
Defined.

Lemma attribute_is_set_on_the_current_span_only_witness :
  ctx_span two_open_world = Some 1 ∧
  1 < length (spans two_open_world) ∧
  ∃ w',
    ContextTracer.add_attribute_to_current_span 0 "db.rows" (PInt 3) two_open_world
      = (Ok tt, w') ∧
    trace_span.attributes (spans w' !!! 1) !! "db.rows" = Some (PInt 3) ∧
    spans w' !!! 0 = spans two_open_world !!! 0 ∧
    exported w' = exported two_open_world.
Proof.
  split; [vm_compute; reflexivity|]. split; [vm_compute; lia|].
  destruct (attribute_is_set_on_the_current_span_only 0 "db.rows" (PInt 3)
              two_open_world 1 ltac:(vm_compute; reflexivity) ltac:(vm_compute; lia))
    as (w' & Hrun & Hset & _ & _ & _ & Hother & _ & _ & _ & Hexp).
  exists w'. split; [exact Hrun|]. split; [exact Hset|].
  split; [apply Hother; lia|exact Hexp].
Defined.

Lemma end_span_never_exports_an_unlisted_span_witness :
  0 < length (tracers stale_span_world) ∧
  ctx_span stale_span_world = Some 1 ∧
  (1 ∉ open_spans 0 stale_span_world) ∧
  ∃ w',
    ContextTracer.end_span 0 stale_span_world = (Ok (Some 1), w') ∧
    exported w' = exported stale_span_world ∧
    open_spans 0 w' = open_spans 0 stale_span_world ∧
    spans w' = finished (clock stale_span_world (clock_reads stale_span_world))
                 (spans stale_span_world) 1 ∧
    ctx_span w' =
      match trace_span.parent_span (spans stale_span_world !!! 1) with
      | ParentSpan p => Some p
      | _ => None
      end.
Proof.
  assert (Hnotin : 1 ∉ open_spans 0 stale_span_world).
  { vm_compute. intros H. apply list_elem_of_singleton in H. discriminate H. }
  split; [vm_compute; lia|]. split; [vm_compute; reflexivity|]. split; [exact Hnotin|].
  exact (end_span_never_exports_an_unlisted_span 0 stale_span_world 1
           ltac:(vm_compute; lia) ltac:(vm_compute; reflexivity) Hnotin).
Defined.



Lemma wrap_execute_is_transparent_without_a_context_tracer_witness :
  (ctx_tracer noop_world = None ∨ ctx_tracer noop_world = Some NoopTracer) ∧
  wrap_execute py_str_example failing_client redis_connection
    (PStr "GET" :: [PStr "k"]) [] noop_world
  = failing_client (PStr "GET" :: [PStr "k"]) [] noop_world.
Proof.
  split; [right; reflexivity|].
  exact (wrap_execute_is_transparent_without_a_context_tracer py_str_example
           failing_client redis_connection (PStr "GET") [PStr "k"] [] noop_world
           (or_intror eq_refl)).
Defined.

Lemma answering_client_untouched (args : list pyval) (kwargs : list (string * pyval)) :
  ∀ w1, ∃ w2, answering_client args kwargs w1 = (Ok (PStr "v"), w2) ∧
              tracing_untouched w1 w2.
Proof. intros w1. exists w1. split; [reflexivity|]. repeat split. Defined.

Lemma failing_client_untouched (args : list pyval) (kwargs : list (string * pyval)) :
  ∀ w1, ∃ w2, failing_client args kwargs w1 = (Raise (ValueError "boom"), w2) ∧
              tracing_untouched w1 w2.
Proof. intros w1. exists w1. split; [reflexivity|]. repeat split. Defined.

Lemma traced_client_call_is_balanced_witness :
  ctx_tracer traced_world = Some (ContextTracerRef 0) ∧
  top_is_current 0 traced_world ∧
  (∀ w1, ∃ w2, answering_client (PStr "GET" :: [PStr "k"]) [] w1 = (Ok (PStr "v"), w2) ∧
               tracing_untouched w1 w2) ∧
  ∃ w' d,
    wrap_execute py_str_example answering_client redis_connection
      (PStr "GET" :: [PStr "k"]) [] traced_world = (Ok (PStr "v"), w') ∧
    top_is_current 0 w' ∧
    open_spans 0 w' = open_spans 0 traced_world ∧
    ctx_span w' = ctx_span traced_world ∧
    exported w' = (exported traced_world ++
                   [(tracer_obj.exporter (tracers traced_world !!! 0), [d])])%list ∧
    span_data_module.source d = length (spans traced_world) ∧
    span_data_module.name d = PStr ("[aioredis] " ++ py_str_example (PStr "GET")) ∧
    span_data_module.attributes d !! "redis.db" = Some (db redis_connection) ∧
    span_data_module.attributes d !! "redis.resposne.size"
      = Some (PInt (match PStr "v" with
                    | PBytes b => Z.of_nat (length b)
                    | _ => 0
                    end)) ∧
    span_data_module.attributes d !! "error" = None ∧
    span_data_module.end_time d ≠ None.
Proof.
  split; [reflexivity|]. split; [exact traced_world_top_is_current|].
  split; [exact (answering_client_untouched _ _)|].
  exact (traced_client_call_is_balanced py_str_example answering_client redis_connection
           (PStr "GET") [PStr "k"] [] traced_world 0 (PStr "v") eq_refl
           traced_world_top_is_current (answering_client_untouched _ _)).
Defined.

Lemma failed_client_call_is_balanced_witness :
  ctx_tracer traced_world = Some (ContextTracerRef 0) ∧
  top_is_current 0 traced_world ∧
  exc_is_Exception (ValueError "boom") = true ∧
  (∀ w1, ∃ w2, failing_client (PStr "GET" :: [PStr "k"]) [] w1
                 = (Raise (ValueError "boom"), w2) ∧
               tracing_untouched w1 w2) ∧
  ∃ w' d,
    wrap_execute py_str_example failing_client redis_connection
      (PStr "GET" :: [PStr "k"]) [] traced_world = (Raise (ValueError "boom"), w') ∧
    top_is_current 0 w' ∧
    open_spans 0 w' = open_spans 0 traced_world ∧
    ctx_span w' = ctx_span traced_world ∧
    exported w' = (exported traced_world ++
                   [(tracer_obj.exporter (tracers traced_world !!! 0), [d])])%list ∧
    span_data_module.source d = length (spans traced_world) ∧
    span_data_module.name d = PStr ("[aioredis] " ++ py_str_example (PStr "GET")) ∧
    span_data_module.attributes d !! "error" = Some (PBool true) ∧
    span_data_module.attributes d !! "error.message"
      = Some (PStr (exc_str (ValueError "boom"))) ∧
    span_data_module.attributes d !! "redis.resposne.size" = None ∧
    span_data_module.end_time d ≠ None.
Proof.
  split; [reflexivity|]. split; [exact traced_world_top_is_current|].
  split; [reflexivity|]. split; [exact (failing_client_untouched _ _)|].
  exact (failed_client_call_is_balanced py_str_example failing_client redis_connection
           (PStr "GET") [PStr "k"] [] traced_world 0 (ValueError "boom") eq_refl
           traced_world_top_is_current eq_refl (failing_client_untouched _ _)).
Defined.

Lemma block_with_balanced_body_is_balanced_witness :
  ctx_tracer traced_world = Some (ContextTracerRef 0) ∧
  top_is_current 0 traced_world ∧
  AsyncSpan__aenter__ (mkAsyncSpan (PStr "job") PNone) traced_world
    = (Ok (SpanObj 0), entered_world) ∧
  ret (PInt 7) entered_world = (Ok (PInt 7), entered_world) ∧
  ctx_tracer entered_world = Some (ContextTracerRef 0) ∧
  top_is_current 0 entered_world ∧
  open_spans 0 entered_world = open_spans 0 entered_world ∧
  ∃ w' batch,
    AsyncSpan_block (mkAsyncSpan (PStr "job") PNone) (λ _, ret (PInt 7)) traced_world
      = (Ok (PInt 7), w') ∧
    top_is_current 0 w' ∧
    open_spans 0 w' = open_spans 0 traced_world ∧
    ctx_span w' = ctx_span traced_world ∧
    ctx_tracer w' = Some (ContextTracerRef 0) ∧
    exported w' = (exported entered_world ++ [batch])%list ∧
    trace_span.end_time (spans w' !!! length (spans traced_world)) ≠ None.
Proof.
  assert (Henter : AsyncSpan__aenter__ (mkAsyncSpan (PStr "job") PNone) traced_world
                   = (Ok (SpanObj 0), entered_world)) by (vm_compute; reflexivity).
  split; [reflexivity|]. split; [exact traced_world_top_is_current|].
  split; [exact Henter|]. split; [reflexivity|]. split; [vm_compute; reflexivity|].
  split; [exact entered_world_top_is_current|]. split; [reflexivity|].
  exact (block_with_balanced_body_is_balanced (mkAsyncSpan (PStr "job") PNone)
           (λ _, ret (PInt 7)) traced_world 0 (SpanObj 0) entered_world (PInt 7)
           entered_world eq_refl traced_world_top_is_current Henter eq_refl
           ltac:(vm_compute; reflexivity) entered_world_top_is_current eq_refl).
Defined.


Lemma block_without_tracer_fails_at_entry_witness :
  ctx_tracer boot_world = None ∧
  AsyncSpan_block (mkAsyncSpan (PStr "job") PNone) (λ _, ret (PInt 7)) boot_world
  = (Raise (AttributeError "'NoneType' object has no attribute 'start_span'"), boot_world).
Proof.
  split; [reflexivity|].
  exact (block_without_tracer_fails_at_entry (mkAsyncSpan (PStr "job") PNone)
           (λ _, ret (PInt 7)) boot_world eq_refl).
Defined.

Lemma block_under_noop_tracer_is_transparent_witness :
  ctx_tracer noop_world = Some NoopTracer ∧
  entered_name (mkAsyncSpan (PStr "job") PNone) = Some (PStr "job") ∧
  raise (A := pyval) (ValueError "boom") noop_world
    = (Raise (ValueError "boom"), noop_world) ∧
  AsyncSpan_block (mkAsyncSpan (PStr "job") PNone)
    (λ _, raise (A := pyval) (ValueError "boom")) noop_world
  = (Raise (ValueError "boom"), noop_world).
Proof.
  split; [reflexivity|]. split; [reflexivity|]. split; [reflexivity|].
  exact (block_under_noop_tracer_is_transparent (mkAsyncSpan (PStr "job") PNone)
           (λ _, raise (A := pyval) (ValueError "boom")) noop_world (PStr "job")
           (Raise (ValueError "boom")) noop_world eq_refl eq_refl eq_refl eq_refl).
Defined.

Lemma users_request_is_traced :
  (scheme users_request ∉ ["ws"; "wss"]) ∧
  disable_tracing_url_example (url users_request) (blacklist_paths example_middleware)
    = false ∧
  (∀ ms, blacklist_methods example_middleware = Some ms → method users_request ∉ ms) ∧
  span_context.from_header
      (propagator_from_headers example_middleware (headers users_request))
    && span_context.trace_options_enabled
         (propagator_from_headers example_middleware (headers users_request))
  || sampler_should_sample example_middleware
       (span_context.trace_id
          (propagator_from_headers example_middleware (headers users_request))) = true ∧
  ctx_span boot_world = None ∧
  (∀ ex, route users_request = Raise ex → exc_class ex = "NotFound").
Proof.
  split.
  { intros H. apply elem_of_cons in H as [H|H]; [discriminate H|].
    apply list_elem_of_singleton in H. discriminate H. }
  split; [vm_compute; reflexivity|].
  split; [intros ms H; discriminate H|].
  split; [reflexivity|]. split; [reflexivity|].
  intros ex H. discriminate H.
Defined.

Lemma sampled_request_opens_the_root_span_witness :
  ((scheme users_request ∉ ["ws"; "wss"]) ∧
   disable_tracing_url_example (url users_request) (blacklist_paths example_middleware)
     = false ∧
   (∀ ms, blacklist_methods example_middleware = Some ms → method users_request ∉ ms) ∧
   span_context.from_header
       (propagator_from_headers example_middleware (headers users_request))
     && span_context.trace_options_enabled
          (propagator_from_headers example_middleware (headers users_request))
   || sampler_should_sample example_middleware
        (span_context.trace_id
           (propagator_from_headers example_middleware (headers users_request))) = true ∧
   ctx_span boot_world = None ∧
   (∀ ex, route users_request = Raise ex → exc_class ex = "NotFound")) ∧
  ∃ w',
    do_trace_request disable_tracing_url_example example_middleware users_request
      boot_world = (Ok traced_request, w') ∧
    ctx_tracer w' = Some (ContextTracerRef 0) ∧
    ctx_span w' = Some 0 ∧
    open_spans 0 w' = [0] ∧
    trace_span.name (spans w' !!! 0) = PStr "[svc] GET /users/<id>" ∧
    trace_span.attributes (spans w' !!! 0) !! "http.url" = Some (PStr "/users/<id>") ∧
    trace_span.attributes (spans w' !!! 0) !! "http.headers.user-agent"
      = Some (PStr "curl") ∧
    trace_span.attributes (spans w' !!! 0) !! "http.headers.x-real-ip" = None.
Proof.
  split; [exact users_request_is_traced|].
  destruct users_request_is_traced as (Hws & Hurl & Hm & Hsampled & Hc & Hroute).
  destruct (sampled_request_opens_the_root_span disable_tracing_url_example
              example_middleware users_request boot_world Hws Hurl Hm Hsampled Hc Hroute)
    as (w' & Hrun & Hct & Hcur & _ & Hopen & _ & _ & _ & _ & _ & _ & Hname & _ & _ & _
        & Hu & _ & Hhdr & _).
  exists w'. split; [exact Hrun|]. split; [exact Hct|]. split; [exact Hcur|].
  split; [exact Hopen|]. split; [exact Hname|]. split; [exact Hu|].
  split.
  - apply (Hhdr "user-agent"). apply list_elem_of_here.
  - apply (Hhdr "x-real-ip"). do 2 apply list_elem_of_further. apply list_elem_of_here.
Defined.

Lemma route_error_leaves_the_request_span_open_witness :
  (scheme unrouted_request ∉ ["ws"; "wss"]) ∧
  disable_tracing_url_example (url unrouted_request) (blacklist_paths example_middleware)
    = false ∧
  (∀ ms, blacklist_methods example_middleware = Some ms →
         method unrouted_request ∉ ms) ∧
  span_context.from_header
      (propagator_from_headers example_middleware (headers unrouted_request))
    && span_context.trace_options_enabled
         (propagator_from_headers example_middleware (headers unrouted_request))
  || sampler_should_sample example_middleware
       (span_context.trace_id
          (propagator_from_headers example_middleware (headers unrouted_request)))
     = true ∧
  ctx_span boot_world = None ∧
  route unrouted_request = Raise MethodNotSupported ∧
  exc_class MethodNotSupported ≠ "NotFound" ∧
  ∃ w',
    do_trace_request disable_tracing_url_example example_middleware unrouted_request
      boot_world = (Raise MethodNotSupported, w') ∧
    ctx_tracer w' = ctx_tracer boot_world ∧
    ctx_span w' = Some (length (spans boot_world)) ∧
    open_spans (length (tracers boot_world)) w' = [length (spans boot_world)] ∧
    trace_span.end_time (spans w' !!! length (spans boot_world)) = None ∧
    trace_span.attributes (spans w' !!! length (spans boot_world)) = ∅ ∧
    exported w' = exported boot_world.
Proof.
  assert (Hws : scheme unrouted_request ∉ ["ws"; "wss"]).
  { intros H. apply elem_of_cons in H as [H|H]; [discriminate H|].
    apply list_elem_of_singleton in H. discriminate H. }
  assert (Hm : ∀ ms, blacklist_methods example_middleware = Some ms →
                     method unrouted_request ∉ ms)
    by (intros ms H; discriminate H).
  assert (Hclass : exc_class MethodNotSupported ≠ "NotFound")
    by (intros H; discriminate H).
  split; [exact Hws|]. split; [vm_compute; reflexivity|]. split; [exact Hm|].
  split; [reflexivity|]. split; [reflexivity|]. split; [reflexivity|].
  split; [exact Hclass|].
  exact (route_error_leaves_the_request_span_open disable_tracing_url_example
           example_middleware unrouted_request boot_world MethodNotSupported
           Hws ltac:(vm_compute; reflexivity) Hm eq_refl eq_refl eq_refl Hclass).
Defined.


Lemma skipped_request_is_skipped_in_both_phases_witness :
  (scheme health_request ∈ ["ws"; "wss"]
   ∨ disable_tracing_url_example (url health_request) (blacklist_paths example_middleware)
     = true
   ∨ (∃ ms, blacklist_methods example_middleware = Some ms ∧ method health_request ∈ ms)) ∧
  items health_request !! "tracer" = None ∧
  do_trace_request disable_tracing_url_example example_middleware health_request
    boot_world = (Ok health_request, boot_world) ∧
  do_trace_response disable_tracing_url_example py_str_example 1 example_middleware
    health_request (Some (mkResponse 200)) boot_world
    = Some (Ok tt, boot_world).
Proof.
  assert (Hurl : disable_tracing_url_example (url health_request)
                   (blacklist_paths example_middleware) = true)
    by (vm_compute; reflexivity).
  assert (Hitem : items health_request !! "tracer" = None) by (vm_compute; reflexivity).
  split; [right; left; exact Hurl|]. split; [exact Hitem|].
  exact (skipped_request_is_skipped_in_both_phases disable_tracing_url_example
           py_str_example 1 example_middleware health_request (Some (mkResponse 200))
           boot_world (or_intror (or_introl Hurl)) Hitem).
Defined.

Lemma response_closes_every_open_span_witness :
  disable_tracing_url_example (url traced_request) (blacklist_paths example_middleware)
    = false ∧
  items traced_request !! "tracer" = Some (ContextTracerRef 0) ∧
  top_is_current 0 two_open_world ∧
  open_spans 0 two_open_world = ([0] ++ [1])%list ∧
  trace_span.children (spans two_open_world !!! 1) = [] ∧
  length [0] < 2 ∧
  ∃ w' d batches,
    do_trace_response disable_tracing_url_example py_str_example 2 example_middleware
      traced_request (Some (mkResponse 503)) two_open_world = Some (Ok tt, w') ∧
    open_spans 0 w' = [] ∧
    ctx_span w' = None ∧
    exported w' = (exported two_open_world ++
      (tracer_obj.exporter (tracers two_open_world !!! 0), [d]) :: batches)%list ∧
    length batches = 1 ∧
    span_data_module.source d = 1 ∧
    span_data_module.attributes d !! "http.status_code"
      = Some (PStr (py_str_example (PInt 503))) ∧
    span_data_module.attributes d !! "error" = Some (PBool true).
Proof.
  split; [vm_compute; reflexivity|]. split; [vm_compute; reflexivity|].
  split; [exact two_open_world_top_is_current|]. split; [vm_compute; reflexivity|].
  split; [vm_compute; reflexivity|]. split; [simpl; lia|].
  destruct (response_closes_every_open_span disable_tracing_url_example py_str_example 2
              example_middleware traced_request (Some (mkResponse 503)) two_open_world
              0 [0] 1 ltac:(vm_compute; reflexivity) ltac:(vm_compute; reflexivity)
              two_open_world_top_is_current ltac:(vm_compute; reflexivity)
              ltac:(vm_compute; reflexivity) ltac:(simpl; lia))
    as (w' & d & batches & Hrun & Hopen & Hcur & _ & Hexp & Hlen & Hsrc & _ & Hcode
        & Herr & _).
  exists w', d, batches. split; [exact Hrun|]. split; [exact Hopen|].
  split; [exact Hcur|]. split; [exact Hexp|]. split; [exact Hlen|].
  split; [exact Hsrc|]. split; [exact Hcode|exact Herr].
Defined.

Lemma response_without_current_span_raises_witness :
  disable_tracing_url_example (url traced_request) (blacklist_paths example_middleware)
    = false ∧
  items traced_request !! "tracer" = Some (ContextTracerRef 0) ∧
  ctx_span detached_world = None ∧
  do_trace_response disable_tracing_url_example py_str_example 3 example_middleware
    traced_request (Some (mkResponse 200)) detached_world
  = Some (Raise (AttributeError "'NoneType' object has no attribute 'add_attribute'"),
          detached_world).
Proof.
  split; [vm_compute; reflexivity|]. split; [vm_compute; reflexivity|].
  split; [reflexivity|].
  exact (response_without_current_span_raises disable_tracing_url_example py_str_example
           3 example_middleware traced_request (Some (mkResponse 200)) detached_world 0
           ltac:(vm_compute; reflexivity) ltac:(vm_compute; reflexivity) eq_refl).
Defined.

